(** * F1 MCP server: the API client (services/f1ApiClient.js)

    A shallow embedding of [F1ApiClient] in its two variants.  The
    caching client talks to the data provider directly: the error
    formatter of the axios response interceptor, the TTL classifier, the
    cached request path [makeRequest] over a node-cache store, the health
    probe and the fourteen data operations.  The proxy client talks to
    the f1-api-proxy service and has no cache.  The properties of the
    specification that concern them follow the definitions.  Logging has
    no effect on results and is left out. *)

From Stdlib Require Import ZArith Lia Bool Ascii String DecimalString.
From stdpp Require Import base option gmap strings list.

Local Set Warnings "-register-all".
Local Open Scope Z_scope.

(* ===================================================================== *)
(** ** Strings: [String.prototype.includes] *)
(* ===================================================================== *)

(** [startsWith p s]: [s] begins with [p]. *)
Fixpoint startsWith (p s : string) : bool :=
  match p, s with
  | EmptyString, _ => true
  | String _ _, EmptyString => false
  | String a p', String b s' => Ascii.eqb a b && startsWith p' s'
  end.

(** [includes needle s] is [s.includes(needle)]: some position of [s]
    starts an occurrence of [needle]; the comparison is by code unit,
    hence case-sensitive. *)
Fixpoint includes (needle s : string) : bool :=
  startsWith needle s ||
  match s with
  | EmptyString => false
  | String _ s' => includes needle s'
  end.

(** The declarative reading of "[s] contains [needle]". *)
Definition contains (needle s : string) : Prop :=
  exists pre suf : string, s = pre +:+ needle +:+ suf.

(** [hasChar c s]: the character [c] occurs in [s]. *)
Fixpoint hasChar (c : ascii) (s : string) : bool :=
  match s with
  | EmptyString => false
  | String a s' => Ascii.eqb a c || hasChar c s'
  end.

(* ===================================================================== *)
(** ** TTL classification *)
(* ===================================================================== *)

(** [getCacheTTL(endpoint)], in seconds. *)
Definition getCacheTTL (endpoint : string) : Z :=
  if includes "current" endpoint then 60
  else if includes "standings" endpoint || includes "results" endpoint then 300
  else if includes "drivers" endpoint || includes "constructors" endpoint then 3600
  else 1800.

(* ===================================================================== *)
(** ** JavaScript values *)
(* ===================================================================== *)

(** The values a response body, a cache entry or a caller's argument can
    be.  [undefined] is not a [Json]: an expression that may evaluate to
    [undefined] has type [option Json], with [None] for [undefined].
    Numbers are integers: the client only tests them for truthiness and
    pastes them into paths. *)
Inductive Json : Type :=
| JNull
| JBool (b : bool)
| JNum (n : Z)
| JStr (s : string)
| JArr (items : list Json)
| JObj (fields : list (string * Json)).

(** [ToBoolean]. *)
Definition truthy (x : Json) : bool :=
  match x with
  | JNull => false
  | JBool b => b
  | JNum n => negb (n =? 0)
  | JStr EmptyString => false
  | JStr (String _ _) => true
  | JArr _ | JObj _ => true
  end.

(** Decimal form of an integer-valued Number (plain digits below 1e21). *)
Definition decimal (n : Z) : string := NilZero.string_of_int (Z.to_int n).

(** [ToString], as applied by template literals and by [new Error(x)]. *)
Fixpoint toString (x : Json) : string :=
  match x with
  | JNull => "null"
  | JBool true => "true"
  | JBool false => "false"
  | JNum n => decimal n
  | JStr s => s
  | JArr items =>
      (fix join (l : list Json) : string :=
         match l with
         | [] => ""
         | y :: r =>
             (match y with JNull => "" | _ => toString y end) +:+
             (match r with [] => "" | _ => "," +:+ join r end)
         end) items
  | JObj _ => "[object Object]"
  end.

(** [`${p}`] for an argument that may have been omitted. *)
Definition template (p : option Json) : string :=
  match p with
  | Some x => toString x
  | None => "undefined"
  end.

(** Own-property lookup in an object literal. *)
Fixpoint assoc (k : string) (fields : list (string * Json)) : option Json :=
  match fields with
  | [] => None
  | (k', x) :: rest => if String.eqb k k' then Some x else assoc k rest
  end.

(** [x.k] for [x] other than [null] and [undefined].  The keys the client
    reads ([MRData], [RaceTable], [error], [message], [code], ...) are own
    properties of parsed objects only; strings, numbers, booleans and
    arrays have none of them. *)
Definition member (x : Json) (k : string) : option Json :=
  match x with
  | JObj fields => assoc k fields
  | _ => None
  end.

(** Optional chaining [x?.k]. *)
Definition optMember (x : option Json) (k : string) : option Json :=
  match x with
  | None | Some JNull => None
  | Some y => member y k
  end.

(** [a || b]. *)
Definition jsOr (a b : option Json) : option Json :=
  match a with
  | Some x => if truthy x then a else b
  | None => b
  end.

(** [a || b] when [b] is never [undefined]. *)
Definition jsOrElse (a : option Json) (b : Json) : Json :=
  match a with
  | Some x => if truthy x then x else b
  | None => b
  end.

(** A default parameter value [p = d]: used only when [p] is [undefined]. *)
Definition orDefault (d : Json) (p : option Json) : Json :=
  match p with
  | Some x => x
  | None => d
  end.

Notation "x ?. k" := (optMember x k) (at level 33, left associativity).

(* ===================================================================== *)
(** ** HTTP responses and error objects *)
(* ===================================================================== *)

Module Response.
(** What the client reads of an axios response. *)
Record t : Type := mk { status : Z; data : Json }.
End Response.

(** A JavaScript [Error] with the optional fields the client reads or
    writes: [status] and [code] are set by [formatError]; [response] and
    [request] are the fields of an axios error. *)
Record JsError : Type := mkError {
  message : string;
  status : option Z;
  code : option Json;
  response : option Response.t;
  request : bool
}.

(** [new Error(msg)]. *)
Definition newError (msg : string) : JsError :=
  {| message := msg; status := None; code := None;
     response := None; request := false |}.

(** The [TypeError] of reading property [k] of [null]. *)
Definition typeErrorNull (k : string) : JsError :=
  newError ("Cannot read properties of null (reading '" +:+ k +:+ "')").

(** [formatError(error)]; the two clients differ only in the text of the
    network error. *)
Definition formatErrorWith (unavailable : string) (error : JsError) : JsError :=
  match response error with
  | Some r =>
      let body := Some (Response.data r) in
      {| message :=
           toString (jsOrElse (body ?. "error" ?. "message")
                              (JStr "F1 API request failed"));
         status := Some (Response.status r);
         code := Some (jsOrElse (body ?. "error" ?. "code") (JStr "API_ERROR"));
         response := None;
         request := false |}
  | None =>
      if request error then
        {| message := unavailable;
           status := None;
           code := Some (JStr "NETWORK_ERROR");
           response := None;
           request := false |}
      else error
  end.

Definition formatError : JsError -> JsError :=
  formatErrorWith "Jolpica F1 API service unavailable".

(* ===================================================================== *)
(** ** The axios instance *)
(* ===================================================================== *)

(** A call [client.get(url, { params })]. *)
Record HttpRequest : Type := mkRequest {
  url : string;
  params : list (string * Json)
}.

(** What happens to a request on the wire: a response arrives (with any
    status), the request is sent and nothing comes back (timeout,
    connection refused, DNS failure), or the request cannot be built. *)
Inductive Outcome : Type :=
| Responded (r : Response.t)
| NoResponse (msg : string) (errCode : option Json)
| NotSent (msg : string) (errCode : option Json).

Record Reply : Type := mkReply { latency : N; outcome : Outcome }.

(** axios's default [validateStatus]. *)
Definition validateStatus (st : Z) : bool := (200 <=? st) && (st <? 300).

(** The error code axios attaches to a rejected status:
    [[ERR_BAD_REQUEST, ERR_BAD_RESPONSE][Math.floor(status / 100) - 4]]. *)
Definition badStatusCode (st : Z) : option Json :=
  if st / 100 - 4 =? 0 then Some (JStr "ERR_BAD_REQUEST")
  else if st / 100 - 4 =? 1 then Some (JStr "ERR_BAD_RESPONSE")
  else None.

Inductive Completion (A : Type) : Type :=
| Returned (a : A)
| Thrown (e : JsError).
Arguments Returned {A} a.
Arguments Thrown {A} e.

(** axios's [settle]: a response resolves when its status passes
    [validateStatus], and rejects with an error carrying the response
    otherwise. *)
Definition settle (r : Response.t) : Completion Response.t :=
  if (Response.status r =? 0) || validateStatus (Response.status r) then Returned r
  else Thrown {| message := "Request failed with status code "
                            +:+ decimal (Response.status r);
                 status := None;
                 code := badStatusCode (Response.status r);
                 response := Some r;
                 request := true |}.

Definition dispatchRequest (o : Outcome) : Completion Response.t :=
  match o with
  | Responded r => settle r
  | NoResponse msg c =>
      Thrown {| message := msg; status := None; code := c;
                response := None; request := true |}
  | NotSent msg c =>
      Thrown {| message := msg; status := None; code := c;
                response := None; request := false |}
  end.

(* ===================================================================== *)
(** ** node-cache *)
(* ===================================================================== *)

(** The store of the node-cache package (a dependency, version 5), as
    constructed by the client: every option but [stdTTL] and
    [checkperiod] has its default, so expired entries are deleted when a
    lookup or the periodic sweep meets them.  Values are immutable here,
    hence cloning is the identity; the hit and miss counters are left
    out. *)
Module NodeCache.
(** The wrapper [{ t: livetime, v: value }]; [t = 0] never expires. *)
Record Entry : Type := mkEntry { t : Z; v : Json }.

(** [_check]: the entry may still be served at time [now]. *)
Definition check (now : Z) (e : Entry) : bool :=
  negb (negb (t e =? 0) && (t e <? now)).

(** [_wrap(value, ttl)] at time [now], [ttl] in seconds. *)
Definition wrap (now : Z) (value : Json) (ttl : Z) : Entry :=
  {| t := if ttl =? 0 then 0 else now + ttl * 1000; v := value |}.

(** [get(key)]: the value, or [undefined] when the key is absent or
    expired; an expired entry is deleted. *)
Definition get (key : string) (now : Z) (data : gmap string Entry)
  : option Json * gmap string Entry :=
  match data !! key with
  | Some e =>
      if check now e then (Some (v e), data) else (None, delete key data)
  | None => (None, data)
  end.

(** [set(key, value, ttl)]. *)
Definition set (key : string) (value : Json) (ttl : Z) (now : Z)
           (data : gmap string Entry) : gmap string Entry :=
  <[key := wrap now value ttl]> data.

(** [_checkData]: the periodic sweep. *)
Definition checkData (now : Z) (data : gmap string Entry)
  : gmap string Entry :=
  filter (fun kv => check now (snd kv) = true) data.

(** [flushAll()]. *)
Definition flushAll (data : gmap string Entry) : gmap string Entry := ∅.
End NodeCache.

(* ===================================================================== *)
(** ** The process state and the monad of client code *)
(* ===================================================================== *)

(** The mutable state the client touches: the cache store, the wall
    clock in milliseconds ([Date.now()]), and the requests handed to the
    axios instance so far, oldest first. *)
Record World : Type := mkWorld {
  cache : gmap string NodeCache.Entry;
  clock : Z;
  calls : list HttpRequest
}.

(** A computation runs on a world and either returns or throws. *)
Definition M (A : Type) : Type := World -> Completion A * World.

Definition ret {A : Type} (a : A) : M A := fun w => (Returned a, w).

Definition throw {A : Type} (e : JsError) : M A := fun w => (Thrown e, w).

Definition bind {A B : Type} (m : M A) (k : A -> M B) : M B :=
  fun w =>
    match m w with
    | (Returned a, w') => k a w'
    | (Thrown e, w') => (Thrown e, w')
    end.

(** [try { m } catch (error) { h error }]. *)
Definition tryCatch {A : Type} (m : M A) (h : JsError -> M A) : M A :=
  fun w =>
    match m w with
    | (Returned a, w') => (Returned a, w')
    | (Thrown e, w') => h e w'
    end.

Definition liftC {A : Type} (c : Completion A) : M A := fun w => (c, w).

Notation "'do' x <- m ; k" := (bind m (fun x => k))
  (at level 10, x name, m at level 100, k at level 200).

(** [this.cache.get(key)]. *)
Definition cache_get (key : string) : M (option Json) :=
  fun w =>
    let (found, data) := NodeCache.get key (clock w) (cache w) in
    (Returned found, {| cache := data; clock := clock w; calls := calls w |}).

(** [this.cache.set(key, value, ttl)]. *)
Definition cache_set (key : string) (value : Json) (ttl : Z) : M unit :=
  fun w =>
    (Returned tt,
     {| cache := NodeCache.set key value ttl (clock w) (cache w);
        clock := clock w;
        calls := calls w |}).

(** An envelope: the properties of an object literal, in order. *)
Definition Envelope : Type := list (string * option Json).

(** [data.MRData]: a [TypeError] when the body is [null]. *)
Definition mrData (data : Json) : Completion (option Json) :=
  match data with
  | JNull => Thrown (typeErrorNull "MRData")
  | _ => Returned (member data "MRData")
  end.

(** [await this.client.get(url, { params })] on an axios instance whose
    response interceptor rejects with [fmt error]: the call is recorded,
    the clock advances by the time the provider takes, and the reply is
    settled. *)
Definition clientGet (upstream : HttpRequest -> Z -> Reply)
           (fmt : JsError -> JsError) (req : HttpRequest) : M Response.t :=
  fun w =>
    let reply := upstream req (clock w) in
    let w' := {| cache := cache w;
                 clock := clock w + Z.of_N (latency reply);
                 calls := calls w ++ [req] |} in
    match dispatchRequest (outcome reply) with
    | Returned r => (Returned r, w')
    | Thrown e => (Thrown (fmt e), w')
    end.

(** A plain [GET] of a path. *)
Definition plainGet (path : string) : HttpRequest :=
  {| url := path; params := [] |}.

(* ===================================================================== *)
(** ** Endpoint requests *)
(* ===================================================================== *)

(** An Endpoint Request: a logical operation with its arguments, an
    omitted argument being [None]. *)
Inductive EndpointRequest : Type :=
| GetSeasons
| GetCurrentSeason
| GetRaces (season : option Json)
| GetRace (season round : option Json)
| GetCurrentRace
| GetNextRace
| GetDrivers (season : option Json)
| GetDriver (driverId season : option Json)
| GetConstructors (season : option Json)
| GetConstructor (constructorId season : option Json)
| GetRaceResults (season round : option Json)
| GetQualifyingResults (season round : option Json)
| GetDriverStandings (season : option Json)
| GetConstructorStandings (season : option Json).

(* ===================================================================== *)
(** ** The caching client (direct access to the provider) *)
(* ===================================================================== *)

Section F1ApiClient.

(** The provider: its answer to a request issued at a given time. *)
Variable upstream : HttpRequest -> Z -> Reply.

(** [new Date(now).getFullYear().toString()] in the process's zone. *)
Variable fullYear : Z -> string.

Definition client_get : HttpRequest -> M Response.t :=
  clientGet upstream formatError.

(** [makeRequest(endpoint)]: a truthy cached value is returned at
    once; otherwise the [try] block [miss] runs. *)
Definition makeRequest (endpoint : string) : M Json :=
  let cacheKey := endpoint in
  let miss :=
    tryCatch
      (do resp <- client_get (plainGet endpoint);
       let data := Response.data resp in
       let ttl := getCacheTTL endpoint in
       do _ <- cache_set cacheKey data ttl;
       ret data)
      (fun error => throw error) in
  do cached <- cache_get cacheKey;
  match cached with
  | Some hit => if truthy hit then ret hit else miss
  | None => miss
  end.

(** [healthCheck()]. *)
Definition healthCheck : M bool :=
  tryCatch
    (do resp <- client_get {| url := "/seasons.json";
                              params := [("limit", JNum 1)] |};
     ret (Response.status resp =? 200))
    (fun error => ret false).

(** [getSeasons()]. *)
Definition getSeasons : M Envelope :=
  do data <- makeRequest "/seasons.json";
  do mr <- liftC (mrData data);
  ret [("success", Some (JBool true));
       ("data", Some (jsOrElse (mr ?. "SeasonTable" ?. "Seasons") (JArr [])));
       ("total", Some (jsOrElse (mr ?. "total") (JStr "0")))].

(** [getCurrentSeason()]. *)
Definition getCurrentSeason : M Envelope :=
  do data <- makeRequest "/current.json";
  do mr <- liftC (mrData data);
  fun w =>
    ret [("success", Some (JBool true));
         ("data", Some (jsOrElse (mr ?. "RaceTable" ?. "Races") (JArr [])));
         ("season", Some (jsOrElse (mr ?. "RaceTable" ?. "season")
                                   (JStr (fullYear (clock w)))))] w.

(** [getRaces(season = 'current')]. *)
Definition getRaces (season : option Json) : M Envelope :=
  let season := orDefault (JStr "current") season in
  do data <- makeRequest ("/" +:+ toString season +:+ ".json");
  do mr <- liftC (mrData data);
  ret [("success", Some (JBool true));
       ("data", Some (jsOrElse (mr ?. "RaceTable" ?. "Races") (JArr [])));
       ("season", Some (jsOrElse (mr ?. "RaceTable" ?. "season") season))].

(** [getRace(season, round)]. *)
Definition getRace (season round : option Json) : M Envelope :=
  do data <- makeRequest
               ("/" +:+ template season +:+ "/" +:+ template round +:+ ".json");
  do mr <- liftC (mrData data);
  ret [("success", Some (JBool true));
       ("data", Some (jsOrElse (mr ?. "RaceTable" ?. "Races") (JArr [])));
       ("season", jsOr (mr ?. "RaceTable" ?. "season") season);
       ("round", jsOr (mr ?. "RaceTable" ?. "round") round)].

(** [getCurrentRace()]. *)
Definition getCurrentRace : M Envelope :=
  do data <- makeRequest "/current/last.json";
  do mr <- liftC (mrData data);
  ret [("success", Some (JBool true));
       ("data", Some (jsOrElse (mr ?. "RaceTable" ?. "Races") (JArr [])));
       ("season", Some (jsOrElse (mr ?. "RaceTable" ?. "season")
                                 (JStr "current")))].

(** [getNextRace()]. *)
Definition getNextRace : M Envelope :=
  do data <- makeRequest "/current/next.json";
  do mr <- liftC (mrData data);
  ret [("success", Some (JBool true));
       ("data", Some (jsOrElse (mr ?. "RaceTable" ?. "Races") (JArr [])));
       ("season", Some (jsOrElse (mr ?. "RaceTable" ?. "season")
                                 (JStr "current")))].

(** [getDrivers(season = 'current')]. *)
Definition getDrivers (season : option Json) : M Envelope :=
  let season := orDefault (JStr "current") season in
  do data <- makeRequest ("/" +:+ toString season +:+ "/drivers.json");
  do mr <- liftC (mrData data);
  ret [("success", Some (JBool true));
       ("data", Some (jsOrElse (mr ?. "DriverTable" ?. "Drivers") (JArr [])));
       ("season", Some (jsOrElse (mr ?. "DriverTable" ?. "season") season))].

(** [getDriver(driverId, season = 'current')]. *)
Definition getDriver (driverId season : option Json) : M Envelope :=
  let season := orDefault (JStr "current") season in
  do data <- makeRequest ("/" +:+ toString season +:+ "/drivers/"
                          +:+ template driverId +:+ ".json");
  do mr <- liftC (mrData data);
  ret [("success", Some (JBool true));
       ("data", Some (jsOrElse (mr ?. "DriverTable" ?. "Drivers") (JArr [])));
       ("season", Some (jsOrElse (mr ?. "DriverTable" ?. "season") season));
       ("driverId", driverId)].

(** [getConstructors(season = 'current')]. *)
Definition getConstructors (season : option Json) : M Envelope :=
  let season := orDefault (JStr "current") season in
  do data <- makeRequest ("/" +:+ toString season +:+ "/constructors.json");
  do mr <- liftC (mrData data);
  ret [("success", Some (JBool true));
       ("data", Some (jsOrElse (mr ?. "ConstructorTable" ?. "Constructors")
                               (JArr [])));
       ("season", Some (jsOrElse (mr ?. "ConstructorTable" ?. "season")
                                 season))].

(** [getConstructor(constructorId, season = 'current')]. *)
Definition getConstructor (constructorId season : option Json) : M Envelope :=
  let season := orDefault (JStr "current") season in
  do data <- makeRequest ("/" +:+ toString season +:+ "/constructors/"
                          +:+ template constructorId +:+ ".json");
  do mr <- liftC (mrData data);
  ret [("success", Some (JBool true));
       ("data", Some (jsOrElse (mr ?. "ConstructorTable" ?. "Constructors")
                               (JArr [])));
       ("season", Some (jsOrElse (mr ?. "ConstructorTable" ?. "season")
                                 season));
       ("constructorId", constructorId)].

(** [getRaceResults(season, round)]. *)
Definition getRaceResults (season round : option Json) : M Envelope :=
  do data <- makeRequest ("/" +:+ template season +:+ "/" +:+ template round
                          +:+ "/results.json");
  do mr <- liftC (mrData data);
  ret [("success", Some (JBool true));
       ("data", Some (jsOrElse (mr ?. "RaceTable" ?. "Races") (JArr [])));
       ("season", jsOr (mr ?. "RaceTable" ?. "season") season);
       ("round", jsOr (mr ?. "RaceTable" ?. "round") round)].

(** [getQualifyingResults(season, round)]. *)
Definition getQualifyingResults (season round : option Json) : M Envelope :=
  do data <- makeRequest ("/" +:+ template season +:+ "/" +:+ template round
                          +:+ "/qualifying.json");
  do mr <- liftC (mrData data);
  ret [("success", Some (JBool true));
       ("data", Some (jsOrElse (mr ?. "RaceTable" ?. "Races") (JArr [])));
       ("season", jsOr (mr ?. "RaceTable" ?. "season") season);
       ("round", jsOr (mr ?. "RaceTable" ?. "round") round)].

(** [getDriverStandings(season = 'current')]. *)
Definition getDriverStandings (season : option Json) : M Envelope :=
  let season := orDefault (JStr "current") season in
  do data <- makeRequest ("/" +:+ toString season +:+ "/driverStandings.json");
  do mr <- liftC (mrData data);
  ret [("success", Some (JBool true));
       ("data", Some (jsOrElse (mr ?. "StandingsTable" ?. "StandingsLists")
                               (JArr [])));
       ("season", Some (jsOrElse (mr ?. "StandingsTable" ?. "season")
                                 season))].

(** [getConstructorStandings(season = 'current')]. *)
Definition getConstructorStandings (season : option Json) : M Envelope :=
  let season := orDefault (JStr "current") season in
  do data <- makeRequest ("/" +:+ toString season
                          +:+ "/constructorStandings.json");
  do mr <- liftC (mrData data);
  ret [("success", Some (JBool true));
       ("data", Some (jsOrElse (mr ?. "StandingsTable" ?. "StandingsLists")
                               (JArr [])));
       ("season", Some (jsOrElse (mr ?. "StandingsTable" ?. "season")
                                 season))].

(** [clearCache()]. *)
Definition clearCache : M unit :=
  fun w =>
    (Returned tt,
     {| cache := NodeCache.flushAll (cache w);
        clock := clock w;
        calls := calls w |}).

(** The call a request stands for. *)
Definition invoke (r : EndpointRequest) : M Envelope :=
  match r with
  | GetSeasons => getSeasons
  | GetCurrentSeason => getCurrentSeason
  | GetRaces season => getRaces season
  | GetRace season round => getRace season round
  | GetCurrentRace => getCurrentRace
  | GetNextRace => getNextRace
  | GetDrivers season => getDrivers season
  | GetDriver driverId season => getDriver driverId season
  | GetConstructors season => getConstructors season
  | GetConstructor constructorId season => getConstructor constructorId season
  | GetRaceResults season round => getRaceResults season round
  | GetQualifyingResults season round => getQualifyingResults season round
  | GetDriverStandings season => getDriverStandings season
  | GetConstructorStandings season => getConstructorStandings season
  end.

End F1ApiClient.

(** The logical operations. *)
Inductive Operation : Type :=
| OpSeasons | OpCurrentSeason | OpRaces | OpRace | OpCurrentRace | OpNextRace
| OpDrivers | OpDriver | OpConstructors | OpConstructor | OpRaceResults
| OpQualifyingResults | OpDriverStandings | OpConstructorStandings.

Definition operation (r : EndpointRequest) : Operation :=
  match r with
  | GetSeasons => OpSeasons
  | GetCurrentSeason => OpCurrentSeason
  | GetRaces _ => OpRaces
  | GetRace _ _ => OpRace
  | GetCurrentRace => OpCurrentRace
  | GetNextRace => OpNextRace
  | GetDrivers _ => OpDrivers
  | GetDriver _ _ => OpDriver
  | GetConstructors _ => OpConstructors
  | GetConstructor _ _ => OpConstructor
  | GetRaceResults _ _ => OpRaceResults
  | GetQualifyingResults _ _ => OpQualifyingResults
  | GetDriverStandings _ => OpDriverStandings
  | GetConstructorStandings _ => OpConstructorStandings
  end.

(** The season of a request as it is pasted into the path: the text of
    the argument, ["current"] standing in for an omitted one where the
    operation has that default. *)
Definition seasonText (r : EndpointRequest) : option string :=
  match r with
  | GetSeasons | GetCurrentSeason | GetCurrentRace | GetNextRace => None
  | GetRaces season | GetDrivers season | GetConstructors season
  | GetDriverStandings season | GetConstructorStandings season
  | GetDriver _ season | GetConstructor _ season =>
      Some (toString (orDefault (JStr "current") season))
  | GetRace season _ | GetRaceResults season _
  | GetQualifyingResults season _ => Some (template season)
  end.

(** The other argument of a request (round or identifier), as text. *)
Definition otherText (r : EndpointRequest) : option string :=
  match r with
  | GetRace _ round | GetRaceResults _ round
  | GetQualifyingResults _ round => Some (template round)
  | GetDriver ident _ | GetConstructor ident _ => Some (template ident)
  | _ => None
  end.

(** The resolved path of a request, which [makeRequest] takes as the
    cache key ([const cacheKey = endpoint]). *)
Definition cacheKey (r : EndpointRequest) : string :=
  match r with
  | GetSeasons => "/seasons.json"
  | GetCurrentSeason => "/current.json"
  | GetRaces season =>
      "/" +:+ toString (orDefault (JStr "current") season) +:+ ".json"
  | GetRace season round =>
      "/" +:+ template season +:+ "/" +:+ template round +:+ ".json"
  | GetCurrentRace => "/current/last.json"
  | GetNextRace => "/current/next.json"
  | GetDrivers season =>
      "/" +:+ toString (orDefault (JStr "current") season) +:+ "/drivers.json"
  | GetDriver driverId season =>
      "/" +:+ toString (orDefault (JStr "current") season) +:+ "/drivers/"
      +:+ template driverId +:+ ".json"
  | GetConstructors season =>
      "/" +:+ toString (orDefault (JStr "current") season)
      +:+ "/constructors.json"
  | GetConstructor constructorId season =>
      "/" +:+ toString (orDefault (JStr "current") season) +:+ "/constructors/"
      +:+ template constructorId +:+ ".json"
  | GetRaceResults season round =>
      "/" +:+ template season +:+ "/" +:+ template round +:+ "/results.json"
  | GetQualifyingResults season round =>
      "/" +:+ template season +:+ "/" +:+ template round +:+ "/qualifying.json"
  | GetDriverStandings season =>
      "/" +:+ toString (orDefault (JStr "current") season)
      +:+ "/driverStandings.json"
  | GetConstructorStandings season =>
      "/" +:+ toString (orDefault (JStr "current") season)
      +:+ "/constructorStandings.json"
  end.

(** A season text without ["/"] (a year, ["current"]). *)
Definition plainSeason (r : EndpointRequest) : bool :=
  match seasonText r with
  | Some s => negb (hasChar "/" s)
  | None => true
  end.

(* ===================================================================== *)
(** ** The proxy client (access through the f1-api-proxy service) *)
(* ===================================================================== *)

(** The variant of the client that talks to the proxy service: the same
    axios instance and error formatter, no cache, and operations that
    hand back [response.data]. *)
Module ProxyClient.
Section ProxyClient.

Variable upstream : HttpRequest -> Z -> Reply.

Definition formatError : JsError -> JsError :=
  formatErrorWith "F1 API service unavailable".

Definition client_get : HttpRequest -> M Response.t :=
  clientGet upstream formatError.

(** The body of every data operation: [(await client.get(path)).data]. *)
Definition fetchData (path : string) : M Json :=
  do resp <- client_get (plainGet path);
  ret (Response.data resp).

Definition healthCheck : M bool :=
  tryCatch
    (do resp <- client_get (plainGet "/health");
     ret (Response.status resp =? 200))
    (fun error => ret false).

Definition getSeasons : M Json := fetchData "/api/seasons".

Definition getCurrentSeason : M Json := fetchData "/api/seasons/current".

Definition getRaces (season : option Json) : M Json :=
  let season := orDefault (JStr "current") season in
  fetchData ("/api/races/" +:+ toString season).

Definition getRace (season round : option Json) : M Json :=
  fetchData ("/api/races/" +:+ template season +:+ "/" +:+ template round).

Definition getCurrentRace : M Json := fetchData "/api/races/current/current".

Definition getNextRace : M Json := fetchData "/api/races/current/next".

Definition getDrivers (season : option Json) : M Json :=
  let season := orDefault (JStr "current") season in
  fetchData ("/api/drivers/" +:+ toString season).

Definition getDriver (driverId season : option Json) : M Json :=
  let season := orDefault (JStr "current") season in
  fetchData ("/api/drivers/" +:+ toString season +:+ "/"
             +:+ template driverId).

Definition getConstructors (season : option Json) : M Json :=
  let season := orDefault (JStr "current") season in
  fetchData ("/api/constructors/" +:+ toString season).

Definition getConstructor (constructorId season : option Json) : M Json :=
  let season := orDefault (JStr "current") season in
  fetchData ("/api/constructors/" +:+ toString season +:+ "/"
             +:+ template constructorId).

Definition getRaceResults (season round : option Json) : M Json :=
  fetchData ("/api/results/" +:+ template season +:+ "/" +:+ template round).

Definition getQualifyingResults (season round : option Json) : M Json :=
  fetchData ("/api/results/" +:+ template season +:+ "/" +:+ template round
             +:+ "/qualifying").

Definition getDriverStandings (season : option Json) : M Json :=
  let season := orDefault (JStr "current") season in
  fetchData ("/api/results/" +:+ toString season +:+ "/drivers").

Definition getConstructorStandings (season : option Json) : M Json :=
  let season := orDefault (JStr "current") season in
  fetchData ("/api/results/" +:+ toString season +:+ "/constructors").

Definition invoke (r : EndpointRequest) : M Json :=
  match r with
  | GetSeasons => getSeasons
  | GetCurrentSeason => getCurrentSeason
  | GetRaces season => getRaces season
  | GetRace season round => getRace season round
  | GetCurrentRace => getCurrentRace
  | GetNextRace => getNextRace
  | GetDrivers season => getDrivers season
  | GetDriver driverId season => getDriver driverId season
  | GetConstructors season => getConstructors season
  | GetConstructor constructorId season => getConstructor constructorId season
  | GetRaceResults season round => getRaceResults season round
  | GetQualifyingResults season round => getQualifyingResults season round
  | GetDriverStandings season => getDriverStandings season
  | GetConstructorStandings season => getConstructorStandings season
  end.

End ProxyClient.
End ProxyClient.

(* ===================================================================== *)
(** ** Observations on worlds and envelopes *)
(* ===================================================================== *)

(** What [cache.get(key)] returns in world [w]. *)
Definition cached (key : string) (w : World) : option Json :=
  fst (NodeCache.get key (clock w) (cache w)).

(** [makeRequest] takes the lookup for a hit: the value is truthy. *)
Definition isHit (key : string) (w : World) : bool :=
  match cached key w with
  | Some x => truthy x
  | None => false
  end.

(** The world once [cache.get(key)] has run. *)
Definition afterLookup (key : string) (w : World) : World :=
  {| cache := snd (NodeCache.get key (clock w) (cache w));
     clock := clock w;
     calls := calls w |}.

(** The entry for [key] is populated and not expired. *)
Definition liveEntry (key : string) (w : World) (e : NodeCache.Entry) : Prop :=
  cache w !! key = Some e /\ NodeCache.check (clock w) e = true.

(** [env.k] on an envelope. *)
Fixpoint field (k : string) (env : Envelope) : option Json :=
  match env with
  | [] => None
  | (k', x) :: rest => if String.eqb k k' then x else field k rest
  end.

(** The envelope as a JSON object: what [JSON.stringify] keeps of it
    (a property whose value is [undefined] is dropped). *)
Fixpoint objectOf (env : Envelope) : list (string * Json) :=
  match env with
  | [] => []
  | (k, Some x) :: rest => (k, x) :: objectOf rest
  | (_, None) :: rest => objectOf rest
  end.

(** Every argument of the request is a string. *)
Definition isString (p : option Json) : bool :=
  match p with
  | Some (JStr _) => true
  | _ => false
  end.

Definition stringArgs (r : EndpointRequest) : bool :=
  match r with
  | GetSeasons | GetCurrentSeason | GetCurrentRace | GetNextRace => true
  | GetRaces a | GetDrivers a | GetConstructors a
  | GetDriverStandings a | GetConstructorStandings a => isString a
  | GetRace a b | GetDriver a b | GetConstructor a b
  | GetRaceResults a b | GetQualifyingResults a b => isString a && isString b
  end.

(** Where the body of a request keeps its list, under [MRData]: the
    table and the property read into the envelope's [data]. *)
Definition dataPath (r : EndpointRequest) : string * string :=
  match r with
  | GetSeasons => ("SeasonTable", "Seasons")
  | GetCurrentSeason | GetRaces _ | GetRace _ _ | GetCurrentRace | GetNextRace
  | GetRaceResults _ _ | GetQualifyingResults _ _ => ("RaceTable", "Races")
  | GetDrivers _ | GetDriver _ _ => ("DriverTable", "Drivers")
  | GetConstructors _ | GetConstructor _ _ =>
      ("ConstructorTable", "Constructors")
  | GetDriverStandings _ | GetConstructorStandings _ =>
      ("StandingsTable", "StandingsLists")
  end.

(** The list an envelope reports for a body. *)
Definition listOf (r : EndpointRequest) (body : Json) : Json :=
  jsOrElse (Some body ?. "MRData" ?. fst (dataPath r) ?. snd (dataPath r))
           (JArr []).

(** The substrings [getCacheTTL] looks for. *)
Definition ttlKeywords : list string :=
  ["current"; "standings"; "results"; "drivers"; "constructors"].

(** [s] contains none of them. *)
Definition keywordFree (s : string) : bool :=
  forallb (fun n => negb (includes n s)) ttlKeywords.

(** The arguments of a request, as pasted into the path, contain none
    of the substrings [getCacheTTL] looks for. *)
Definition keywordFreeArgs (r : EndpointRequest) : bool :=
  match seasonText r with Some s => keywordFree s | None => true end &&
  match otherText r with Some s => keywordFree s | None => true end.

(** The TTL class of each operation when its arguments bring no keyword
    of their own, in seconds. *)
Definition ttlOf (op : Operation) : Z :=
  match op with
  | OpCurrentSeason | OpCurrentRace | OpNextRace => 60
  | OpRaceResults => 300
  | OpDrivers | OpDriver | OpConstructors | OpConstructor => 3600
  | OpSeasons | OpRaces | OpRace | OpQualifyingResults
  | OpDriverStandings | OpConstructorStandings => 1800
  end.

(** The path a request resolves to in the proxy client. *)
Definition proxyPath (r : EndpointRequest) : string :=
  match r with
  | GetSeasons => "/api/seasons"
  | GetCurrentSeason => "/api/seasons/current"
  | GetRaces season =>
      "/api/races/" +:+ toString (orDefault (JStr "current") season)
  | GetRace season round =>
      "/api/races/" +:+ template season +:+ "/" +:+ template round
  | GetCurrentRace => "/api/races/current/current"
  | GetNextRace => "/api/races/current/next"
  | GetDrivers season =>
      "/api/drivers/" +:+ toString (orDefault (JStr "current") season)
  | GetDriver driverId season =>
      "/api/drivers/" +:+ toString (orDefault (JStr "current") season) +:+ "/"
      +:+ template driverId
  | GetConstructors season =>
      "/api/constructors/" +:+ toString (orDefault (JStr "current") season)
  | GetConstructor constructorId season =>
      "/api/constructors/" +:+ toString (orDefault (JStr "current") season)
      +:+ "/" +:+ template constructorId
  | GetRaceResults season round =>
      "/api/results/" +:+ template season +:+ "/" +:+ template round
  | GetQualifyingResults season round =>
      "/api/results/" +:+ template season +:+ "/" +:+ template round
      +:+ "/qualifying"
  | GetDriverStandings season =>
      "/api/results/" +:+ toString (orDefault (JStr "current") season)
      +:+ "/drivers"
  | GetConstructorStandings season =>
      "/api/results/" +:+ toString (orDefault (JStr "current") season)
      +:+ "/constructors"
  end.

(* ===================================================================== *)
(** ** The tools (tools/*.js) *)
(* ===================================================================== *)

(** The handlers of the five tool modules.  Of their logger calls only
    the evaluation of the arguments is kept: reading [data.MRData] throws
    a [TypeError] on a [null] body, inside the [try] block.

    The client a tool module imports: either variant, seen through its
    fourteen operations. *)
Module Api.
Record t : Type := mk {
  getSeasons : M Json;
  getCurrentSeason : M Json;
  getRaces : option Json -> M Json;
  getRace : option Json -> option Json -> M Json;
  getCurrentRace : M Json;
  getNextRace : M Json;
  getDrivers : option Json -> M Json;
  getDriver : option Json -> option Json -> M Json;
  getConstructors : option Json -> M Json;
  getConstructor : option Json -> option Json -> M Json;
  getRaceResults : option Json -> option Json -> M Json;
  getQualifyingResults : option Json -> option Json -> M Json;
  getDriverStandings : option Json -> M Json;
  getConstructorStandings : option Json -> M Json
}.
End Api.

(** An envelope as the object a tool receives: reading a property whose
    value is [undefined] and reading an absent one give the same. *)
Definition asObject (m : M Envelope) : M Json :=
  do env <- m; ret (JObj (objectOf env)).

(** The caching client as a tool sees it. *)
Definition cachingApi (upstream : HttpRequest -> Z -> Reply)
           (fullYear : Z -> string) : Api.t :=
  {| Api.getSeasons := asObject (getSeasons upstream);
     Api.getCurrentSeason := asObject (getCurrentSeason upstream fullYear);
     Api.getRaces := fun season => asObject (getRaces upstream season);
     Api.getRace := fun season round => asObject (getRace upstream season round);
     Api.getCurrentRace := asObject (getCurrentRace upstream);
     Api.getNextRace := asObject (getNextRace upstream);
     Api.getDrivers := fun season => asObject (getDrivers upstream season);
     Api.getDriver := fun driverId season =>
                        asObject (getDriver upstream driverId season);
     Api.getConstructors := fun season =>
                              asObject (getConstructors upstream season);
     Api.getConstructor := fun constructorId season =>
                             asObject (getConstructor upstream constructorId season);
     Api.getRaceResults := fun season round =>
                             asObject (getRaceResults upstream season round);
     Api.getQualifyingResults :=
       fun season round => asObject (getQualifyingResults upstream season round);
     Api.getDriverStandings := fun season =>
                                 asObject (getDriverStandings upstream season);
     Api.getConstructorStandings :=
       fun season => asObject (getConstructorStandings upstream season) |}.

(** The proxy client as a tool sees it. *)
Definition proxyApi (upstream : HttpRequest -> Z -> Reply) : Api.t :=
  {| Api.getSeasons := ProxyClient.getSeasons upstream;
     Api.getCurrentSeason := ProxyClient.getCurrentSeason upstream;
     Api.getRaces := ProxyClient.getRaces upstream;
     Api.getRace := ProxyClient.getRace upstream;
     Api.getCurrentRace := ProxyClient.getCurrentRace upstream;
     Api.getNextRace := ProxyClient.getNextRace upstream;
     Api.getDrivers := ProxyClient.getDrivers upstream;
     Api.getDriver := ProxyClient.getDriver upstream;
     Api.getConstructors := ProxyClient.getConstructors upstream;
     Api.getConstructor := ProxyClient.getConstructor upstream;
     Api.getRaceResults := ProxyClient.getRaceResults upstream;
     Api.getQualifyingResults := ProxyClient.getQualifyingResults upstream;
     Api.getDriverStandings := ProxyClient.getDriverStandings upstream;
     Api.getConstructorStandings := ProxyClient.getConstructorStandings upstream |}.

(** The call of a client for an Endpoint Request. *)
Definition apiCall (api : Api.t) (r : EndpointRequest) : M Json :=
  match r with
  | GetSeasons => Api.getSeasons api
  | GetCurrentSeason => Api.getCurrentSeason api
  | GetRaces season => Api.getRaces api season
  | GetRace season round => Api.getRace api season round
  | GetCurrentRace => Api.getCurrentRace api
  | GetNextRace => Api.getNextRace api
  | GetDrivers season => Api.getDrivers api season
  | GetDriver driverId season => Api.getDriver api driverId season
  | GetConstructors season => Api.getConstructors api season
  | GetConstructor constructorId season =>
      Api.getConstructor api constructorId season
  | GetRaceResults season round => Api.getRaceResults api season round
  | GetQualifyingResults season round =>
      Api.getQualifyingResults api season round
  | GetDriverStandings season => Api.getDriverStandings api season
  | GetConstructorStandings season => Api.getConstructorStandings api season
  end.

(** [ToBoolean] of a value that may be [undefined]. *)
Definition truthyOpt (x : option Json) : bool :=
  match x with
  | Some y => truthy y
  | None => false
  end.

(** [x?.length]: the number of elements of an array, the length of a
    string (counted in bytes, which are its code units on ASCII text),
    the [length] property of an object. *)
Definition optLength (x : option Json) : option Json :=
  match x with
  | Some (JArr items) => Some (JNum (Z.of_nat (List.length items)))
  | Some (JStr s) => Some (JNum (Z.of_nat (String.length s)))
  | Some (JObj fields) => assoc "length" fields
  | _ => None
  end.

(** [x?.[0]]. *)
Definition optFirst (x : option Json) : option Json :=
  match x with
  | Some (JArr items) => head items
  | Some (JStr (String c _)) => Some (JStr (String c EmptyString))
  | Some (JObj fields) => assoc "0" fields
  | _ => None
  end.

(** [request.params], a [TypeError] when the request is [null]. *)
Definition readParams (request : Json) : Completion (option Json) :=
  match request with
  | JNull => Thrown (typeErrorNull "params")
  | _ => Returned (member request "params")
  end.

(** What a handler returns: one text item and the [isError] flag, which
    is absent from a success. *)
Record ToolResult : Type := mkResult { text : string; isError : bool }.

Section Tools.

(** [x => JSON.stringify(x, null, 2)]. *)
Variable stringify : Json -> string.

(** The imported [f1ApiClient]. *)
Variable api : Api.t.

(** The value a handler returns from its [try] block. *)
Definition okResult (data : Json) (summary : string) : ToolResult :=
  {| text := stringify (JObj [("success", JBool true);
                              ("data", data);
                              ("summary", JStr summary)]);
     isError := false |}.

(** The value a handler returns from its [catch] block. *)
Definition errorResult (defaultCode : string) (error : JsError) : ToolResult :=
  {| text := stringify
               (JObj [("success", JBool false);
                      ("error",
                       JObj [("message", JStr (message error));
                             ("code", jsOrElse (code error) (JStr defaultCode))])]);
     isError := true |}.

Definition getF1Seasons (request : Json) : M ToolResult :=
  tryCatch
    (do data <- Api.getSeasons api;
     do mr <- liftC (mrData data);
     ret (okResult data
            ("Retrieved "
             +:+ toString (jsOrElse (optLength (mr ?. "SeasonTable" ?. "Seasons"))
                                    (JNum 0))
             +:+ " F1 seasons")))
    (fun error => ret (errorResult "SEASONS_ERROR" error)).

Definition getCurrentF1Season (request : Json) : M ToolResult :=
  tryCatch
    (do data <- Api.getCurrentSeason api;
     do mr <- liftC (mrData data);
     ret (okResult data
            ("Current F1 season: "
             +:+ toString (jsOrElse (mr ?. "SeasonTable" ?. "season")
                                    (JStr "Unknown")))))
    (fun error => ret (errorResult "CURRENT_SEASON_ERROR" error)).

Definition getF1Races (request : Json) : M ToolResult :=
  tryCatch
    (do params <- liftC (readParams request);
     let season := jsOrElse (params ?. "season") (JStr "current") in
     do data <- Api.getRaces api (Some season);
     do mr <- liftC (mrData data);
     ret (okResult data
            ("Retrieved "
             +:+ toString (jsOrElse (optLength (mr ?. "RaceTable" ?. "Races"))
                                    (JNum 0))
             +:+ " races for " +:+ toString season +:+ " season")))
    (fun error => ret (errorResult "RACES_ERROR" error)).

Definition getF1RaceDetails (request : Json) : M ToolResult :=
  tryCatch
    (do params <- liftC (readParams request);
     let season := jsOrElse (params ?. "season") (JStr "current") in
     let round := params ?. "round" in
     if negb (truthyOpt round) then throw (newError "Round number is required")
     else
       do data <- Api.getRace api (Some season) round;
       do mr <- liftC (mrData data);
       ret (okResult data
              ("Race details for " +:+ toString season +:+ " season, round "
               +:+ template round +:+ ": "
               +:+ toString (jsOrElse
                               (optFirst (mr ?. "RaceTable" ?. "Races") ?. "raceName")
                               (JStr "Unknown")))))
    (fun error => ret (errorResult "RACE_DETAILS_ERROR" error)).

Definition getCurrentF1Race (request : Json) : M ToolResult :=
  tryCatch
    (do data <- Api.getCurrentRace api;
     do mr <- liftC (mrData data);
     ret (okResult data
            ("Current F1 race: "
             +:+ toString (jsOrElse
                             (optFirst (mr ?. "RaceTable" ?. "Races") ?. "raceName")
                             (JStr "No current race found")))))
    (fun error => ret (errorResult "CURRENT_RACE_ERROR" error)).

Definition getNextF1Race (request : Json) : M ToolResult :=
  tryCatch
    (do data <- Api.getNextRace api;
     do mr <- liftC (mrData data);
     ret (okResult data
            ("Next F1 race: "
             +:+ toString (jsOrElse
                             (optFirst (mr ?. "RaceTable" ?. "Races") ?. "raceName")
                             (JStr "No upcoming race found"))
             +:+ " on "
             +:+ toString (jsOrElse
                             (optFirst (mr ?. "RaceTable" ?. "Races") ?. "date")
                             (JStr "TBD")))))
    (fun error => ret (errorResult "NEXT_RACE_ERROR" error)).

Definition getF1Drivers (request : Json) : M ToolResult :=
  tryCatch
    (do params <- liftC (readParams request);
     let season := jsOrElse (params ?. "season") (JStr "current") in
     do data <- Api.getDrivers api (Some season);
     do mr <- liftC (mrData data);
     ret (okResult data
            ("Retrieved "
             +:+ toString (jsOrElse (optLength (mr ?. "DriverTable" ?. "Drivers"))
                                    (JNum 0))
             +:+ " drivers for " +:+ toString season +:+ " season")))
    (fun error => ret (errorResult "DRIVERS_ERROR" error)).

Definition getF1DriverDetails (request : Json) : M ToolResult :=
  tryCatch
    (do params <- liftC (readParams request);
     let driverId := params ?. "driverId" in
     let season := jsOrElse (params ?. "season") (JStr "current") in
     if negb (truthyOpt driverId) then throw (newError "Driver ID is required")
     else
       do data <- Api.getDriver api driverId (Some season);
       do mr <- liftC (mrData data);
       ret (okResult data
              ("Driver details for " +:+ template driverId +:+ " in "
               +:+ toString season +:+ " season: "
               +:+ match optFirst (mr ?. "DriverTable" ?. "Drivers") with
                   | Some driver =>
                       if truthy driver then
                         template (member driver "givenName") +:+ " "
                         +:+ template (member driver "familyName")
                       else "Driver not found"
                   | None => "Driver not found"
                   end)))
    (fun error => ret (errorResult "DRIVER_DETAILS_ERROR" error)).

Definition getF1Constructors (request : Json) : M ToolResult :=
  tryCatch
    (do params <- liftC (readParams request);
     let season := jsOrElse (params ?. "season") (JStr "current") in
     do data <- Api.getConstructors api (Some season);
     do mr <- liftC (mrData data);
     ret (okResult data
            ("Retrieved "
             +:+ toString (jsOrElse
                             (optLength (mr ?. "ConstructorTable" ?. "Constructors"))
                             (JNum 0))
             +:+ " constructors for " +:+ toString season +:+ " season")))
    (fun error => ret (errorResult "CONSTRUCTORS_ERROR" error)).

Definition getF1ConstructorDetails (request : Json) : M ToolResult :=
  tryCatch
    (do params <- liftC (readParams request);
     let constructorId := params ?. "constructorId" in
     let season := jsOrElse (params ?. "season") (JStr "current") in
     if negb (truthyOpt constructorId)
     then throw (newError "Constructor ID is required")
     else
       do data <- Api.getConstructor api constructorId (Some season);
       do mr <- liftC (mrData data);
       ret (okResult data
              ("Constructor details for " +:+ template constructorId +:+ " in "
               +:+ toString season +:+ " season: "
               +:+ toString
                     (jsOrElse
                        (optFirst (mr ?. "ConstructorTable" ?. "Constructors")
                         ?. "name")
                        (JStr "Constructor not found")))))
    (fun error => ret (errorResult "CONSTRUCTOR_DETAILS_ERROR" error)).

Definition getF1RaceResults (request : Json) : M ToolResult :=
  tryCatch
    (do params <- liftC (readParams request);
     let season := jsOrElse (params ?. "season") (JStr "current") in
     let round := params ?. "round" in
     if negb (truthyOpt round) then throw (newError "Round number is required")
     else
       do data <- Api.getRaceResults api (Some season) round;
       do mr <- liftC (mrData data);
       ret (okResult data
              ("Race results for " +:+ toString season +:+ " season, round "
               +:+ template round +:+ ": "
               +:+ toString
                     (jsOrElse
                        (optLength (optFirst (mr ?. "RaceTable" ?. "Races")
                                    ?. "Results"))
                        (JNum 0))
               +:+ " results")))
    (fun error => ret (errorResult "RACE_RESULTS_ERROR" error)).

Definition getF1QualifyingResults (request : Json) : M ToolResult :=
  tryCatch
    (do params <- liftC (readParams request);
     let season := jsOrElse (params ?. "season") (JStr "current") in
     let round := params ?. "round" in
     if negb (truthyOpt round) then throw (newError "Round number is required")
     else
       do data <- Api.getQualifyingResults api (Some season) round;
       do mr <- liftC (mrData data);
       ret (okResult data
              ("Qualifying results for " +:+ toString season
               +:+ " season, round " +:+ template round +:+ ": "
               +:+ toString
                     (jsOrElse
                        (optLength (optFirst (mr ?. "RaceTable" ?. "Races")
                                    ?. "QualifyingResults"))
                        (JNum 0))
               +:+ " results")))
    (fun error => ret (errorResult "QUALIFYING_RESULTS_ERROR" error)).

Definition getF1DriverStandings (request : Json) : M ToolResult :=
  tryCatch
    (do params <- liftC (readParams request);
     let season := jsOrElse (params ?. "season") (JStr "current") in
     do data <- Api.getDriverStandings api (Some season);
     do mr <- liftC (mrData data);
     ret (okResult data
            ("Driver standings for " +:+ toString season +:+ " season: "
             +:+ toString
                   (jsOrElse
                      (optLength
                         (optFirst (mr ?. "StandingsTable" ?. "StandingsLists")
                          ?. "DriverStandings"))
                      (JNum 0))
             +:+ " drivers")))
    (fun error => ret (errorResult "DRIVER_STANDINGS_ERROR" error)).

Definition getF1ConstructorStandings (request : Json) : M ToolResult :=
  tryCatch
    (do params <- liftC (readParams request);
     let season := jsOrElse (params ?. "season") (JStr "current") in
     do data <- Api.getConstructorStandings api (Some season);
     do mr <- liftC (mrData data);
     ret (okResult data
            ("Constructor standings for " +:+ toString season +:+ " season: "
             +:+ toString
                   (jsOrElse
                      (optLength
                         (optFirst (mr ?. "StandingsTable" ?. "StandingsLists")
                          ?. "ConstructorStandings"))
                      (JNum 0))
             +:+ " teams")))
    (fun error => ret (errorResult "CONSTRUCTOR_STANDINGS_ERROR" error)).

End Tools.

(* ===================================================================== *)
(** ** The server (server.js) *)
(* ===================================================================== *)

(** The fourteen tools, in the order the server collects them from the
    five categories: seasons, races, drivers, constructors, results. *)
Inductive Tool : Type :=
| ToolSeasons | ToolCurrentSeason
| ToolRaces | ToolRaceDetails | ToolCurrentRace | ToolNextRace
| ToolDrivers | ToolDriverDetails
| ToolConstructors | ToolConstructorDetails
| ToolRaceResults | ToolQualifyingResults
| ToolDriverStandings | ToolConstructorStandings.

(** [tool.name]. *)
Definition toolName (t : Tool) : string :=
  match t with
  | ToolSeasons => "get_f1_seasons"
  | ToolCurrentSeason => "get_current_f1_season"
  | ToolRaces => "get_f1_races"
  | ToolRaceDetails => "get_f1_race_details"
  | ToolCurrentRace => "get_current_f1_race"
  | ToolNextRace => "get_next_f1_race"
  | ToolDrivers => "get_f1_drivers"
  | ToolDriverDetails => "get_f1_driver_details"
  | ToolConstructors => "get_f1_constructors"
  | ToolConstructorDetails => "get_f1_constructor_details"
  | ToolRaceResults => "get_f1_race_results"
  | ToolQualifyingResults => "get_f1_qualifying_results"
  | ToolDriverStandings => "get_f1_driver_standings"
  | ToolConstructorStandings => "get_f1_constructor_standings"
  end.

(** [allTools]: the concatenation of the categories' [getTools()]. *)
Definition allTools : list Tool :=
  [ToolSeasons; ToolCurrentSeason] ++
  [ToolRaces; ToolRaceDetails; ToolCurrentRace; ToolNextRace] ++
  [ToolDrivers; ToolDriverDetails] ++
  [ToolConstructors; ToolConstructorDetails] ++
  [ToolRaceResults; ToolQualifyingResults; ToolDriverStandings;
   ToolConstructorStandings].

(** [t.name === toolName]. *)
Definition nameIs (toolName' : option Json) (t : Tool) : bool :=
  match toolName' with
  | Some (JStr s) => String.eqb (toolName t) s
  | _ => false
  end.

(** [allTools.find((t) => t.name === toolName)]. *)
Definition findTool (toolName' : option Json) : option Tool :=
  find (nameIs toolName') allTools.

(** The argument a tool insists on: its key in [request.params] and the
    message of the error thrown when it is missing. *)
Definition requiredArg (t : Tool) : option (string * string) :=
  match t with
  | ToolRaceDetails | ToolRaceResults | ToolQualifyingResults =>
      Some ("round", "Round number is required")
  | ToolDriverDetails => Some ("driverId", "Driver ID is required")
  | ToolConstructorDetails =>
      Some ("constructorId", "Constructor ID is required")
  | _ => None
  end.

(** The required argument of a tool, if it has one, is present. *)
Definition argPresent (t : Tool) (request : Json) : bool :=
  match requiredArg t with
  | Some (key, _) => truthyOpt (member request "params" ?. key)
  | None => true
  end.

(** The code a tool reports for an error that carries none. *)
Definition defaultCode (t : Tool) : string :=
  match t with
  | ToolSeasons => "SEASONS_ERROR"
  | ToolCurrentSeason => "CURRENT_SEASON_ERROR"
  | ToolRaces => "RACES_ERROR"
  | ToolRaceDetails => "RACE_DETAILS_ERROR"
  | ToolCurrentRace => "CURRENT_RACE_ERROR"
  | ToolNextRace => "NEXT_RACE_ERROR"
  | ToolDrivers => "DRIVERS_ERROR"
  | ToolDriverDetails => "DRIVER_DETAILS_ERROR"
  | ToolConstructors => "CONSTRUCTORS_ERROR"
  | ToolConstructorDetails => "CONSTRUCTOR_DETAILS_ERROR"
  | ToolRaceResults => "RACE_RESULTS_ERROR"
  | ToolQualifyingResults => "QUALIFYING_RESULTS_ERROR"
  | ToolDriverStandings => "DRIVER_STANDINGS_ERROR"
  | ToolConstructorStandings => "CONSTRUCTOR_STANDINGS_ERROR"
  end.

(** The season a handler passes on: [request.params?.season || 'current']. *)
Definition seasonOf (request : Json) : Json :=
  jsOrElse (member request "params" ?. "season") (JStr "current").

(** The client call a tool makes for a request whose required argument,
    if any, is present. *)
Definition requestOf (t : Tool) (request : Json) : EndpointRequest :=
  let season := Some (seasonOf request) in
  let arg := fun k => member request "params" ?. k in
  match t with
  | ToolSeasons => GetSeasons
  | ToolCurrentSeason => GetCurrentSeason
  | ToolRaces => GetRaces season
  | ToolRaceDetails => GetRace season (arg "round")
  | ToolCurrentRace => GetCurrentRace
  | ToolNextRace => GetNextRace
  | ToolDrivers => GetDrivers season
  | ToolDriverDetails => GetDriver (arg "driverId") season
  | ToolConstructors => GetConstructors season
  | ToolConstructorDetails => GetConstructor (arg "constructorId") season
  | ToolRaceResults => GetRaceResults season (arg "round")
  | ToolQualifyingResults => GetQualifyingResults season (arg "round")
  | ToolDriverStandings => GetDriverStandings season
  | ToolConstructorStandings => GetConstructorStandings season
  end.

(** The summary a tool writes when the data it received has no [MRData]:
    every count is 0 and every name is the fallback. *)
Definition emptySummary (t : Tool) (request : Json) : string :=
  let season := toString (seasonOf request) in
  let arg := fun k => template (member request "params" ?. k) in
  match t with
  | ToolSeasons => "Retrieved 0 F1 seasons"
  | ToolCurrentSeason => "Current F1 season: Unknown"
  | ToolRaces => "Retrieved 0 races for " +:+ season +:+ " season"
  | ToolRaceDetails =>
      "Race details for " +:+ season +:+ " season, round " +:+ arg "round"
      +:+ ": Unknown"
  | ToolCurrentRace => "Current F1 race: No current race found"
  | ToolNextRace => "Next F1 race: No upcoming race found on TBD"
  | ToolDrivers => "Retrieved 0 drivers for " +:+ season +:+ " season"
  | ToolDriverDetails =>
      "Driver details for " +:+ arg "driverId" +:+ " in " +:+ season
      +:+ " season: Driver not found"
  | ToolConstructors =>
      "Retrieved 0 constructors for " +:+ season +:+ " season"
  | ToolConstructorDetails =>
      "Constructor details for " +:+ arg "constructorId" +:+ " in " +:+ season
      +:+ " season: Constructor not found"
  | ToolRaceResults =>
      "Race results for " +:+ season +:+ " season, round " +:+ arg "round"
      +:+ ": 0 results"
  | ToolQualifyingResults =>
      "Qualifying results for " +:+ season +:+ " season, round "
      +:+ arg "round" +:+ ": 0 results"
  | ToolDriverStandings =>
      "Driver standings for " +:+ season +:+ " season: 0 drivers"
  | ToolConstructorStandings =>
      "Constructor standings for " +:+ season +:+ " season: 0 teams"
  end.

(** An HTTP response of the web service: status and JSON body. *)
Record HttpResponse : Type := mkHttp { statusCode : Z; body : Json }.

(** [result.content], the array with the one text item. *)
Definition contentOf (res : ToolResult) : Json :=
  JArr [JObj [("type", JStr "text"); ("text", JStr (text res))]].

(** The [TypeError] of destructuring a [null] body. *)
Definition typeErrorDestructure : JsError :=
  newError "Cannot destructure property 'tool' of 'req.body' as it is null.".

Section Server.

Variable stringify : Json -> string.
Variable api : Api.t.

(** [new Date(now).toISOString()]. *)
Variable isoString : Z -> string.

(** [tool.handler]. *)
Definition handler (t : Tool) : Json -> M ToolResult :=
  match t with
  | ToolSeasons => getF1Seasons stringify api
  | ToolCurrentSeason => getCurrentF1Season stringify api
  | ToolRaces => getF1Races stringify api
  | ToolRaceDetails => getF1RaceDetails stringify api
  | ToolCurrentRace => getCurrentF1Race stringify api
  | ToolNextRace => getNextF1Race stringify api
  | ToolDrivers => getF1Drivers stringify api
  | ToolDriverDetails => getF1DriverDetails stringify api
  | ToolConstructors => getF1Constructors stringify api
  | ToolConstructorDetails => getF1ConstructorDetails stringify api
  | ToolRaceResults => getF1RaceResults stringify api
  | ToolQualifyingResults => getF1QualifyingResults stringify api
  | ToolDriverStandings => getF1DriverStandings stringify api
  | ToolConstructorStandings => getF1ConstructorStandings stringify api
  end.

(** The tool call handler registered by [registerTools()]. *)
Definition callTool (request : Json) : M ToolResult :=
  do toolName' <- liftC (match request with
                         | JNull => Thrown (typeErrorNull "params")
                         | _ =>
                             match member request "params" with
                             | None =>
                                 Thrown (newError
                                   "Cannot read properties of undefined (reading 'name')")
                             | Some JNull => Thrown (typeErrorNull "name")
                             | Some params => Returned (member params "name")
                             end
                         end);
  match findTool toolName' with
  | None =>
      ret {| text := "Unknown tool: " +:+ template toolName'; isError := true |}
  | Some tool =>
      tryCatch (handler tool request)
               (fun error =>
                  ret {| text := "Error executing tool: " +:+ message error;
                         isError := true |})
  end.

(** The route [POST /tools/invoke], on the parsed request body. *)
Definition toolsInvoke (reqBody : Json) : M HttpResponse :=
  tryCatch
    (do fields <- liftC (match reqBody with
                         | JNull => Thrown typeErrorDestructure
                         | _ => Returned (member reqBody "tool",
                                          orDefault (JObj [])
                                                    (member reqBody "parameters"))
                         end);
     let toolName' := fst fields in
     let parameters := snd fields in
     match toolName' with
     | Some name =>
         if truthy name then
           match findTool toolName' with
           | None =>
               ret {| statusCode := 404;
                      body := JObj [("success", JBool false);
                                    ("error", JStr ("Unknown tool: "
                                                    +:+ template toolName'));
                                    ("availableTools",
                                     JArr (map (fun t => JStr (toolName t))
                                               allTools))] |}
           | Some tool =>
               let request :=
                 JObj [("params", JObj [("name", name);
                                        ("arguments", parameters)])] in
               do result <- handler tool request;
               fun w =>
                 ret {| statusCode := 200;
                        body := JObj [("success", JBool true);
                                      ("tool", name);
                                      ("parameters", parameters);
                                      ("result", contentOf result);
                                      ("timestamp", JStr (isoString (clock w)))] |}
                     w
           end
         else
           ret {| statusCode := 400;
                  body := JObj [("success", JBool false);
                                ("error", JStr "Tool name is required")] |}
     | None =>
         ret {| statusCode := 400;
                body := JObj [("success", JBool false);
                              ("error", JStr "Tool name is required")] |}
     end)
    (fun error w =>
       ret {| statusCode := 500;
              body := JObj [("success", JBool false);
                            ("error", JStr (message error));
                            ("timestamp", JStr (isoString (clock w)))] |} w).

End Server.

(** *** Start-up *)

(** How [start()] ends: the server is up, or the process has exited. *)
Inductive StartOutcome : Type :=
| Started
| Exited (exitCode : Z).

(** [process.env.NODE_ENV === 'production']. *)
Definition isProduction (nodeEnv : option string) : bool :=
  match nodeEnv with
  | Some s => String.eqb s "production"
  | None => false
  end.

(** [start()] of the server that uses the caching client.  [connect]
    stands for bringing up the transport (the stdio transport, or the web
    service when [DEPLOY_MODE] is ['web']). *)
Definition start (upstream : HttpRequest -> Z -> Reply)
           (nodeEnv : option string) (connect : M unit) : M StartOutcome :=
  tryCatch
    (do isApiAvailable <- healthCheck upstream;
     do _ <- (if isApiAvailable then ret tt
              else if isProduction nodeEnv then ret tt
              else throw (newError
                     "Jolpica F1 API is not available and required in development mode"));
     do _ <- connect;
     ret Started)
    (fun error => ret (Exited 1)).

(** [start()] of the server that uses the proxy client. *)
Definition startStdio (upstream : HttpRequest -> Z -> Reply)
           (connect : M unit) : M StartOutcome :=
  tryCatch
    (do _ <- ProxyClient.healthCheck upstream;
     do _ <- connect;
     ret Started)
    (fun error => ret (Exited 1)).

(** *** The CORS middleware of the web service *)

(** The origins allowed when [CORS_ORIGIN] is not set. *)
Definition defaultOrigins : list string :=
  ["http://localhost:3000"; "http://localhost:3001"; "http://localhost:5173";
   "https://f1-client-ui.onrender.com"; "*"].

(** [Array.isArray(corsOptions.origin) ? corsOptions.origin :
    [corsOptions.origin]], with [corsOptions.origin] being
    [process.env.CORS_ORIGIN || [...]]. *)
Definition allowedOrigins (corsOrigin : option string) : list string :=
  match corsOrigin with
  | Some (String c s) => [String c s]
  | _ => defaultOrigins
  end.

(** [corsOptions.origin === '*' || allowedOrigins.includes(origin)]. *)
Definition originAllowed (corsOrigin origin : option string) : bool :=
  match corsOrigin with
  | Some s => String.eqb s "*"
  | None => false
  end ||
  match origin with
  | Some o => existsb (String.eqb o) (allowedOrigins corsOrigin)
  | None => false
  end.

(** [list.join(', ')]. *)
Fixpoint joinComma (l : list string) : string :=
  match l with
  | [] => ""
  | [x] => x
  | x :: rest => x +:+ ", " +:+ joinComma rest
  end.

(** What the middleware does next. *)
Inductive Next : Type :=
| EndWith (status : Z)
| CallNext.

(** The middleware: the headers it sets, in order, and how it goes on. *)
Definition corsMiddleware (corsOrigin origin : option string) (method : string)
  : list (string * string) * Next :=
  ((if originAllowed corsOrigin origin then
      [("Access-Control-Allow-Origin",
        match origin with
        | Some (String c o) => String c o
        | _ => "*"
        end)]
    else []) ++
   [("Access-Control-Allow-Credentials", "true");
    ("Access-Control-Allow-Methods",
     joinComma ["GET"; "POST"; "PUT"; "DELETE"; "OPTIONS"]);
    ("Access-Control-Allow-Headers",
     joinComma ["Content-Type"; "Authorization"; "X-Requested-With"])],
   if String.eqb method "OPTIONS" then EndWith 200 else CallNext).

(** The value of a response header. *)
Fixpoint header (name : string) (headers : list (string * string))
  : option string :=
  match headers with
  | [] => None
  | (k, x) :: rest => if String.eqb name k then Some x else header name rest
  end.

(* ===================================================================== *)
(** ** Sample providers and worlds *)
(* ===================================================================== *)

(** A provider that answers every request with [resp] after 120 ms. *)
Definition answering (resp : Response.t) : HttpRequest -> Z -> Reply :=
  fun _ _ => {| latency := 120; outcome := Responded resp |}.

(** A provider that never answers: axios gives up after its timeout. *)
Definition unreachable : HttpRequest -> Z -> Reply :=
  fun _ _ => {| latency := 10000;
                outcome := NoResponse "timeout of 10000ms exceeded"
                                      (Some (JStr "ECONNABORTED")) |}.

Definition year2026 : Z -> string := fun _ => "2026".

Definition sampleRaces : Json :=
  JArr [JObj [("round", JStr "1"); ("raceName", JStr "Bahrain Grand Prix")]].

(** A race list as the provider sends it for season 2024. *)
Definition body2024 : Json :=
  JObj [("MRData",
         JObj [("total", JStr "1");
               ("RaceTable",
                JObj [("season", JStr "2024"); ("Races", sampleRaces)])])].

(** A freshly started process: empty cache, no request made yet. *)
Definition coldWorld : World :=
  {| cache := ∅; clock := 1000; calls := [] |}.

(** A process whose entry for [/seasons.json] expired long ago. *)
Definition staleWorld : World :=
  {| cache := {[ "/seasons.json" := NodeCache.mkEntry 1801000 body2024 ]};
     clock := 5000000;
     calls := [] |}.

(** A serializer that keeps the summary of a payload only. *)
Definition showSummary (payload : Json) : string :=
  toString (jsOrElse (member payload "summary") (JStr "")).

(** The parsed body of a [POST /tools/invoke] for the race details of
    round 5 of 2024. *)
Definition raceDetailsBody : Json :=
  JObj [("tool", JStr "get_f1_race_details");
        ("parameters", JObj [("season", JStr "2024"); ("round", JNum 5)])].

Definition isoEpoch : Z -> string := fun _ => "1970-01-01T00:00:01.000Z".

(** An error body as the provider may send it with a 404. *)
Definition notFoundBody : Json :=
  JObj [("error", JObj [("message", JStr "Not found");
                        ("code", JStr "NOT_FOUND")])].

(* ===================================================================== *)
(** ** Lemmas on strings *)
(* ===================================================================== *)

Lemma append_cons (a : ascii) (s u : string) :
  String a s +:+ u = String a (s +:+ u).
Proof. reflexivity. Qed.

Lemma startsWith_app (p s : string) : startsWith p (p +:+ s) = true.
Proof.
  induction p as [|a p IH]; [reflexivity|].
  rewrite append_cons. simpl. now rewrite Ascii.eqb_refl, IH.
Qed.

Lemma startsWith_inv (p s : string) :
  startsWith p s = true -> exists suf, s = p +:+ suf.
Proof.
  revert s. induction p as [|a p IH]; intros s H.
  - exists s. reflexivity.
  - destruct s as [|b s]; simpl in H; [discriminate|].
    apply andb_prop in H as [Hab Hps].
    apply Ascii.eqb_eq in Hab. subst b.
    destruct (IH _ Hps) as [suf ->]. exists suf. reflexivity.
Qed.

Lemma includes_app (needle pre suf : string) :
  includes needle (pre +:+ needle +:+ suf) = true.
Proof.
  induction pre as [|a pre IH].
  - change ("" +:+ needle +:+ suf) with (needle +:+ suf).
    destruct (needle +:+ suf) eqn:E; simpl; rewrite <- E, startsWith_app;
      reflexivity.
  - rewrite append_cons. simpl. rewrite IH. apply orb_true_r.
Qed.

(** [includes] decides [contains]. *)
Lemma includes_spec (needle s : string) :
  includes needle s = true <-> contains needle s.
Proof.
  split.
  - induction s as [|a s IH]; simpl; intros H.
    + rewrite orb_false_r in H. apply startsWith_inv in H as [suf ->].
      exists "", suf. reflexivity.
    + apply orb_prop in H as [H|H].
      * apply startsWith_inv in H as [suf ->]. exists "", suf. reflexivity.
      * destruct (IH H) as (pre & suf & ->).
        exists (String a pre), suf. reflexivity.
  - intros (pre & suf & ->). apply includes_app.
Qed.

Lemma includes_false (needle s : string) :
  includes needle s = false <-> ~ contains needle s.
Proof.
  rewrite <- includes_spec. destruct (includes needle s); split; intros H;
    try reflexivity; try discriminate; try (intros ?; discriminate).
  exfalso. apply H. reflexivity.
Qed.

(* ===================================================================== *)
(** ** The TTL classifier *)
(* ===================================================================== *)

(** C1. For every resolved path the TTL follows the substring rules in
    precedence order: a path containing "current" gets 60 seconds;
    otherwise one containing "standings" or "results" gets 300;
    otherwise one containing "drivers" or "constructors" gets 3600;
    otherwise 1800.  In particular a path containing both "current" and
    "drivers" is classified as live (60 seconds). *)
Theorem getCacheTTL_precedence (endpoint : string) :
  (contains "current" endpoint -> getCacheTTL endpoint = 60) /\
  (~ contains "current" endpoint ->
   contains "standings" endpoint \/ contains "results" endpoint ->
   getCacheTTL endpoint = 300) /\
  (~ contains "current" endpoint ->
   ~ contains "standings" endpoint -> ~ contains "results" endpoint ->
   contains "drivers" endpoint \/ contains "constructors" endpoint ->
   getCacheTTL endpoint = 3600) /\
  (~ contains "current" endpoint ->
   ~ contains "standings" endpoint -> ~ contains "results" endpoint ->
   ~ contains "drivers" endpoint -> ~ contains "constructors" endpoint ->
   getCacheTTL endpoint = 1800) /\
  (contains "current" endpoint -> contains "drivers" endpoint ->
   getCacheTTL endpoint = 60).
Proof.
  unfold getCacheTTL.
  repeat split.
  - intros H. apply includes_spec in H. now rewrite H.
  - intros Hc Hsr. apply includes_false in Hc. rewrite Hc.
    destruct Hsr as [H|H]; apply includes_spec in H; rewrite H;
      [reflexivity | now rewrite orb_true_r].
  - intros Hc Hs Hr Hdc.
    apply includes_false in Hc, Hs, Hr. rewrite Hc, Hs, Hr. simpl.
    destruct Hdc as [H|H]; apply includes_spec in H; rewrite H;
      [reflexivity | now rewrite orb_true_r].
  - intros Hc Hs Hr Hd Hk.
    apply includes_false in Hc, Hs, Hr, Hd, Hk.
    now rewrite Hc, Hs, Hr, Hd, Hk.
  - intros H _. apply includes_spec in H. now rewrite H.
Qed.

(* ===================================================================== *)
(** ** node-cache lookups *)
(* ===================================================================== *)

Lemma get_Some (key : string) (now : Z) (data data' : gmap string NodeCache.Entry)
      (x : Json) :
  NodeCache.get key now data = (Some x, data') ->
  data' = data /\
  exists e, data !! key = Some e /\ NodeCache.check now e = true /\
            NodeCache.v e = x.
Proof.
  unfold NodeCache.get. destruct (data !! key) as [e|]; [|discriminate].
  destruct (NodeCache.check now e) eqn:Hc; [|discriminate].
  intros [= <- <-]. split; [reflexivity|]. exists e. auto.
Qed.

Lemma get_live (key : string) (now : Z) (data : gmap string NodeCache.Entry)
      (e : NodeCache.Entry) :
  data !! key = Some e -> NodeCache.check now e = true ->
  NodeCache.get key now data = (Some (NodeCache.v e), data).
Proof. intros H Hc. unfold NodeCache.get. now rewrite H, Hc. Qed.

(** A lookup never adds or alters an entry. *)
Lemma get_shrinks (key : string) (now : Z) (data : gmap string NodeCache.Entry)
      (k : string) (e : NodeCache.Entry) :
  snd (NodeCache.get key now data) !! k = Some e -> data !! k = Some e.
Proof.
  unfold NodeCache.get. destruct (data !! key) as [e0|] eqn:H; [|exact id].
  destruct (NodeCache.check now e0); simpl; [exact id|].
  intros Hd. apply lookup_delete_Some in Hd. tauto.
Qed.

(** After a lookup that was not a hit, no later lookup of the key, at
    whatever time, is a hit: the key is absent or holds a falsy value. *)
Lemma miss_stays_miss (key : string) (now now' : Z)
      (data : gmap string NodeCache.Entry) :
  match fst (NodeCache.get key now data) with
  | Some x => truthy x
  | None => false
  end = false ->
  match fst (NodeCache.get key now' (snd (NodeCache.get key now data))) with
  | Some x => truthy x
  | None => false
  end = false.
Proof.
  unfold NodeCache.get at 1 3.
  destruct (data !! key) as [e|] eqn:H.
  - destruct (NodeCache.check now e) eqn:Hc; simpl.
    + intros Hf. unfold NodeCache.get. rewrite H.
      destruct (NodeCache.check now' e); simpl; [exact Hf | reflexivity].
    + intros _. unfold NodeCache.get. now rewrite lookup_delete_eq.
  - simpl. intros _. unfold NodeCache.get. now rewrite H.
Qed.

(** Time only moves an entry from live to expired. *)
Lemma check_mono (now now' : Z) (e : NodeCache.Entry) :
  now <= now' -> NodeCache.check now e = false ->
  NodeCache.check now' e = false.
Proof.
  unfold NodeCache.check. intros Hle H.
  apply negb_false_iff in H. apply andb_prop in H as [H0 Hlt].
  apply negb_false_iff. rewrite H0. simpl.
  apply Z.ltb_lt in Hlt. apply Z.ltb_lt. lia.
Qed.

(** The periodic sweep changes the answer of no later lookup. *)
Lemma checkData_get (key : string) (swept now : Z)
      (data : gmap string NodeCache.Entry) :
  swept <= now ->
  fst (NodeCache.get key now (NodeCache.checkData swept data))
  = fst (NodeCache.get key now data).
Proof.
  intros Hle. unfold NodeCache.get, NodeCache.checkData.
  destruct (data !! key) as [e|] eqn:He.
  - destruct (NodeCache.check swept e) eqn:Hc.
    + rewrite (proj2 (map_lookup_filter_Some _ data key e) (conj He Hc)).
      now destruct (NodeCache.check now e).
    + assert (Hn : filter (fun kv => NodeCache.check swept kv.2 = true) data
                   !! key = None).
      { apply map_lookup_filter_None. right. intros e' He' Hc'.
        simpl in Hc'. congruence. }
      rewrite Hn, (check_mono swept now e Hle Hc). reflexivity.
  - assert (Hn : filter (fun kv => NodeCache.check swept kv.2 = true) data
                 !! key = None).
    { apply map_lookup_filter_None. now left. }
    now rewrite Hn.
Qed.

(** After [clearCache()] every lookup is a miss. *)
Lemma clearCache_misses (key : string) (w : World) :
  isHit key (snd (clearCache w)) = false.
Proof. reflexivity. Qed.

(* ===================================================================== *)
(** ** [makeRequest]: the two paths *)
(* ===================================================================== *)

Lemma world_eta (w : World) :
  {| cache := cache w; clock := clock w; calls := calls w |} = w.
Proof. now destruct w. Qed.

(** A truthy cached value is returned and the world is left as it was. *)
Lemma makeRequest_hit (up : HttpRequest -> Z -> Reply) (key : string)
      (w : World) (x : Json) :
  cached key w = Some x -> truthy x = true ->
  makeRequest up key w = (Returned x, w).
Proof.
  unfold cached, makeRequest, bind, cache_get. intros Hc Ht.
  destruct (NodeCache.get key (clock w) (cache w)) as [found data] eqn:E.
  simpl in Hc. subst found.
  apply get_Some in E as [-> _]. rewrite Ht. unfold ret.
  now rewrite world_eta.
Qed.

Lemma makeRequest_miss (up : HttpRequest -> Z -> Reply) (key : string)
      (w : World) :
  isHit key w = false ->
  makeRequest up key w =
  let reply := up (plainGet key) (clock w) in
  let done := clock w + Z.of_N (latency reply) in
  match dispatchRequest (outcome reply) with
  | Returned r =>
      (Returned (Response.data r),
       {| cache := NodeCache.set key (Response.data r) (getCacheTTL key) done
                     (cache (afterLookup key w));
          clock := done;
          calls := calls w ++ [plainGet key] |})
  | Thrown e =>
      (Thrown (formatError e),
       {| cache := cache (afterLookup key w);
          clock := done;
          calls := calls w ++ [plainGet key] |})
  end.
Proof.
  unfold isHit, cached, afterLookup, makeRequest, bind, cache_get. intros Hm.
  destruct (NodeCache.get key (clock w) (cache w)) as [found data] eqn:E.
  simpl in Hm |- *.
  assert (Hf : match found with Some hit => truthy hit = false | None => True end).
  { destruct found; [exact Hm | exact I]. }
  clear Hm.
  unfold tryCatch, bind, client_get, clientGet, cache_set, ret, throw.
  destruct found as [hit|]; [rewrite Hf|]; simpl;
    destruct (dispatchRequest (outcome (up (plainGet key) (clock w))));
    reflexivity.
Qed.

Lemma isHit_live (key : string) (w : World) (e : NodeCache.Entry) :
  liveEntry key w e -> isHit key w = truthy (NodeCache.v e).
Proof.
  intros [H Hc]. unfold isHit, cached. now rewrite (get_live _ _ _ _ H Hc).
Qed.

Lemma cached_live (key : string) (w : World) (e : NodeCache.Entry) :
  liveEntry key w e -> cached key w = Some (NodeCache.v e).
Proof. intros [H Hc]. unfold cached. now rewrite (get_live _ _ _ _ H Hc). Qed.

(** What a miss leaves in the world, whatever the provider answers. *)
Lemma makeRequest_miss_calls (up : HttpRequest -> Z -> Reply) (key : string)
      (w : World) :
  isHit key w = false ->
  calls (snd (makeRequest up key w)) = calls w ++ [plainGet key].
Proof.
  intros Hm. rewrite (makeRequest_miss up key w Hm). simpl.
  destruct (dispatchRequest (outcome (up (plainGet key) (clock w))));
    reflexivity.
Qed.

(* ===================================================================== *)
(** ** The operations run [makeRequest] on their resolved path *)
(* ===================================================================== *)

(** Every operation is [makeRequest] on the request's path followed by a
    step that touches nothing, throws exactly on a [null] body and
    otherwise builds an envelope with [success: true] and the body's
    list as [data]. *)
Lemma invoke_makeRequest (up : HttpRequest -> Z -> Reply) (fy : Z -> string)
      (r : EndpointRequest) :
  exists k : Json -> M Envelope,
    invoke up fy r = bind (makeRequest up (cacheKey r)) k /\
    (forall data w, snd (k data w) = w) /\
    (forall data w, data <> JNull ->
       exists env, fst (k data w) = Returned env /\
                   field "success" env = Some (JBool true) /\
                   field "data" env = Some (listOf r data)) /\
    (forall w, fst (k JNull w) = Thrown (typeErrorNull "MRData")).
Proof.
  destruct r; (eexists; split; [reflexivity|]); repeat split;
    try (intros data w; unfold bind, liftC, mrData, ret;
         destruct data; reflexivity);
    try (intros w; reflexivity);
    intros data w Hd; unfold bind, liftC, mrData, ret;
    destruct data; try congruence; eexists; repeat split; reflexivity.
Qed.

Lemma invoke_returned (up : HttpRequest -> Z -> Reply) (fy : Z -> string)
      (r : EndpointRequest) (w w' : World) (data : Json) :
  makeRequest up (cacheKey r) w = (Returned data, w') -> data <> JNull ->
  exists env, invoke up fy r w = (Returned env, w') /\
              field "success" env = Some (JBool true) /\
              field "data" env = Some (listOf r data).
Proof.
  intros Hm Hd.
  destruct (invoke_makeRequest up fy r) as (k & -> & Hw & Hok & _).
  unfold bind. rewrite Hm.
  destruct (Hok data w' Hd) as (env & He & Hs). exists env.
  split; [|exact Hs].
  rewrite (surjective_pairing (k data w')). now rewrite He, Hw.
Qed.

Lemma invoke_thrown (up : HttpRequest -> Z -> Reply) (fy : Z -> string)
      (r : EndpointRequest) (w w' : World) (e : JsError) :
  makeRequest up (cacheKey r) w = (Thrown e, w') ->
  invoke up fy r w = (Thrown e, w').
Proof.
  intros Hm. destruct (invoke_makeRequest up fy r) as (k & -> & _).
  unfold bind. now rewrite Hm.
Qed.

(** A returned envelope comes from a value [makeRequest] returned. *)
Lemma invoke_returned_inv (up : HttpRequest -> Z -> Reply) (fy : Z -> string)
      (r : EndpointRequest) (w w' : World) (env : Envelope) :
  invoke up fy r w = (Returned env, w') ->
  exists data, makeRequest up (cacheKey r) w = (Returned data, w') /\
               data <> JNull /\
               field "success" env = Some (JBool true) /\
               field "data" env = Some (listOf r data).
Proof.
  intros Hi.
  destruct (makeRequest up (cacheKey r) w) as [[data|e] w1] eqn:Hm.
  - destruct data eqn:Hd;
      try (destruct (invoke_returned up fy r w w1 data) as (env' & He & Hs);
           [now subst | now subst |];
           subst data; rewrite He in Hi; injection Hi as <- <-;
           eexists; split; [reflexivity|]; split; [discriminate | exact Hs]).
    exfalso. destruct (invoke_makeRequest up fy r) as (k & Hk & _ & _ & Hn).
    rewrite Hk in Hi. unfold bind in Hi. rewrite Hm in Hi.
    specialize (Hn w1). rewrite Hi in Hn. discriminate.
  - rewrite (invoke_thrown up fy r w w1 e Hm) in Hi. discriminate.
Qed.

Lemma invoke_world (up : HttpRequest -> Z -> Reply) (fy : Z -> string)
      (r : EndpointRequest) (w : World) :
  snd (invoke up fy r w) = snd (makeRequest up (cacheKey r) w).
Proof.
  destruct (invoke_makeRequest up fy r) as (k & -> & Hw & _).
  unfold bind. destruct (makeRequest up (cacheKey r) w) as [[data|e] w'];
    [apply Hw | reflexivity].
Qed.

Lemma truthy_not_null (x : Json) : truthy x = true -> x <> JNull.
Proof. intros H ->. discriminate. Qed.

(* ===================================================================== *)
(** ** Cache hits *)
(* ===================================================================== *)

(** On a live entry with a truthy value the operation returns at once. *)
Lemma live_truthy_entry_served (up : HttpRequest -> Z -> Reply)
      (fy : Z -> string) (r : EndpointRequest) (w : World)
      (e : NodeCache.Entry) :
  liveEntry (cacheKey r) w e ->
  truthy (NodeCache.v e) = true ->
  exists env, invoke up fy r w = (Returned env, w).
Proof.
  intros Hl Ht.
  assert (Hm : makeRequest up (cacheKey r) w = (Returned (NodeCache.v e), w)).
  { apply makeRequest_hit; [now apply cached_live | exact Ht]. }
  destruct (invoke_returned up fy r w w _ Hm (truthy_not_null _ Ht))
    as (env & He & _).
  now exists env.
Qed.

(** C2, as amended.  For every request whose cache key holds a populated,
    non-expired entry with a truthy value (any object, array, non-empty
    string, non-zero number or [true]), [makeRequest] returns that value,
    and the operation returns the envelope built from it: [success] is
    [true] and [data] is the list the cached value holds under [MRData]
    (the empty list when it holds none).  Both leave the world as it was:
    no request reaches the provider, the store is untouched and no error
    is raised. *)
Theorem cache_hit_short_circuits (up : HttpRequest -> Z -> Reply)
        (fy : Z -> string) (r : EndpointRequest) (w : World)
        (e : NodeCache.Entry) :
  liveEntry (cacheKey r) w e ->
  truthy (NodeCache.v e) = true ->
  makeRequest up (cacheKey r) w = (Returned (NodeCache.v e), w) /\
  (exists env, invoke up fy r w = (Returned env, w) /\
               field "success" env = Some (JBool true) /\
               field "data" env = Some (listOf r (NodeCache.v e))) /\
  calls (snd (invoke up fy r w)) = calls w.
Proof.
  intros Hl Ht.
  assert (Hm : makeRequest up (cacheKey r) w = (Returned (NodeCache.v e), w)).
  { apply makeRequest_hit; [now apply cached_live | exact Ht]. }
  split; [exact Hm|].
  destruct (invoke_returned up fy r w w _ Hm (truthy_not_null _ Ht))
    as (env & He & Hs & Hd).
  split; [now exists env | now rewrite He].
Qed.

(** C2, counterexample.  A 200 response with an empty body makes
    [getSeasons] succeed and populates the entry for [/seasons.json] with
    the empty string; the entry is live, yet the next [getSeasons], run at
    once against a provider that is down, sends a second request and
    fails. *)
Lemma cache_hit_falsy_value_refetches :
  let first := invoke (answering (Response.mk 200 (JStr ""))) year2026
                      GetSeasons coldWorld in
  let w1 := snd first in
  let second := invoke unreachable year2026 GetSeasons w1 in
  (exists env, fst first = Returned env) /\
  liveEntry (cacheKey GetSeasons) w1 (NodeCache.mkEntry 1801120 (JStr "")) /\
  calls (snd second) = calls w1 ++ [plainGet "/seasons.json"] /\
  fst second = Thrown (formatError
                         {| message := "timeout of 10000ms exceeded";
                            status := None;
                            code := Some (JStr "ECONNABORTED");
                            response := None;
                            request := true |}).
Proof.
  cbv zeta. split; [eexists; vm_compute; reflexivity|].
  split; [split; vm_compute; reflexivity|].
  split; vm_compute; reflexivity.
Qed.

(** The races of 2024, once fetched, are served with the provider down:
    [makeRequest] gives the stored body, the operation the envelope around
    its list of races. *)
Lemma cache_hit_short_circuits_witness :
  let w1 := snd (invoke (answering (Response.mk 200 body2024)) year2026
                        (GetRaces (Some (JStr "2024"))) coldWorld) in
  makeRequest unreachable "/2024.json" w1 = (Returned body2024, w1) /\
  (exists env, invoke unreachable year2026 (GetRaces (Some (JStr "2024"))) w1
               = (Returned env, w1) /\
               field "success" env = Some (JBool true) /\
               field "data" env = Some sampleRaces) /\
  calls (snd (invoke unreachable year2026 (GetRaces (Some (JStr "2024"))) w1))
  = calls w1.
Proof.
  cbv zeta.
  apply (cache_hit_short_circuits unreachable year2026
           (GetRaces (Some (JStr "2024"))) _
           (NodeCache.mkEntry 1801120 body2024)).
  - split; vm_compute; reflexivity.
  - reflexivity.
Defined.

(* ===================================================================== *)
(** ** Failed fetches *)
(* ===================================================================== *)

Lemma cache_afterLookup_key (key : string) (w : World) :
  cache (afterLookup key w) !! key =
  match cache w !! key with
  | Some x => if NodeCache.check (clock w) x then Some x else None
  | None => None
  end.
Proof.
  unfold afterLookup, NodeCache.get. simpl.
  destruct (cache w !! key) as [x|] eqn:H; [|exact H].
  destruct (NodeCache.check (clock w) x); simpl;
    [exact H | apply lookup_delete_eq].
Qed.

Lemma isHit_afterLookup (key : string) (w w' : World) :
  isHit key w = false -> cache w' = cache (afterLookup key w) ->
  isHit key w' = false.
Proof.
  unfold isHit, cached, afterLookup. simpl. intros Hm ->.
  now apply miss_stays_miss.
Qed.

(** A failed fetch on a miss makes [makeRequest] throw the error of the
    call, from the world the call left. *)
Lemma miss_failure_throws (up : HttpRequest -> Z -> Reply)
      (key : string) (w w' : World) (e : JsError) :
  isHit key w = false ->
  client_get up (plainGet key) (afterLookup key w) = (Thrown e, w') ->
  makeRequest up key w = (Thrown e, w').
Proof.
  intros Hm Hget. rewrite (makeRequest_miss up key w Hm). revert Hget.
  unfold client_get, clientGet. simpl.
  destruct (dispatchRequest _); [discriminate|].
  intros [= <- <-]. reflexivity.
Qed.

(** C3, as amended.  When the lookup for [key] is not a hit and the
    upstream call fails with the Normalized Error [e], [makeRequest]
    throws [e] itself and writes nothing: the store is the one the lookup
    left, in which every entry is an unchanged entry of the store before;
    for [key], an absent entry stays absent, an unexpired one is left as
    it was, and an expired one has been evicted by the lookup.  Any
    following invocation for [key] on that store sends the request to the
    provider again. *)
Theorem failed_fetch_not_cached (up : HttpRequest -> Z -> Reply)
        (key : string) (w w' : World) (e : JsError) :
  isHit key w = false ->
  client_get up (plainGet key) (afterLookup key w) = (Thrown e, w') ->
  makeRequest up key w = (Thrown e, w') /\
  cache w' = cache (afterLookup key w) /\
  (forall k x, cache w' !! k = Some x -> cache w !! k = Some x) /\
  (cache w !! key = None -> cache w' !! key = None) /\
  (forall x, cache w !! key = Some x -> NodeCache.check (clock w) x = true ->
             cache w' !! key = Some x) /\
  (forall x, cache w !! key = Some x -> NodeCache.check (clock w) x = false ->
             cache w' !! key = None) /\
  (forall up' w'', cache w'' = cache w' ->
     calls (snd (makeRequest up' key w'')) = calls w'' ++ [plainGet key]).
Proof.
  intros Hm Hget.
  assert (Hc : cache w' = cache (afterLookup key w)).
  { revert Hget. unfold client_get, clientGet.
    destruct (dispatchRequest _); intros [= _ <-]; reflexivity. }
  split; [now apply miss_failure_throws|].
  split; [exact Hc|].
  split.
  { intros k x. rewrite Hc. apply get_shrinks. }
  split.
  { intros Hn. now rewrite Hc, cache_afterLookup_key, Hn. }
  split.
  { intros x Hx Hl. now rewrite Hc, cache_afterLookup_key, Hx, Hl. }
  split.
  { intros x Hx Hl. now rewrite Hc, cache_afterLookup_key, Hx, Hl. }
  intros up' w'' Hw. apply makeRequest_miss_calls.
  apply (isHit_afterLookup key w w'' Hm). now rewrite Hw.
Qed.

(** C3, counterexample.  With an expired entry for [/seasons.json] in the
    store and the provider down, [makeRequest] fails and the expired
    entry is gone afterwards: the lookup evicted it. *)
Lemma failed_fetch_evicts_expired_entry :
  let result := makeRequest unreachable "/seasons.json" staleWorld in
  cache staleWorld !! "/seasons.json" = Some (NodeCache.mkEntry 1801000 body2024) /\
  NodeCache.check (clock staleWorld) (NodeCache.mkEntry 1801000 body2024) = false /\
  (exists e, fst result = Thrown e) /\
  cache (snd result) !! "/seasons.json" = None.
Proof.
  cbv zeta. split; [vm_compute; reflexivity|].
  split; [reflexivity|].
  split; [eexists; vm_compute; reflexivity | vm_compute; reflexivity].
Qed.

(** A cold cache and a provider that is down: the error comes back, the
    store stays empty, and the next call sends the request again. *)
Lemma failed_fetch_not_cached_witness :
  let e := {| message := "Jolpica F1 API service unavailable";
              status := None;
              code := Some (JStr "NETWORK_ERROR");
              response := None;
              request := false |} in
  let w' := {| cache := ∅; clock := 11000; calls := [plainGet "/2024.json"] |} in
  makeRequest unreachable "/2024.json" coldWorld = (Thrown e, w') /\
  calls (snd (makeRequest unreachable "/2024.json" w'))
  = [plainGet "/2024.json"; plainGet "/2024.json"].
Proof.
  cbv zeta.
  pose proof (failed_fetch_not_cached unreachable "/2024.json" coldWorld
                {| cache := ∅; clock := 11000; calls := [plainGet "/2024.json"] |}
                {| message := "Jolpica F1 API service unavailable";
                   status := None;
                   code := Some (JStr "NETWORK_ERROR");
                   response := None;
                   request := false |}
                eq_refl eq_refl) as (H1 & _ & _ & _ & _ & _ & H7).
  split; [exact H1|]. apply (H7 unreachable _ eq_refl).
Defined.

(* ===================================================================== *)
(** ** Error classification *)
(* ===================================================================== *)

(** [formatError] by the shape of the axios error. *)
Lemma formatError_response (error : JsError) (r : Response.t) :
  response error = Some r ->
  formatError error =
  {| message :=
       toString (jsOrElse (Some (Response.data r) ?. "error" ?. "message")
                          (JStr "F1 API request failed"));
     status := Some (Response.status r);
     code := Some (jsOrElse (Some (Response.data r) ?. "error" ?. "code")
                            (JStr "API_ERROR"));
     response := None;
     request := false |}.
Proof. intros H. unfold formatError, formatErrorWith. now rewrite H. Qed.

Lemma formatError_request (error : JsError) :
  response error = None -> request error = true ->
  formatError error =
  {| message := "Jolpica F1 API service unavailable";
     status := None;
     code := Some (JStr "NETWORK_ERROR");
     response := None;
     request := false |}.
Proof. intros H1 H2. unfold formatError, formatErrorWith. now rewrite H1, H2. Qed.

Lemma formatError_setup (error : JsError) :
  response error = None -> request error = false ->
  formatError error = error.
Proof. intros H1 H2. unfold formatError, formatErrorWith. now rewrite H1, H2. Qed.

(** axios rejects a response exactly when its status is outside 2xx (and
    not 0), and the error then carries the response. *)
Lemma settle_thrown (r : Response.t) (e : JsError) :
  settle r = Thrown e ->
  validateStatus (Response.status r) = false /\
  response e = Some r /\ request e = true.
Proof.
  unfold settle.
  destruct (Response.status r =? 0); simpl; [discriminate|].
  destruct (validateStatus (Response.status r)); [discriminate|].
  intros [= <-]. auto.
Qed.

Lemma jsOrElse_truthy (a : option Json) (b x : Json) :
  a = Some x -> truthy x = true -> jsOrElse a b = x.
Proof. intros -> H. simpl. now rewrite H. Qed.

Lemma jsOrElse_falsy (a : option Json) (b : Json) :
  (forall x, a = Some x -> truthy x = false) -> jsOrElse a b = b.
Proof.
  intros H. destruct a as [x|]; [|reflexivity].
  simpl. now rewrite (H x eq_refl).
Qed.

(** C4, as amended.  Every failure of an upstream call falls in exactly
    one of three cases, tried in this order.  (1) The provider responded
    with a status outside 2xx and other than 0: the call throws an error
    that carries that status; its code is the code of the response body
    when the body has a truthy one, and [API_ERROR] when the body has none
    or a falsy one; its message is the body's message when truthy, and the
    generic "F1 API request failed" when the body supplies none or a falsy
    one.  (2) The request was sent and no response arrived: the call
    throws the fixed "service unavailable" network error.  (3) Otherwise
    the call throws the original error, message and code untouched.  A
    response with a 2xx status, or with the status 0, is no failure: the
    call returns it. *)
Theorem upstream_failure_classified (up : HttpRequest -> Z -> Reply)
        (req : HttpRequest) (w : World) :
  match outcome (up req (clock w)) with
  | Responded r =>
      let body := Some (Response.data r) in
      (validateStatus (Response.status r) = true \/ Response.status r = 0 ->
       fst (client_get up req w) = Returned r) /\
      (validateStatus (Response.status r) = false ->
       Response.status r <> 0 ->
       exists e, fst (client_get up req w) = Thrown e /\
         status e = Some (Response.status r) /\
         (forall c, body ?. "error" ?. "code" = Some c -> truthy c = true ->
                    code e = Some c) /\
         ((forall c, body ?. "error" ?. "code" = Some c -> truthy c = false) ->
          code e = Some (JStr "API_ERROR")) /\
         (forall m, body ?. "error" ?. "message" = Some m -> truthy m = true ->
                    message e = toString m) /\
         ((forall m, body ?. "error" ?. "message" = Some m ->
                     truthy m = false) ->
          message e = "F1 API request failed"))
  | NoResponse _ _ =>
      fst (client_get up req w) =
      Thrown {| message := "Jolpica F1 API service unavailable";
                status := None;
                code := Some (JStr "NETWORK_ERROR");
                response := None;
                request := false |}
  | NotSent msg c =>
      fst (client_get up req w) =
      Thrown {| message := msg; status := None; code := c;
                response := None; request := false |}
  end.
Proof.
  unfold client_get, clientGet.
  destruct (outcome (up req (clock w))) as [r|msg c|msg c]; simpl;
    [|reflexivity|reflexivity].
  split.
  - intros [Hv | Hz]; unfold settle.
    + rewrite Hv, orb_true_r. reflexivity.
    + rewrite Hz. reflexivity.
  - intros Hv Hz. destruct (settle r) as [|ax] eqn:Hs.
    + exfalso. revert Hs. unfold settle. rewrite Hv.
      apply Z.eqb_neq in Hz. rewrite Hz. discriminate.
    + apply settle_thrown in Hs as (_ & Hr & _).
      eexists. split; [reflexivity|].
      rewrite (formatError_response ax r Hr). simpl.
      split; [reflexivity|].
      split; [intros c Hc Ht; f_equal; now apply jsOrElse_truthy|].
      split; [intros Hc; f_equal; now apply jsOrElse_falsy|].
      split; [intros m Hm Ht; f_equal; now apply jsOrElse_truthy|].
      intros Hm. now rewrite jsOrElse_falsy.
Qed.

(** C4, counterexample.  A 404 whose body carries a message and the code
    [0]: the code is present in the body, yet the error raised carries
    [API_ERROR] in its place. *)
Lemma falsy_body_code_replaced :
  let body := JObj [("error", JObj [("message", JStr "Round not found");
                                    ("code", JNum 0)])] in
  Some body ?. "error" ?. "code" = Some (JNum 0) /\
  fst (client_get (answering (Response.mk 404 body))
                  (plainGet "/2024/99.json") coldWorld)
  = Thrown {| message := "Round not found";
              status := Some 404;
              code := Some (JStr "API_ERROR");
              response := None;
              request := false |}.
Proof. cbv zeta. split; vm_compute; reflexivity. Qed.

(** A 404 whose body names a message and a code. *)
Lemma upstream_failure_classified_witness :
  validateStatus 404 = false /\ 404 <> 0 /\
  exists e,
    fst (client_get (answering (Response.mk 404 notFoundBody))
                    (plainGet "/2024.json") coldWorld) = Thrown e /\
    status e = Some 404 /\
    code e = Some (JStr "NOT_FOUND") /\
    message e = "Not found".
Proof.
  split; [reflexivity|]. split; [lia|].
  destruct (upstream_failure_classified
              (answering (Response.mk 404 notFoundBody))
              (plainGet "/2024.json") coldWorld) as [_ H].
  destruct (H eq_refl) as (e & He & Hs & Hc & _ & Hm & _); [simpl; lia|].
  exists e. split; [exact He|]. split; [exact Hs|].
  split; [apply (Hc (JStr "NOT_FOUND")); reflexivity|].
  apply (Hm (JStr "Not found")); reflexivity.
Defined.

(* ===================================================================== *)
(** ** What an operation hands back *)
(* ===================================================================== *)

(** On a miss, the value [makeRequest] returns is the body of the
    provider's response, as received, and that body is what it stores. *)
Lemma makeRequest_miss_returned (up : HttpRequest -> Z -> Reply)
      (key : string) (w w' : World) (data : Json) :
  isHit key w = false ->
  makeRequest up key w = (Returned data, w') ->
  exists resp,
    outcome (up (plainGet key) (clock w)) = Responded resp /\
    data = Response.data resp /\
    cache w' !! key =
    Some (NodeCache.wrap (clock w') data (getCacheTTL key)) /\
    calls w' = calls w ++ [plainGet key].
Proof.
  intros Hm. rewrite (makeRequest_miss up key w Hm). cbv zeta.
  destruct (outcome (up (plainGet key) (clock w))) as [r|m c|m c] eqn:Ho;
    simpl; try discriminate.
  destruct (settle r) as [r'|] eqn:Hs; [|discriminate].
  assert (r' = r) as ->.
  { revert Hs. unfold settle. destruct (_ || _); congruence. }
  intros [= <- <-]. exists r. simpl.
  split; [reflexivity|]. split; [reflexivity|].
  split; [|reflexivity]. unfold NodeCache.set. apply lookup_insert_eq.
Qed.

Lemma makeRequest_hit_returned (up : HttpRequest -> Z -> Reply)
      (key : string) (w : World) :
  isHit key w = true ->
  exists x, cached key w = Some x /\ truthy x = true /\
            makeRequest up key w = (Returned x, w).
Proof.
  unfold isHit. destruct (cached key w) as [x|] eqn:Hc; [|discriminate].
  intros Ht. exists x. split; [reflexivity|]. split; [exact Ht|].
  now apply makeRequest_hit.
Qed.

Lemma getCacheTTL_pos (endpoint : string) : 0 < getCacheTTL endpoint.
Proof.
  unfold getCacheTTL.
  destruct (includes "current" endpoint); [reflexivity|].
  destruct (includes "standings" endpoint || includes "results" endpoint);
    [reflexivity|].
  destruct (includes "drivers" endpoint || includes "constructors" endpoint);
    reflexivity.
Qed.

Lemma getCacheTTL_nonzero (endpoint : string) :
  (getCacheTTL endpoint =? 0) = false.
Proof.
  unfold getCacheTTL.
  destruct (includes "current" endpoint); [reflexivity|].
  destruct (includes "standings" endpoint || includes "results" endpoint);
    [reflexivity|].
  destruct (includes "drivers" endpoint || includes "constructors" endpoint);
    reflexivity.
Qed.

Lemma proxy_invoke_fetchData (up : HttpRequest -> Z -> Reply)
      (r : EndpointRequest) :
  exists path, ProxyClient.invoke up r = ProxyClient.fetchData up path.
Proof. destruct r; eexists; reflexivity. Qed.

Lemma proxy_invoke_path (up : HttpRequest -> Z -> Reply) (r : EndpointRequest) :
  ProxyClient.invoke up r = ProxyClient.fetchData up (proxyPath r).
Proof. destruct r; reflexivity. Qed.

Lemma proxy_fetchData_world (up : HttpRequest -> Z -> Reply) (path : string)
      (w : World) :
  snd (ProxyClient.fetchData up path w)
  = {| cache := cache w;
       clock := clock w + Z.of_N (latency (up (plainGet path) (clock w)));
       calls := calls w ++ [plainGet path] |}.
Proof.
  unfold ProxyClient.fetchData, bind, ProxyClient.client_get, clientGet, ret.
  destruct (dispatchRequest _); reflexivity.
Qed.

Lemma proxy_fetchData_thrown (up : HttpRequest -> Z -> Reply) (path : string)
      (w w' : World) (e : JsError) :
  ProxyClient.client_get up (plainGet path) w = (Thrown e, w') ->
  ProxyClient.fetchData up path w = (Thrown e, w').
Proof. intros H. unfold ProxyClient.fetchData, bind. now rewrite H. Qed.

Lemma proxy_fetchData_returned (up : HttpRequest -> Z -> Reply)
      (path : string) (w w' : World) (body : Json) :
  ProxyClient.fetchData up path w = (Returned body, w') ->
  exists resp, outcome (up (plainGet path) (clock w)) = Responded resp /\
               body = Response.data resp /\
               calls w' = calls w ++ [plainGet path].
Proof.
  unfold ProxyClient.fetchData, bind, ProxyClient.client_get, clientGet, ret.
  destruct (outcome (up (plainGet path) (clock w))) as [r|m c|m c] eqn:Ho;
    simpl; try discriminate.
  destruct (settle r) as [r'|] eqn:Hs; [|discriminate].
  assert (r' = r) as ->.
  { revert Hs. unfold settle. destruct (_ || _); congruence. }
  intros [= <- <-]. exists r. auto.
Qed.

(** C5, as amended.  For every operation of the caching client, a
    successful invocation returns an envelope with [success: true] whose
    [data] is the list found under [MRData] in the value [makeRequest]
    returned (the empty list when there is none).  On a miss that value
    is the body of the provider's response to the request for the cache
    key, as received, and [makeRequest] has stored that same body under
    the key, to expire one TTL after the response arrived; on a hit it is
    the cached value and nothing has changed.  On a miss, an invocation
    whose upstream call fails raises the Normalized Error of that call,
    unchanged.  An operation of the proxy client returns the body, as
    received, of the response to the request for its own path and leaves
    the store as it was; when its upstream call fails it raises the
    Normalized Error of that call, unchanged. *)
Theorem operation_outcome (up : HttpRequest -> Z -> Reply) (fy : Z -> string)
        (r : EndpointRequest) (w : World) :
  (forall env w', invoke up fy r w = (Returned env, w') ->
     field "success" env = Some (JBool true) /\
     exists data,
       makeRequest up (cacheKey r) w = (Returned data, w') /\
       field "data" env = Some (listOf r data) /\
       (isHit (cacheKey r) w = false ->
        exists resp,
          outcome (up (plainGet (cacheKey r)) (clock w)) = Responded resp /\
          data = Response.data resp /\
          cache w' !! cacheKey r
          = Some (NodeCache.mkEntry
                    (clock w' + getCacheTTL (cacheKey r) * 1000)
                    (Response.data resp))) /\
       (isHit (cacheKey r) w = true ->
        cached (cacheKey r) w = Some data /\ w' = w)) /\
  (forall e w', isHit (cacheKey r) w = false ->
     client_get up (plainGet (cacheKey r)) (afterLookup (cacheKey r) w)
     = (Thrown e, w') ->
     invoke up fy r w = (Thrown e, w')) /\
  (forall body w', ProxyClient.invoke up r w = (Returned body, w') ->
     exists resp,
       outcome (up (plainGet (proxyPath r)) (clock w)) = Responded resp /\
       body = Response.data resp /\
       cache w' = cache w) /\
  (forall e w',
     ProxyClient.client_get up (plainGet (proxyPath r)) w = (Thrown e, w') ->
     ProxyClient.invoke up r w = (Thrown e, w')).
Proof.
  split; [|split; [|split]].
  - intros env w' Hi.
    destruct (invoke_returned_inv up fy r w w' env Hi)
      as (data & Hm & _ & Hs & Hd).
    split; [exact Hs|]. exists data.
    split; [exact Hm|]. split; [exact Hd|]. split.
    + intros Hmiss.
      destruct (makeRequest_miss_returned up _ w w' data Hmiss Hm)
        as (resp & Ho & Hb & He & _).
      exists resp. split; [exact Ho|]. split; [exact Hb|].
      rewrite He, <- Hb. unfold NodeCache.wrap.
      now rewrite getCacheTTL_nonzero.
    + intros Hhit.
      destruct (makeRequest_hit_returned up _ w Hhit) as (x & Hc & _ & Hx).
      rewrite Hx in Hm. now injection Hm as <- <-.
  - intros e w' Hmiss Hget. apply invoke_thrown.
    now apply miss_failure_throws.
  - intros body w' Hi.
    rewrite proxy_invoke_path in Hi.
    destruct (proxy_fetchData_returned up _ w w' body Hi)
      as (resp & Ho & Hb & _).
    exists resp. split; [exact Ho|]. split; [exact Hb|].
    pose proof (proxy_fetchData_world up (proxyPath r) w) as Hw.
    rewrite Hi in Hw. simpl in Hw. now rewrite Hw.
  - intros e w' Hget. rewrite proxy_invoke_path.
    now apply proxy_fetchData_thrown.
Qed.

(** C5, counterexample.  Asked for the races of 2024, the caching client
    returns an envelope, not the body the provider sent. *)
Lemma envelope_is_not_raw_body :
  exists env,
    fst (invoke (answering (Response.mk 200 body2024)) year2026
                (GetRaces (Some (JStr "2024"))) coldWorld) = Returned env /\
    env = [("success", Some (JBool true));
           ("data", Some sampleRaces);
           ("season", Some (JStr "2024"))] /\
    JObj (objectOf env) <> body2024.
Proof.
  eexists. split; [vm_compute; reflexivity|].
  split; [reflexivity | discriminate].
Qed.

(** The races of 2024 fetched into a cold cache. *)
Lemma operation_outcome_witness :
  let up := answering (Response.mk 200 body2024) in
  let r := GetRaces (Some (JStr "2024")) in
  let env := [("success", Some (JBool true));
              ("data", Some sampleRaces);
              ("season", Some (JStr "2024"))] in
  let w' := {| cache := {[ "/2024.json" := NodeCache.mkEntry 1801120 body2024 ]};
               clock := 1120;
               calls := [plainGet "/2024.json"] |} in
  invoke up year2026 r coldWorld = (Returned env, w') /\
  field "success" env = Some (JBool true) /\
  exists data,
    makeRequest up (cacheKey r) coldWorld = (Returned data, w') /\
    field "data" env = Some (listOf r data) /\
    exists resp,
      outcome (up (plainGet (cacheKey r)) (clock coldWorld)) = Responded resp /\
      data = Response.data resp /\
      cache w' !! cacheKey r
      = Some (NodeCache.mkEntry (clock w' + getCacheTTL (cacheKey r) * 1000)
                                (Response.data resp)).
Proof.
  cbv zeta.
  assert (Hi : invoke (answering (Response.mk 200 body2024)) year2026
                      (GetRaces (Some (JStr "2024"))) coldWorld
               = (Returned [("success", Some (JBool true));
                            ("data", Some sampleRaces);
                            ("season", Some (JStr "2024"))],
                  {| cache := {[ "/2024.json" :=
                                   NodeCache.mkEntry 1801120 body2024 ]};
                     clock := 1120;
                     calls := [plainGet "/2024.json"] |}))
    by (vm_compute; reflexivity).
  split; [exact Hi|].
  destruct (operation_outcome (answering (Response.mk 200 body2024)) year2026
              (GetRaces (Some (JStr "2024"))) coldWorld) as (H & _ & _).
  destruct (H _ _ Hi) as (Hs & data & Hm & Hd & Hmiss & _).
  split; [exact Hs|]. exists data.
  split; [exact Hm|]. split; [exact Hd|].
  apply Hmiss. reflexivity.
Defined.

(** One path for each class. *)
Lemma getCacheTTL_precedence_witness :
  (contains "current" "/current/drivers.json" /\
   contains "drivers" "/current/drivers.json" /\
   getCacheTTL "/current/drivers.json" = 60) /\
  getCacheTTL "/2024/5/results.json" = 300 /\
  getCacheTTL "/2024/drivers.json" = 3600 /\
  getCacheTTL "/2024.json" = 1800.
Proof.
  assert (Hc : contains "current" "/current/drivers.json")
    by (exists "/", "/drivers.json"; reflexivity).
  assert (Hd : contains "drivers" "/current/drivers.json")
    by (exists "/current/", ".json"; reflexivity).
  split; [split; [exact Hc | split; [exact Hd|]]|].
  - exact (proj2 (proj2 (proj2 (proj2
             (getCacheTTL_precedence "/current/drivers.json")))) Hc Hd).
  - split; [|split].
    + apply (proj1 (proj2 (getCacheTTL_precedence "/2024/5/results.json"))).
      * apply includes_false. reflexivity.
      * right. exists "/2024/5/", ".json". reflexivity.
    + apply (proj1 (proj2 (proj2 (getCacheTTL_precedence "/2024/drivers.json"))));
        try (apply includes_false; reflexivity).
      left. exists "/2024/", ".json". reflexivity.
    + apply (proj1 (proj2 (proj2 (proj2 (getCacheTTL_precedence "/2024.json")))));
        apply includes_false; reflexivity.
Defined.

(* ===================================================================== *)
(** ** Cache keys *)
(* ===================================================================== *)

Lemma length_append (a b : string) :
  String.length (a +:+ b) = (String.length a + String.length b)%nat.
Proof.
  induction a as [|x a IH]; [reflexivity|].
  rewrite append_cons. simpl. now rewrite IH.
Qed.

(** Cancellation of a common suffix. *)
Lemma append_inj_r (a b c : string) : a +:+ c = b +:+ c -> a = b.
Proof.
  revert b. induction a as [|x a IH]; intros [|y b] H.
  - reflexivity.
  - apply (f_equal String.length) in H.
    change ("" +:+ c) with c in H.
    rewrite append_cons in H. simpl in H. rewrite length_append in H. lia.
  - apply (f_equal String.length) in H.
    change ("" +:+ c) with c in H.
    rewrite append_cons in H. simpl in H. rewrite length_append in H. lia.
  - rewrite !append_cons in H. injection H as -> H.
    f_equal. now apply IH.
Qed.

(** Two texts free of [c] that are followed by [c] end at the same place. *)
Lemma split_at_char (c : ascii) (s1 s2 x y : string) :
  hasChar c s1 = false -> hasChar c s2 = false ->
  s1 +:+ String c x = s2 +:+ String c y -> s1 = s2 /\ x = y.
Proof.
  revert s2. induction s1 as [|a s1 IH]; intros [|b s2] H1 H2 H.
  - change (String c x = String c y) in H. now injection H as ->.
  - exfalso. change (String c x = String b (s2 +:+ String c y)) in H.
    injection H as <- _. simpl in H2. now rewrite Ascii.eqb_refl in H2.
  - exfalso. change (String a (s1 +:+ String c x) = String c y) in H.
    injection H as -> _. simpl in H1. now rewrite Ascii.eqb_refl in H1.
  - rewrite !append_cons in H. injection H as -> H.
    simpl in H1, H2. apply orb_false_elim in H1 as [_ H1].
    apply orb_false_elim in H2 as [_ H2].
    destruct (IH s2 H1 H2 H) as [-> ->]. auto.
Qed.

Lemma template_string (p q : option Json) :
  isString p = true -> isString q = true -> template p = template q -> p = q.
Proof.
  destruct p as [[]|], q as [[]|]; try discriminate.
  simpl. now intros _ _ ->.
Qed.

Lemma orDefault_string (p q : option Json) :
  isString p = true -> isString q = true ->
  toString (orDefault (JStr "current") p)
  = toString (orDefault (JStr "current") q) -> p = q.
Proof.
  destruct p as [[]|], q as [[]|]; try discriminate.
  simpl. now intros _ _ ->.
Qed.

Lemma plainSeason_text (r : EndpointRequest) (s : string) :
  plainSeason r = true -> seasonText r = Some s -> hasChar "/" s = false.
Proof.
  unfold plainSeason. intros H Hs. rewrite Hs in H.
  now apply negb_true_iff in H.
Qed.

(** Keys of two requests to one operation, seasons free of ["/"]. *)
Lemma cacheKey_texts (r1 r2 : EndpointRequest) :
  operation r1 = operation r2 ->
  plainSeason r1 = true -> plainSeason r2 = true ->
  cacheKey r1 = cacheKey r2 ->
  seasonText r1 = seasonText r2 /\ otherText r1 = otherText r2.
Proof.
  intros Hop H1 H2 Hk.
  destruct r1, r2; try discriminate Hop; clear Hop;
    try (split; reflexivity);
    simpl in Hk; apply (inj (String.append "/")) in Hk;
    try (apply append_inj_r in Hk; simpl; rewrite Hk; split; reflexivity);
    pose proof (plainSeason_text _ _ H1 eq_refl) as P1;
    pose proof (plainSeason_text _ _ H2 eq_refl) as P2;
    apply (split_at_char "/" _ _ _ _ P1 P2) in Hk as [Hs Hr];
    simpl; rewrite Hs; (split; [reflexivity|]);
    try (apply append_inj_r in Hr; now rewrite Hr);
    apply (inj (String.append "drivers/")) in Hr
    || apply (inj (String.append "constructors/")) in Hr;
    apply append_inj_r in Hr; now rewrite Hr.
Qed.

(** C6, as amended.  The cache key is a function of the request, so equal
    requests have equal keys.  For two requests to the same operation
    whose season, as pasted into the path, contains no ["/"], equal keys
    force every argument to have the same text; when the arguments are
    strings the requests are then equal: such requests that differ in an
    argument have different keys. *)
Theorem cacheKey_deterministic_injective (r1 r2 : EndpointRequest) :
  (r1 = r2 -> cacheKey r1 = cacheKey r2) /\
  (operation r1 = operation r2 ->
   plainSeason r1 = true -> plainSeason r2 = true ->
   cacheKey r1 = cacheKey r2 ->
   seasonText r1 = seasonText r2 /\ otherText r1 = otherText r2) /\
  (operation r1 = operation r2 ->
   plainSeason r1 = true -> plainSeason r2 = true ->
   stringArgs r1 = true -> stringArgs r2 = true ->
   r1 <> r2 -> cacheKey r1 <> cacheKey r2).
Proof.
  split; [now intros ->|]. split; [apply cacheKey_texts|].
  intros Hop H1 H2 S1 S2 Hne Hk. apply Hne.
  destruct (cacheKey_texts r1 r2 Hop H1 H2 Hk) as [Hs Ho].
  destruct r1, r2; try discriminate Hop; try reflexivity;
    simpl in S1, S2, Hs, Ho;
    try apply andb_prop in S1 as [S1 S1'];
    try apply andb_prop in S2 as [S2 S2'];
    injection Hs as Hs; try injection Ho as Ho;
    f_equal;
    solve [ now apply orDefault_string | now apply template_string ].
Qed.

(** C6, counterexample.  Two [getDriver] requests that differ in both
    arguments resolve to the same path, hence the same cache key. *)
Lemma cacheKey_collision :
  let r1 := GetDriver (Some (JStr "max")) (Some (JStr "2023/drivers/2024")) in
  let r2 := GetDriver (Some (JStr "2024/drivers/max")) (Some (JStr "2023")) in
  r1 <> r2 /\ operation r1 = operation r2 /\
  cacheKey r1 = "/2023/drivers/2024/drivers/max.json" /\
  cacheKey r2 = "/2023/drivers/2024/drivers/max.json".
Proof. cbv zeta. split; [discriminate | repeat split]. Qed.

(** Two drivers of one season have different keys. *)
Lemma cacheKey_deterministic_injective_witness :
  let r1 := GetDriver (Some (JStr "hamilton")) (Some (JStr "2024")) in
  let r2 := GetDriver (Some (JStr "alonso")) (Some (JStr "2024")) in
  r1 <> r2 /\ cacheKey r1 <> cacheKey r2.
Proof.
  cbv zeta.
  assert (Hne : GetDriver (Some (JStr "hamilton")) (Some (JStr "2024"))
                <> GetDriver (Some (JStr "alonso")) (Some (JStr "2024")))
    by discriminate.
  split; [exact Hne|].
  exact (proj2 (proj2 (cacheKey_deterministic_injective
                         (GetDriver (Some (JStr "hamilton")) (Some (JStr "2024")))
                         (GetDriver (Some (JStr "alonso")) (Some (JStr "2024")))))
           eq_refl eq_refl eq_refl eq_refl eq_refl Hne).
Defined.

(* ===================================================================== *)
(** ** Populating the cache *)
(* ===================================================================== *)

Lemma settle_ok (r : Response.t) :
  validateStatus (Response.status r) = true -> settle r = Returned r.
Proof. intros H. unfold settle. now rewrite H, orb_true_r. Qed.

(** A miss answered with a 2xx response stores the body under the path,
    for the classified TTL counted from the arrival of the response. *)
Lemma makeRequest_miss_ok (up : HttpRequest -> Z -> Reply) (key : string)
      (w : World) (resp : Response.t) :
  isHit key w = false ->
  outcome (up (plainGet key) (clock w)) = Responded resp ->
  validateStatus (Response.status resp) = true ->
  makeRequest up key w =
  let done := clock w + Z.of_N (latency (up (plainGet key) (clock w))) in
  (Returned (Response.data resp),
   {| cache := <[key := NodeCache.mkEntry (done + getCacheTTL key * 1000)
                                          (Response.data resp)]>
                 (cache (afterLookup key w));
      clock := done;
      calls := calls w ++ [plainGet key] |}).
Proof.
  intros Hm Ho Hv. rewrite (makeRequest_miss up key w Hm). cbv zeta.
  rewrite Ho. simpl. rewrite (settle_ok resp Hv).
  unfold NodeCache.set, NodeCache.wrap.
  now rewrite getCacheTTL_nonzero.
Qed.

(** C7, as amended.  Requesting the races of season "2024" when the
    lookup is not a hit sends one request for [/2024.json]; when the
    provider answers with a 2xx response holding a race list, the client
    returns an envelope whose [data] is that list and stores the response
    body under the cache key [/2024.json], the resolved path, to expire
    1800 seconds after the response arrived. *)
Theorem races_2024_miss (up : HttpRequest -> Z -> Reply)
        (w : World) (resp : Response.t) (races : list Json) :
  isHit "/2024.json" w = false ->
  outcome (up (plainGet "/2024.json") (clock w)) = Responded resp ->
  validateStatus (Response.status resp) = true ->
  Some (Response.data resp) ?. "MRData" ?. "RaceTable" ?. "Races"
  = Some (JArr races) ->
  let done := clock w + Z.of_N (latency (up (plainGet "/2024.json") (clock w))) in
  exists env,
    getRaces up (Some (JStr "2024")) w =
    (Returned env,
     {| cache := <["/2024.json" := NodeCache.mkEntry (done + 1800 * 1000)
                                                     (Response.data resp)]>
                   (cache (afterLookup "/2024.json" w));
        clock := done;
        calls := calls w ++ [plainGet "/2024.json"] |}) /\
    field "success" env = Some (JBool true) /\
    field "data" env = Some (JArr races).
Proof.
  intros Hm Ho Hv Hr done.
  pose proof (makeRequest_miss_ok up "/2024.json" w resp Hm Ho Hv) as Hq.
  cbv zeta in Hq. change (getCacheTTL "/2024.json") with 1800 in Hq.
  assert (Hn : Response.data resp <> JNull).
  { intros E. rewrite E in Hr. discriminate. }
  destruct (invoke_returned up year2026 (GetRaces (Some (JStr "2024")))
              w _ _ Hq Hn) as (env & He & Hs & Hd).
  exists env. split; [exact He|]. split; [exact Hs|].
  rewrite Hd. unfold listOf. simpl fst. simpl snd. now rewrite Hr.
Qed.

(** C7, counterexample.  After the races of 2024 have been fetched into a
    cold cache, nothing is stored under [races:2024]; the entry is under
    [/2024.json]. *)
Lemma races_2024_key_is_path :
  let w' := snd (getRaces (answering (Response.mk 200 body2024))
                          (Some (JStr "2024")) coldWorld) in
  cache w' !! "races:2024" = None /\
  cache w' !! "/2024.json" = Some (NodeCache.mkEntry 1801120 body2024).
Proof. cbv zeta. split; vm_compute; reflexivity. Qed.

(** The scenario on a cold cache. *)
Lemma races_2024_miss_witness :
  exists env,
    getRaces (answering (Response.mk 200 body2024))
             (Some (JStr "2024")) coldWorld =
    (Returned env,
     {| cache := <["/2024.json" := NodeCache.mkEntry (1120 + 1800 * 1000)
                                                     body2024]> ∅;
        clock := 1120;
        calls := [plainGet "/2024.json"] |}) /\
    field "success" env = Some (JBool true) /\
    field "data" env = Some sampleRaces.
Proof.
  exact (races_2024_miss (answering (Response.mk 200 body2024))
           coldWorld (Response.mk 200 body2024)
           [JObj [("round", JStr "1"); ("raceName", JStr "Bahrain Grand Prix")]]
           eq_refl eq_refl eq_refl eq_refl).
Defined.

(* ===================================================================== *)
(** ** The health probe *)
(* ===================================================================== *)

(** The probe over any axios instance: one request, a boolean back, and
    [true] exactly for a response with status 200. *)
Lemma probe_status_200 (up : HttpRequest -> Z -> Reply)
      (fmt : JsError -> JsError) (req : HttpRequest) (w : World) :
  exists b,
    tryCatch (do resp <- clientGet up fmt req;
              ret (Response.status resp =? 200))
             (fun error => ret false) w
    = (Returned b,
       {| cache := cache w;
          clock := clock w + Z.of_N (latency (up req (clock w)));
          calls := calls w ++ [req] |}) /\
    (b = true <->
     exists resp, outcome (up req (clock w)) = Responded resp /\
                  Response.status resp = 200).
Proof.
  unfold tryCatch, bind, clientGet, ret.
  destruct (outcome (up req (clock w))) as [r|m c|m c] eqn:Ho; simpl.
  - unfold settle.
    destruct ((Response.status r =? 0) || validateStatus (Response.status r))
      eqn:Hv.
    + exists (Response.status r =? 200). split; [reflexivity|]. split.
      * intros H. exists r. split; [reflexivity|]. now apply Z.eqb_eq.
      * intros (resp & [= <-] & H). now apply Z.eqb_eq.
    + exists false. split; [reflexivity|]. split; [discriminate|].
      intros (resp & [= <-] & H). rewrite H in Hv. discriminate.
  - exists false. split; [reflexivity|]. split; [discriminate|].
    intros (resp & H & _). discriminate.
  - exists false. split; [reflexivity|]. split; [discriminate|].
    intros (resp & H & _). discriminate.
Qed.

(** C8, as amended.  [healthCheck()] sends a single [GET] (of
    [/seasons.json] limited to one result; of [/health] in the proxy
    client), never raises, and returns [true] exactly when a response
    arrived with status 200; for every other outcome, other 2xx statuses
    included, it returns [false]. *)
Theorem healthCheck_status_200 (up : HttpRequest -> Z -> Reply) (w : World) :
  let probe := {| url := "/seasons.json"; params := [("limit", JNum 1)] |} in
  (exists b,
     healthCheck up w
     = (Returned b,
        {| cache := cache w;
           clock := clock w + Z.of_N (latency (up probe (clock w)));
           calls := calls w ++ [probe] |}) /\
     (b = true <->
      exists resp, outcome (up probe (clock w)) = Responded resp /\
                   Response.status resp = 200)) /\
  (exists b,
     ProxyClient.healthCheck up w
     = (Returned b,
        {| cache := cache w;
           clock := clock w + Z.of_N (latency (up (plainGet "/health") (clock w)));
           calls := calls w ++ [plainGet "/health"] |}) /\
     (b = true <->
      exists resp, outcome (up (plainGet "/health") (clock w)) = Responded resp /\
                   Response.status resp = 200)).
Proof.
  split; apply probe_status_200.
Qed.

(** C8, counterexample.  A 204 response is a 2xx response, and the probe
    answers [false]. *)
Lemma healthCheck_false_on_204 :
  let up := answering (Response.mk 204 (JStr "")) in
  validateStatus 204 = true /\
  fst (client_get up {| url := "/seasons.json"; params := [("limit", JNum 1)] |}
                  coldWorld)
  = Returned (Response.mk 204 (JStr "")) /\
  fst (healthCheck up coldWorld) = Returned false /\
  fst (ProxyClient.healthCheck up coldWorld) = Returned false.
Proof. cbv zeta. repeat split. Qed.

(** A provider that answers 200 is healthy. *)
Lemma healthCheck_status_200_witness :
  let probe := {| url := "/seasons.json"; params := [("limit", JNum 1)] |} in
  let up := answering (Response.mk 200 body2024) in
  exists b,
    healthCheck up coldWorld
    = (Returned b, {| cache := ∅; clock := 1120; calls := [probe] |}) /\
    b = true.
Proof.
  cbv zeta.
  destruct (healthCheck_status_200 (answering (Response.mk 200 body2024))
              coldWorld) as [(b & Hb & Hiff) _].
  exists b. split; [exact Hb|].
  apply Hiff. exists (Response.mk 200 body2024). split; reflexivity.
Defined.

(* ===================================================================== *)
(** ** Substrings of a path *)
(* ===================================================================== *)

Lemma startsWith_app_sep (n u : string) (c : ascii) (b : string) :
  hasChar c n = false ->
  startsWith n (u +:+ String c b) = startsWith n u.
Proof.
  revert u. induction n as [|a n IH]; intros u Hn; [now destruct u|].
  simpl in Hn. apply orb_false_elim in Hn as [Hac Hn].
  destruct u as [|x u].
  - change ("" +:+ String c b) with (String c b). simpl. now rewrite Hac.
  - rewrite append_cons. simpl. now rewrite IH.
Qed.

(** An occurrence of [n] cannot straddle a character that [n] lacks. *)
Lemma includes_app_sep (n u : string) (c : ascii) (b : string) :
  hasChar c n = false ->
  includes n (u +:+ String c b) = includes n u || includes n b.
Proof.
  intros Hn. induction u as [|x u IH].
  - pose proof (startsWith_app_sep n "" c b Hn) as H.
    change ("" +:+ String c b) with (String c b) in *.
    simpl. rewrite H. now rewrite orb_false_r.
  - pose proof (startsWith_app_sep n (String x u) c b Hn) as H.
    rewrite append_cons in *. simpl. rewrite H, IH.
    now rewrite orb_assoc.
Qed.

(** A path [/season/leaf] contains a slash-free needle only inside the
    season or inside the leaf. *)
Lemma includes_season_path (n season leaf : string) :
  hasChar "/" n = false -> includes n "" = false ->
  includes n ("/" +:+ season +:+ "/" +:+ leaf)
  = includes n season || includes n leaf.
Proof.
  intros Hn He.
  change ("/" +:+ season +:+ "/" +:+ leaf)
    with ("" +:+ String "/" (season +:+ String "/" leaf)).
  rewrite (includes_app_sep n "" "/" _ Hn), He. simpl.
  apply includes_app_sep, Hn.
Qed.

(** What a successful fetch on a miss leaves under the key of a request. *)
Lemma miss_caches_with_ttl (up : HttpRequest -> Z -> Reply) (fy : Z -> string)
      (r : EndpointRequest) (w : World) (resp : Response.t) :
  isHit (cacheKey r) w = false ->
  outcome (up (plainGet (cacheKey r)) (clock w)) = Responded resp ->
  validateStatus (Response.status resp) = true ->
  let w' := snd (invoke up fy r w) in
  clock w' = clock w + Z.of_N (latency (up (plainGet (cacheKey r)) (clock w))) /\
  calls w' = calls w ++ [plainGet (cacheKey r)] /\
  cache w' !! cacheKey r
  = Some (NodeCache.mkEntry (clock w' + getCacheTTL (cacheKey r) * 1000)
                            (Response.data resp)).
Proof.
  intros Hm Ho Hv w'. subst w'. rewrite invoke_world.
  rewrite (makeRequest_miss_ok up _ w resp Hm Ho Hv). cbv zeta. simpl.
  split; [reflexivity|]. split; [reflexivity|]. apply lookup_insert_eq.
Qed.

(* ===================================================================== *)
(** ** Standings paths *)
(* ===================================================================== *)

Lemma keywordFree_ttl (path : string) :
  keywordFree path = true -> getCacheTTL path = 1800.
Proof.
  unfold keywordFree, ttlKeywords, getCacheTTL. simpl.
  intros H. repeat (apply andb_prop in H as [?%negb_true_iff H]).
  now repeat match goal with E : includes _ _ = false |- _ =>
                               rewrite E; clear E end.
Qed.

Lemma keywordFree_season_path (season leaf : string) :
  keywordFree season = true -> keywordFree leaf = true ->
  keywordFree ("/" +:+ season +:+ "/" +:+ leaf) = true.
Proof.
  cbv [keywordFree ttlKeywords forallb]. intros Hs Hl.
  repeat (apply andb_prop in Hs as [?%negb_true_iff Hs]).
  repeat (apply andb_prop in Hl as [?%negb_true_iff Hl]).
  rewrite !includes_season_path by reflexivity.
  now repeat match goal with E : includes _ _ = false |- _ =>
                               rewrite E; clear E end.
Qed.

(** C9, as amended.  Matching is case-sensitive: for every season whose
    text contains none of the lowercase substrings "current",
    "standings", "results", "drivers", "constructors" (every year among
    them), the resolved driver-standings and constructor-standings paths
    contain none of them either, so their TTL is the default 1800
    seconds, and a successful fetch on a miss stores the body to expire
    1800 seconds after the response arrived. *)
Theorem standings_default_ttl (up : HttpRequest -> Z -> Reply)
        (fy : Z -> string) (season : option Json) (r : EndpointRequest) :
  r = GetDriverStandings season \/ r = GetConstructorStandings season ->
  keywordFree (toString (orDefault (JStr "current") season)) = true ->
  keywordFree (cacheKey r) = true /\
  getCacheTTL (cacheKey r) = 1800 /\
  (forall w resp,
     isHit (cacheKey r) w = false ->
     outcome (up (plainGet (cacheKey r)) (clock w)) = Responded resp ->
     validateStatus (Response.status resp) = true ->
     let w' := snd (invoke up fy r w) in
     cache w' !! cacheKey r
     = Some (NodeCache.mkEntry (clock w' + 1800 * 1000) (Response.data resp))).
Proof.
  intros Hr Hs.
  assert (Hk : keywordFree (cacheKey r) = true).
  { destruct Hr as [-> | ->]; simpl;
      now apply keywordFree_season_path. }
  split; [exact Hk|]. split; [now apply keywordFree_ttl|].
  intros w resp Hm Ho Hv.
  destruct (miss_caches_with_ttl up fy r w resp Hm Ho Hv) as (_ & _ & Hc).
  cbv zeta. rewrite Hc. now rewrite (keywordFree_ttl _ Hk).
Qed.

(** C9, counterexample.  A season other than "current" whose text
    contains "current" puts both standings paths in the 60-second class. *)
Lemma standings_live_ttl_for_other_season :
  let season := Some (JStr "current-season") in
  season <> Some (JStr "current") /\
  cacheKey (GetDriverStandings season)
  = "/current-season/driverStandings.json" /\
  getCacheTTL (cacheKey (GetDriverStandings season)) = 60 /\
  getCacheTTL (cacheKey (GetConstructorStandings season)) = 60.
Proof. cbv zeta. split; [discriminate | repeat split]. Qed.

(** The driver standings of 2024. *)
Lemma standings_default_ttl_witness :
  let r := GetDriverStandings (Some (JStr "2024")) in
  keywordFree "/2024/driverStandings.json" = true /\
  getCacheTTL "/2024/driverStandings.json" = 1800 /\
  cache (snd (invoke (answering (Response.mk 200 body2024)) year2026 r coldWorld))
    !! "/2024/driverStandings.json"
  = Some (NodeCache.mkEntry (1120 + 1800 * 1000) body2024).
Proof.
  cbv zeta.
  destruct (standings_default_ttl (answering (Response.mk 200 body2024))
              year2026 (Some (JStr "2024"))
              (GetDriverStandings (Some (JStr "2024")))
              (or_introl eq_refl) eq_refl) as (Hk & Ht & Hc).
  split; [exact Hk|]. split; [exact Ht|].
  exact (Hc coldWorld (Response.mk 200 body2024) eq_refl eq_refl eq_refl).
Defined.

(* ===================================================================== *)
(** ** One entry for two operations *)
(* ===================================================================== *)

Lemma check_wrap (now now' : Z) (value : Json) (ttl : Z) :
  0 < ttl -> now' <= now + ttl * 1000 ->
  NodeCache.check now' (NodeCache.wrap now value ttl) = true.
Proof.
  intros Ht Hn. unfold NodeCache.check, NodeCache.wrap. simpl.
  replace (ttl =? 0) with false by (symmetry; apply Z.eqb_neq; lia).
  replace (now + ttl * 1000 <? now') with false
    by (symmetry; apply Z.ltb_ge; lia).
  now rewrite andb_false_r.
Qed.

(** After a successful operation its key holds an entry that is live at
    that moment; on a miss it is the one just stored. *)
Lemma returned_leaves_entry (up : HttpRequest -> Z -> Reply)
      (fy : Z -> string) (r : EndpointRequest) (w w1 : World)
      (env : Envelope) :
  invoke up fy r w = (Returned env, w1) ->
  exists e,
    liveEntry (cacheKey r) w1 e /\
    (isHit (cacheKey r) w = true -> truthy (NodeCache.v e) = true) /\
    (isHit (cacheKey r) w = false ->
     e = NodeCache.wrap (clock w1) (NodeCache.v e) (getCacheTTL (cacheKey r))).
Proof.
  intros Hi.
  destruct (invoke_returned_inv up fy r w w1 env Hi) as (data & Hm & _).
  destruct (isHit (cacheKey r) w) eqn:Hh.
  - destruct (makeRequest_hit_returned up _ w Hh) as (x & Hc & Ht & Hx).
    rewrite Hx in Hm. injection Hm as <- <-.
    unfold cached in Hc.
    destruct (NodeCache.get (cacheKey r) (clock w) (cache w))
      as [found store] eqn:E.
    simpl in Hc. subst found.
    apply get_Some in E as (_ & e & He & Hl & Hv).
    exists e. split; [now split|]. split; [now rewrite Hv | discriminate].
  - destruct (makeRequest_miss_returned up _ w w1 data Hh Hm)
      as (resp & _ & _ & Hc & _).
    exists (NodeCache.wrap (clock w1) data (getCacheTTL (cacheKey r))).
    split; [split; [exact Hc|]|].
    + pose proof (getCacheTTL_pos (cacheKey r)) as Hp.
      apply check_wrap; [exact Hp | lia].
    + split; [discriminate | reflexivity].
Qed.

(** C10, as amended.  [getCurrentSeason()] and [getRaces("current")]
    resolve to the same cache key, the path [/current.json].  After
    either of them succeeds, the key holds a live entry (stored for 60
    seconds when the call was a miss); if its value is truthy, the other
    operation, invoked on that store while the entry is unexpired,
    returns an envelope without any request to the provider and leaves
    the world as it was. *)
Theorem current_season_shared_entry (up up' : HttpRequest -> Z -> Reply)
        (fy : Z -> string) (r1 r2 : EndpointRequest) (w w1 : World)
        (env : Envelope) :
  (r1 = GetCurrentSeason /\ r2 = GetRaces (Some (JStr "current"))) \/
  (r1 = GetRaces (Some (JStr "current")) /\ r2 = GetCurrentSeason) ->
  invoke up fy r1 w = (Returned env, w1) ->
  cacheKey r1 = "/current.json" /\ cacheKey r2 = "/current.json" /\
  exists e,
    liveEntry "/current.json" w1 e /\
    (isHit "/current.json" w = false ->
     NodeCache.t e = clock w1 + 60 * 1000) /\
    (truthy (NodeCache.v e) = true ->
     forall w2, cache w2 = cache w1 ->
                NodeCache.check (clock w2) e = true ->
                (exists env', invoke up' fy r2 w2 = (Returned env', w2)) /\
                calls (snd (invoke up' fy r2 w2)) = calls w2).
Proof.
  intros Hr Hi.
  assert (Hk : cacheKey r1 = "/current.json" /\ cacheKey r2 = "/current.json").
  { destruct Hr as [[-> ->] | [-> ->]]; split; reflexivity. }
  destruct Hk as [Hk1 Hk2]. split; [exact Hk1|]. split; [exact Hk2|].
  destruct (returned_leaves_entry up fy r1 w w1 env Hi) as (e & Hl & _ & Hmiss).
  rewrite Hk1 in Hl, Hmiss. exists e.
  split; [exact Hl|]. split.
  - intros Hm. rewrite (Hmiss Hm). reflexivity.
  - intros Ht w2 Hc Hlive.
    assert (Hl2 : liveEntry (cacheKey r2) w2 e).
    { rewrite Hk2. destruct Hl as [He _]. split; [now rewrite Hc | exact Hlive]. }
    destruct (live_truthy_entry_served up' fy r2 w2 e Hl2 Ht)
      as (env' & He').
    split; [now exists env' | now rewrite He'].
Qed.

(** C10, counterexample.  [getCurrentSeason()] succeeds on a 200
    response with an empty body and stores the empty string under
    [/current.json]; [getRaces("current")], invoked at once, finds the
    live entry and still sends a request of its own. *)
Lemma shared_entry_falsy_value_refetches :
  let up := answering (Response.mk 200 (JStr "")) in
  let first := invoke up year2026 GetCurrentSeason coldWorld in
  let w1 := snd first in
  let second := invoke up year2026 (GetRaces (Some (JStr "current"))) w1 in
  (exists env, fst first = Returned env) /\
  liveEntry "/current.json" w1 (NodeCache.mkEntry 61120 (JStr "")) /\
  (exists env', fst second = Returned env') /\
  calls (snd second) = [plainGet "/current.json"; plainGet "/current.json"].
Proof.
  cbv zeta. split; [eexists; vm_compute; reflexivity|].
  split; [split; vm_compute; reflexivity|].
  split; [eexists; vm_compute; reflexivity | vm_compute; reflexivity].
Qed.

(** The current season fetched once, then read through [getRaces] sixty
    seconds later with the provider down. *)
Lemma current_season_shared_entry_witness :
  let up := answering (Response.mk 200 body2024) in
  let w1 := {| cache := {[ "/current.json" := NodeCache.mkEntry 61120 body2024 ]};
               clock := 1120;
               calls := [plainGet "/current.json"] |} in
  let w2 := {| cache := cache w1; clock := 61120; calls := calls w1 |} in
  snd (invoke up year2026 GetCurrentSeason coldWorld) = w1 /\
  (exists env', invoke unreachable year2026 (GetRaces (Some (JStr "current"))) w2
                = (Returned env', w2)) /\
  calls (snd (invoke unreachable year2026 (GetRaces (Some (JStr "current"))) w2))
  = [plainGet "/current.json"].
Proof.
  cbv zeta.
  assert (Hi : invoke (answering (Response.mk 200 body2024)) year2026
                      GetCurrentSeason coldWorld
               = (Returned [("success", Some (JBool true));
                            ("data", Some sampleRaces);
                            ("season", Some (JStr "2024"))],
                  {| cache := {[ "/current.json" :=
                                   NodeCache.mkEntry 61120 body2024 ]};
                     clock := 1120;
                     calls := [plainGet "/current.json"] |}))
    by (vm_compute; reflexivity).
  split; [now rewrite Hi|].
  destruct (current_season_shared_entry
              (answering (Response.mk 200 body2024)) unreachable year2026
              GetCurrentSeason (GetRaces (Some (JStr "current")))
              coldWorld _ _ (or_introl (conj eq_refl eq_refl)) Hi)
    as (_ & _ & e & [He Hl] & _ & Hserve).
  assert (e = NodeCache.mkEntry 61120 body2024) as ->.
  { vm_compute in He. now injection He as <-. }
  apply (Hserve eq_refl
           {| cache := {[ "/current.json" := NodeCache.mkEntry 61120 body2024 ]};
              clock := 61120;
              calls := [plainGet "/current.json"] |}
           eq_refl eq_refl).
Defined.

(* ===================================================================== *)
(** ** Numeric seasons *)
(* ===================================================================== *)

(** The decimal form of an integer is made of digits and a sign. *)
Lemma string_of_uint_chars (d : Decimal.uint) (x : ascii) :
  hasChar x "-0123456789" = false ->
  hasChar x (NilEmpty.string_of_uint d) = false.
Proof.
  intros Hx. cbn [hasChar] in Hx.
  repeat (apply orb_false_elim in Hx as [? Hx]).
  induction d; cbn [NilEmpty.string_of_uint hasChar]; rewrite ?IHd;
    repeat match goal with E : Ascii.eqb _ x = false |- _ =>
                             rewrite E; clear E end;
    reflexivity.
Qed.

Lemma decimal_chars (n : Z) (x : ascii) :
  hasChar x "-0123456789" = false -> hasChar x (decimal n) = false.
Proof.
  intros Hx. unfold decimal, NilZero.string_of_int, NilZero.string_of_uint.
  pose proof (string_of_uint_chars Decimal.Nil x Hx) as _.
  assert (H0 : Ascii.eqb "0" x = false /\ Ascii.eqb "-" x = false).
  { cbn [hasChar] in Hx. repeat (apply orb_false_elim in Hx as [? Hx]).
    now split. }
  destruct H0 as [H0 Hm].
  destruct (Z.to_int n) as [d|d]; destruct d eqn:Ed; rewrite <- ?Ed;
    cbn [hasChar]; rewrite ?H0, ?Hm, ?orb_false_l;
    try reflexivity; apply string_of_uint_chars, Hx.
Qed.

(** A needle whose first character is missing from [s] is not in [s]. *)
Lemma includes_missing_char (c : ascii) (n s : string) :
  hasChar c s = false -> includes (String c n) s = false.
Proof.
  induction s as [|a s IH]; simpl; [reflexivity|].
  intros H. apply orb_false_elim in H as [Hac H].
  rewrite (IH H), orb_false_r.
  replace (Ascii.eqb c a) with false; [reflexivity|].
  rewrite Ascii.eqb_sym. now symmetry.
Qed.

(** A year, given as a number, contains no keyword and no ["/"]. *)
Lemma year_keywordFree (n : Z) :
  keywordFree (decimal n) = true /\ hasChar "/" (decimal n) = false.
Proof.
  split; [|now apply decimal_chars].
  cbv [keywordFree ttlKeywords forallb].
  rewrite !includes_missing_char by now apply decimal_chars.
  reflexivity.
Qed.

(* ===================================================================== *)
(** ** More on the cached request path *)
(* ===================================================================== *)

Lemma afterLookup_other (key k : string) (w : World) :
  k <> key -> cache (afterLookup key w) !! k = cache w !! k.
Proof.
  intros Hk. unfold afterLookup, NodeCache.get. simpl.
  destruct (cache w !! key) as [e|]; [|reflexivity].
  destruct (NodeCache.check (clock w) e); simpl; [reflexivity|].
  now apply lookup_delete_ne.
Qed.

Lemma makeRequest_other (up : HttpRequest -> Z -> Reply) (key k : string)
      (w : World) :
  k <> key -> cache (snd (makeRequest up key w)) !! k = cache w !! k.
Proof.
  intros Hk. destruct (isHit key w) eqn:Hh.
  - destruct (makeRequest_hit_returned up key w Hh) as (x & _ & _ & ->).
    reflexivity.
  - rewrite (makeRequest_miss up key w Hh). cbv zeta.
    destruct (dispatchRequest _); simpl.
    + unfold NodeCache.set. rewrite lookup_insert_ne by congruence.
      now apply afterLookup_other.
    + now apply afterLookup_other.
Qed.

(** An operation touches no cache entry but the one of its own key,
    whether it is served from the cache, fetches and stores, or fails. *)
Theorem invoke_other_keys (up : HttpRequest -> Z -> Reply) (fy : Z -> string)
        (r : EndpointRequest) (w : World) (k : string) :
  k <> cacheKey r ->
  cache (snd (invoke up fy r w)) !! k = cache w !! k.
Proof.
  intros Hk. rewrite invoke_world. now apply makeRequest_other.
Qed.

(** Fetching the races of 2024 leaves an expired entry of another key
    where it was. *)
Lemma invoke_other_keys_witness :
  cache (snd (invoke (answering (Response.mk 200 body2024)) year2026
                     (GetRaces (Some (JStr "2024"))) staleWorld))
    !! "/seasons.json"
  = Some (NodeCache.mkEntry 1801000 body2024).
Proof.
  rewrite (invoke_other_keys (answering (Response.mk 200 body2024)) year2026
             (GetRaces (Some (JStr "2024"))) staleWorld "/seasons.json");
    [reflexivity | discriminate].
Defined.

Lemma check_expired (now : Z) (e : NodeCache.Entry) :
  NodeCache.t e <> 0 -> NodeCache.t e < now -> NodeCache.check now e = false.
Proof.
  intros H0 Hlt. unfold NodeCache.check.
  apply Z.eqb_neq in H0. apply Z.ltb_lt in Hlt. now rewrite H0, Hlt.
Qed.

Lemma isHit_expired (key : string) (w : World) (e : NodeCache.Entry) :
  cache w !! key = Some e -> NodeCache.check (clock w) e = false ->
  isHit key w = false.
Proof.
  intros He Hc. unfold isHit, cached, NodeCache.get. now rewrite He, Hc.
Qed.

(** What an operation fetched on a miss is served from the cache, with
    no further request, up to and including the millisecond at which its
    TTL runs out, counted from the arrival of the response; from the next
    millisecond on the operation fetches again. *)
Theorem fetched_value_served_until_expiry
        (up up' : HttpRequest -> Z -> Reply) (fy : Z -> string)
        (r : EndpointRequest) (w w2 : World) (resp : Response.t) :
  0 <= clock w ->
  isHit (cacheKey r) w = false ->
  outcome (up (plainGet (cacheKey r)) (clock w)) = Responded resp ->
  validateStatus (Response.status resp) = true ->
  truthy (Response.data resp) = true ->
  let w1 := snd (invoke up fy r w) in
  let expiry := clock w1 + getCacheTTL (cacheKey r) * 1000 in
  cache w2 = cache w1 ->
  (clock w2 <= expiry ->
   makeRequest up' (cacheKey r) w2 = (Returned (Response.data resp), w2)) /\
  (expiry < clock w2 ->
   calls (snd (makeRequest up' (cacheKey r) w2))
   = calls w2 ++ [plainGet (cacheKey r)]).
Proof.
  intros H0 Hm Ho Hv Ht w1 expiry Hc.
  destruct (miss_caches_with_ttl up fy r w resp Hm Ho Hv) as (Hclk & _ & He).
  fold w1 in Hclk, He. fold expiry in He.
  pose proof (getCacheTTL_pos (cacheKey r)) as Hp.
  split.
  - intros Hle. apply makeRequest_hit; [|exact Ht].
    unfold cached, NodeCache.get. rewrite Hc, He.
    replace (NodeCache.check (clock w2) _) with true; [reflexivity|].
    symmetry. unfold NodeCache.check. simpl.
    replace (expiry <? clock w2) with false
      by (symmetry; apply Z.ltb_ge; exact Hle).
    now rewrite andb_false_r.
  - intros Hlt. apply makeRequest_miss_calls.
    apply (isHit_expired _ _ (NodeCache.mkEntry expiry (Response.data resp)));
      [now rewrite Hc|].
    apply check_expired; simpl; [|exact Hlt].
    subst expiry. rewrite Hclk. lia.
Qed.

(** The races of 2024, fetched at 1000 ms and stored at 1120 ms, are
    served at 1801120 ms and fetched again one millisecond later. *)
Lemma fetched_value_served_until_expiry_witness :
  let w1 := snd (invoke (answering (Response.mk 200 body2024)) year2026
                        (GetRaces (Some (JStr "2024"))) coldWorld) in
  let at_expiry := {| cache := cache w1; clock := 1801120; calls := [] |} in
  let after := {| cache := cache w1; clock := 1801121; calls := [] |} in
  makeRequest unreachable "/2024.json" at_expiry = (Returned body2024, at_expiry) /\
  calls (snd (makeRequest unreachable "/2024.json" after))
  = [plainGet "/2024.json"].
Proof.
  cbv zeta. split.
  - apply (fetched_value_served_until_expiry
             (answering (Response.mk 200 body2024)) unreachable year2026
             (GetRaces (Some (JStr "2024"))) coldWorld
             {| cache := cache (snd (invoke (answering (Response.mk 200 body2024))
                                            year2026
                                            (GetRaces (Some (JStr "2024")))
                                            coldWorld));
                clock := 1801120; calls := [] |}
             (Response.mk 200 body2024));
      try reflexivity; simpl; lia.
  - apply (fetched_value_served_until_expiry
             (answering (Response.mk 200 body2024)) unreachable year2026
             (GetRaces (Some (JStr "2024"))) coldWorld
             {| cache := cache (snd (invoke (answering (Response.mk 200 body2024))
                                            year2026
                                            (GetRaces (Some (JStr "2024")))
                                            coldWorld));
                clock := 1801121; calls := [] |}
             (Response.mk 200 body2024));
      try reflexivity; simpl; lia.
Defined.

(** A 2xx response whose body is [null] makes every operation of the
    caching client throw a [TypeError], after the [null] has been stored
    under the request's key; the stored [null] is never served: the next
    invocation sends the request again. *)
Theorem null_body_throws_after_caching
        (up up' : HttpRequest -> Z -> Reply) (fy : Z -> string)
        (r : EndpointRequest) (w : World) (resp : Response.t) :
  isHit (cacheKey r) w = false ->
  outcome (up (plainGet (cacheKey r)) (clock w)) = Responded resp ->
  validateStatus (Response.status resp) = true ->
  Response.data resp = JNull ->
  let w1 := snd (invoke up fy r w) in
  fst (invoke up fy r w) = Thrown (typeErrorNull "MRData") /\
  cache w1 !! cacheKey r
  = Some (NodeCache.mkEntry (clock w1 + getCacheTTL (cacheKey r) * 1000) JNull) /\
  calls (snd (invoke up' fy r w1)) = calls w1 ++ [plainGet (cacheKey r)].
Proof.
  intros Hm Ho Hv Hn w1.
  destruct (miss_caches_with_ttl up fy r w resp Hm Ho Hv) as (_ & _ & He).
  fold w1 in He. rewrite Hn in He.
  split; [|split; [exact He|]].
  - destruct (invoke_makeRequest up fy r) as (k & Hk & _ & _ & Hnull).
    rewrite Hk. unfold bind.
    rewrite (makeRequest_miss_ok up _ w resp Hm Ho Hv). cbv zeta.
    rewrite Hn. apply Hnull.
  - rewrite invoke_world. apply makeRequest_miss_calls.
    unfold isHit, cached, NodeCache.get. rewrite He.
    now destruct (NodeCache.check _ _).
Qed.

(** The provider answers the current season with a bare [null]. *)
Lemma null_body_throws_after_caching_witness :
  let up := answering (Response.mk 200 JNull) in
  let w1 := snd (invoke up year2026 GetCurrentSeason coldWorld) in
  fst (invoke up year2026 GetCurrentSeason coldWorld)
  = Thrown (typeErrorNull "MRData") /\
  cache w1 !! "/current.json" = Some (NodeCache.mkEntry 61120 JNull) /\
  calls (snd (invoke up year2026 GetCurrentSeason w1))
  = [plainGet "/current.json"; plainGet "/current.json"].
Proof.
  cbv zeta.
  exact (null_body_throws_after_caching
           (answering (Response.mk 200 JNull))
           (answering (Response.mk 200 JNull)) year2026
           GetCurrentSeason coldWorld (Response.mk 200 JNull)
           eq_refl eq_refl eq_refl eq_refl).
Defined.

(** [formatError] strips the axios fields and is idempotent: a formatted
    error carries neither a response nor a request, and formatting it
    again gives it back unchanged. *)
Theorem formatError_idempotent (error : JsError) :
  response (formatError error) = None /\
  request (formatError error) = false /\
  formatError (formatError error) = formatError error.
Proof.
  unfold formatError, formatErrorWith.
  destruct (response error) as [r|] eqn:Hr; simpl; [auto|].
  destruct (request error) eqn:Hq; simpl; [auto|].
  now rewrite Hr, Hq.
Qed.

(** After [clearCache()] every operation goes to the provider, whatever
    the store held, and [clearCache()] itself sends nothing. *)
Theorem clearCache_forces_fetch (up : HttpRequest -> Z -> Reply)
        (fy : Z -> string) (r : EndpointRequest) (w : World) :
  calls (snd (clearCache w)) = calls w /\
  calls (snd (invoke up fy r (snd (clearCache w))))
  = calls w ++ [plainGet (cacheKey r)].
Proof.
  split; [reflexivity|].
  rewrite invoke_world. now rewrite makeRequest_miss_calls.
Qed.

(* ===================================================================== *)
(** ** The proxy client keeps nothing *)
(* ===================================================================== *)

(** Every operation of the proxy client sends exactly one request, for
    the path of its arguments, and leaves the cache store as it was: an
    operation repeated at once sends its request a second time. *)
Theorem proxy_never_caches (up : HttpRequest -> Z -> Reply)
        (r : EndpointRequest) (w : World) :
  let w1 := snd (ProxyClient.invoke up r w) in
  calls w1 = calls w ++ [plainGet (proxyPath r)] /\
  cache w1 = cache w /\
  calls (snd (ProxyClient.invoke up r w1))
  = calls w ++ [plainGet (proxyPath r); plainGet (proxyPath r)].
Proof.
  cbv zeta. rewrite !proxy_invoke_path, !proxy_fetchData_world. simpl.
  split; [reflexivity|]. split; [reflexivity|].
  now rewrite <- app_assoc.
Qed.

(* ===================================================================== *)
(** ** TTL classes by operation *)
(* ===================================================================== *)

Lemma append_assoc (a b c : string) : (a +:+ b) +:+ c = a +:+ b +:+ c.
Proof.
  induction a as [|x a IH]; [reflexivity|].
  rewrite !append_cons. f_equal. exact IH.
Qed.

(** Containment survives an extension of the text on either side. *)
Lemma includes_extend (n pre s suf : string) :
  includes n s = true -> includes n (pre +:+ s +:+ suf) = true.
Proof.
  intros H. apply includes_spec in H as (a & b & ->).
  apply includes_spec. exists (pre +:+ a), (b +:+ suf).
  now rewrite !append_assoc.
Qed.

(** Whatever the operation, a season whose text contains "current" (the
    default of an omitted season among them) puts the request in the
    60-second class: drivers, constructors, results and standings of the
    current season are cached as live data. *)
Theorem current_season_is_live (r : EndpointRequest) (s : string) :
  seasonText r = Some s -> includes "current" s = true ->
  getCacheTTL (cacheKey r) = 60.
Proof.
  intros Hs Hc.
  assert (Hk : includes "current" (cacheKey r) = true).
  { destruct r; try discriminate Hs; simpl in Hs; injection Hs as <-;
      simpl cacheKey;
      first [ apply (includes_extend "current" "/" _ _ Hc) ]. }
  unfold getCacheTTL. now rewrite Hk.
Qed.

(** The constructors, asked without a season. *)
Lemma current_season_is_live_witness :
  cacheKey (GetConstructors None) = "/current/constructors.json" /\
  getCacheTTL (cacheKey (GetConstructors None)) = 60.
Proof.
  split; [reflexivity|].
  exact (current_season_is_live (GetConstructors None) "current"
           eq_refl eq_refl).
Defined.

Lemma keywordFree_inv (s : string) :
  keywordFree s = true ->
  includes "current" s = false /\ includes "standings" s = false /\
  includes "results" s = false /\ includes "drivers" s = false /\
  includes "constructors" s = false.
Proof.
  cbv [keywordFree ttlKeywords forallb]. intros H.
  repeat (apply andb_prop in H as [?%negb_true_iff H]). auto.
Qed.

(** The five keyword tests on a path made of a leading slash, texts and
    fixed segments separated by ["/"] or ["."]. *)
Ltac keyword_tests :=
  unfold getCacheTTL;
  repeat (rewrite includes_app_sep by reflexivity);
  repeat match goal with
         | E : includes _ _ = false |- _ => rewrite E; clear E
         end;
  reflexivity.

(** For arguments that bring no keyword of their own (years, rounds,
    ordinary identifiers) the TTL depends on the operation alone: 60
    seconds for the three "current" operations, 300 for race results,
    3600 for drivers and constructors, and 1800 for everything else,
    qualifying results and both standings among them. *)
Theorem ttl_by_operation (r : EndpointRequest) :
  keywordFreeArgs r = true ->
  getCacheTTL (cacheKey r) = ttlOf (operation r).
Proof.
  unfold keywordFreeArgs. intros H. apply andb_prop in H as [Hs Ho].
  destruct r; simpl in Hs, Ho; try reflexivity;
    apply keywordFree_inv in Hs as (S1 & S2 & S3 & S4 & S5);
    try apply keywordFree_inv in Ho as (O1 & O2 & O3 & O4 & O5);
    simpl operation; simpl ttlOf; simpl cacheKey.
  - change ("/" +:+ ?s +:+ ".json")
      with ("" +:+ String "/" (s +:+ String "." "json")).
    keyword_tests.
  - change ("/" +:+ ?s +:+ "/" +:+ ?x +:+ ".json")
      with ("" +:+ String "/" (s +:+ String "/" (x +:+ String "." "json"))).
    keyword_tests.
  - change ("/" +:+ ?s +:+ "/drivers.json")
      with ("" +:+ String "/" (s +:+ String "/" "drivers.json")).
    keyword_tests.
  - change ("/" +:+ ?s +:+ "/drivers/" +:+ ?x +:+ ".json")
      with ("" +:+ String "/"
              (s +:+ String "/"
                 ("drivers" +:+ String "/" (x +:+ String "." "json")))).
    keyword_tests.
  - change ("/" +:+ ?s +:+ "/constructors.json")
      with ("" +:+ String "/" (s +:+ String "/" "constructors.json")).
    keyword_tests.
  - change ("/" +:+ ?s +:+ "/constructors/" +:+ ?x +:+ ".json")
      with ("" +:+ String "/"
              (s +:+ String "/"
                 ("constructors" +:+ String "/" (x +:+ String "." "json")))).
    keyword_tests.
  - change ("/" +:+ ?s +:+ "/" +:+ ?x +:+ "/results.json")
      with ("" +:+ String "/" (s +:+ String "/" (x +:+ String "/" "results.json"))).
    keyword_tests.
  - change ("/" +:+ ?s +:+ "/" +:+ ?x +:+ "/qualifying.json")
      with ("" +:+ String "/"
              (s +:+ String "/" (x +:+ String "/" "qualifying.json"))).
    keyword_tests.
  - change ("/" +:+ ?s +:+ "/driverStandings.json")
      with ("" +:+ String "/" (s +:+ String "/" "driverStandings.json")).
    keyword_tests.
  - change ("/" +:+ ?s +:+ "/constructorStandings.json")
      with ("" +:+ String "/" (s +:+ String "/" "constructorStandings.json")).
    keyword_tests.
Qed.

(** Qualifying results of round 5 of 2024 fall in the default class. *)
Lemma ttl_by_operation_witness :
  let r := GetQualifyingResults (Some (JStr "2024")) (Some (JNum 5)) in
  cacheKey r = "/2024/5/qualifying.json" /\ getCacheTTL (cacheKey r) = 1800.
Proof.
  cbv zeta. split; [reflexivity|].
  exact (ttl_by_operation
           (GetQualifyingResults (Some (JStr "2024")) (Some (JNum 5)))
           eq_refl).
Defined.

(* ===================================================================== *)
(** ** Tool handlers *)
(* ===================================================================== *)

Lemma readParams_ok (request : Json) :
  request <> JNull -> readParams request = Returned (member request "params").
Proof. destruct request; [congruence | reflexivity ..]. Qed.

(** A [try] whose [catch] returns a value never throws. *)
Lemma tryCatch_returns {A : Type} (m : M A) (h : JsError -> A) (w : World) :
  exists a, fst (tryCatch m (fun error => ret (h error)) w) = Returned a.
Proof.
  unfold tryCatch, ret. destruct (m w) as [[a|e] w']; eauto.
Qed.

Lemma handler_returns (stringify : Json -> string) (api : Api.t) (t : Tool)
      (request : Json) (w : World) :
  exists res, fst (handler stringify api t request w) = Returned res.
Proof. destruct t; apply tryCatch_returns. Qed.

Lemma findTool_name (t : Tool) : findTool (Some (JStr (toolName t))) = Some t.
Proof. destruct t; reflexivity. Qed.

Lemma findTool_Some (name : option Json) (t : Tool) :
  findTool name = Some t -> name = Some (JStr (toolName t)).
Proof.
  unfold findTool. intros H. apply find_some in H as [_ H].
  unfold nameIs in H. destruct name as [[]|]; try discriminate.
  apply String.eqb_eq in H. now subst.
Qed.

(** The answer of a tool whose required argument is missing. *)
Lemma handler_missing_exact (stringify : Json -> string) (api : Api.t)
      (t : Tool) (request : Json) (key msg : string) (w : World) :
  requiredArg t = Some (key, msg) ->
  request <> JNull ->
  truthyOpt (member request "params" ?. key) = false ->
  handler stringify api t request w
  = (Returned
       {| text := stringify
                    (JObj [("success", JBool false);
                           ("error", JObj [("message", JStr msg);
                                           ("code", JStr (defaultCode t))])]);
          isError := true |},
     w).
Proof.
  intros Hr Hn Hf.
  destruct t; simpl in Hr; try discriminate; injection Hr as <- <-;
    unfold handler, getF1RaceDetails, getF1DriverDetails,
      getF1ConstructorDetails, getF1RaceResults, getF1QualifyingResults,
      tryCatch, bind, liftC;
    rewrite (readParams_ok request Hn), Hf; reflexivity.
Qed.

(** A tool whose required argument is missing or falsy ([undefined],
    [null], [0], the empty string, [false]) answers with an error result
    that carries the tool's "... is required" message and its default
    code; the client is not called and the world is left as it was. *)
Theorem missing_argument_rejected (stringify : Json -> string) (api : Api.t)
        (t : Tool) (request : Json) (key msg : string) (w : World) :
  requiredArg t = Some (key, msg) ->
  request <> JNull ->
  truthyOpt (member request "params" ?. key) = false ->
  handler stringify api t request w
  = (Returned
       {| text := stringify
                    (JObj [("success", JBool false);
                           ("error", JObj [("message", JStr msg);
                                           ("code", JStr (defaultCode t))])]);
          isError := true |},
     w).
Proof. apply handler_missing_exact. Qed.

(** Race details asked with an empty parameter object. *)
Lemma missing_argument_rejected_witness :
  let request := JObj [("params", JObj [])] in
  handler toString (cachingApi unreachable year2026) ToolRaceDetails request
          coldWorld
  = (Returned
       {| text := toString
                    (JObj [("success", JBool false);
                           ("error",
                            JObj [("message", JStr "Round number is required");
                                  ("code", JStr "RACE_DETAILS_ERROR")])]);
          isError := true |},
     coldWorld).
Proof.
  cbv zeta.
  apply (missing_argument_rejected toString (cachingApi unreachable year2026)
           ToolRaceDetails (JObj [("params", JObj [])])
           "round" "Round number is required" coldWorld);
    [reflexivity | discriminate | reflexivity].
Defined.

(** A usable request: an object whose required argument is present. *)
Lemma handler_thrown (stringify : Json -> string) (api : Api.t) (t : Tool)
      (request : Json) (w w' : World) (e : JsError) :
  request <> JNull -> argPresent t request = true ->
  apiCall api (requestOf t request) w = (Thrown e, w') ->
  handler stringify api t request w
  = (Returned (errorResult stringify (defaultCode t) e), w').
Proof.
  intros Hn Ha Hc.
  destruct t; unfold argPresent in Ha; simpl in Ha, Hc;
    unfold handler, getF1Seasons, getCurrentF1Season, getF1Races,
      getF1RaceDetails, getCurrentF1Race, getNextF1Race, getF1Drivers,
      getF1DriverDetails, getF1Constructors, getF1ConstructorDetails,
      getF1RaceResults, getF1QualifyingResults, getF1DriverStandings,
      getF1ConstructorStandings, tryCatch, bind, liftC;
    rewrite ?(readParams_ok request Hn), ?Ha; unfold negb; cbv beta iota;
    unfold seasonOf in Hc; rewrite Hc; reflexivity.
Qed.

(** When the client call of a tool throws, the tool does not: it returns
    an error result with [isError] set, whose payload holds the message
    of the error and its code, the tool's default code standing in when
    the error has none (or a falsy one).  The world is the one the client
    left. *)
Theorem client_failure_reported (stringify : Json -> string) (api : Api.t)
        (t : Tool) (request : Json) (w w' : World) (e : JsError) :
  request <> JNull -> argPresent t request = true ->
  apiCall api (requestOf t request) w = (Thrown e, w') ->
  exists res,
    handler stringify api t request w = (Returned res, w') /\
    isError res = true /\
    text res
    = stringify
        (JObj [("success", JBool false);
               ("error",
                JObj [("message", JStr (message e));
                      ("code", match code e with
                               | Some c => if truthy c then c
                                           else JStr (defaultCode t)
                               | None => JStr (defaultCode t)
                               end)])]).
Proof.
  intros Hn Ha Hc. exists (errorResult stringify (defaultCode t) e).
  split; [apply handler_thrown; assumption|].
  split; reflexivity.
Qed.

(** The drivers of 2024 with the provider down. *)
Lemma client_failure_reported_witness :
  let request := JObj [("params", JObj [("season", JStr "2024")])] in
  exists res,
    handler toString (cachingApi unreachable year2026) ToolDrivers request
            coldWorld
    = (Returned res,
       {| cache := ∅; clock := 11000;
          calls := [plainGet "/2024/drivers.json"] |}) /\
    isError res = true /\
    text res
    = toString
        (JObj [("success", JBool false);
               ("error",
                JObj [("message", JStr "Jolpica F1 API service unavailable");
                      ("code", JStr "NETWORK_ERROR")])]).
Proof.
  cbv zeta.
  apply (client_failure_reported toString (cachingApi unreachable year2026)
           ToolDrivers (JObj [("params", JObj [("season", JStr "2024")])])
           coldWorld
           {| cache := ∅; clock := 11000;
              calls := [plainGet "/2024/drivers.json"] |}
           {| message := "Jolpica F1 API service unavailable";
              status := None;
              code := Some (JStr "NETWORK_ERROR");
              response := None;
              request := false |});
    [discriminate | reflexivity | reflexivity].
Defined.

(** An error formatted from a rejected response or an unanswered request
    always carries a truthy code: the code of the response body,
    [API_ERROR] or [NETWORK_ERROR].  A tool therefore reports that code,
    and never its own default, for an upstream failure. *)
Theorem upstream_failure_keeps_code (stringify : Json -> string)
        (error : JsError) (dflt : string) :
  response error <> None \/ request error = true ->
  exists c,
    code (formatError error) = Some c /\ truthy c = true /\
    text (errorResult stringify dflt (formatError error))
    = stringify
        (JObj [("success", JBool false);
               ("error",
                JObj [("message", JStr (message (formatError error)));
                      ("code", c)])]).
Proof.
  intros H. unfold formatError, formatErrorWith, errorResult.
  destruct (response error) as [r|] eqn:Hr.
  - set (c := jsOrElse _ (JStr "API_ERROR")).
    assert (Hc : truthy c = true).
    { subst c. unfold jsOrElse.
      destruct (_ ?. "code") as [x|]; [|reflexivity].
      destruct (truthy x) eqn:Hx; [exact Hx | reflexivity]. }
    exists c. simpl. rewrite Hc. auto.
  - destruct H as [H|H]; [congruence|]. rewrite H.
    exists (JStr "NETWORK_ERROR"). simpl. auto.
Qed.

(** A 503 whose body names no code is reported as [API_ERROR]. *)
Lemma upstream_failure_keeps_code_witness :
  let error := {| message := "Request failed with status code 503";
                  status := None;
                  code := Some (JStr "ERR_BAD_RESPONSE");
                  response := Some (Response.mk 503 (JStr "Service Unavailable"));
                  request := true |} in
  exists c,
    code (formatError error) = Some c /\ truthy c = true /\
    text (errorResult toString "RACES_ERROR" (formatError error))
    = toString
        (JObj [("success", JBool false);
               ("error",
                JObj [("message", JStr (message (formatError error)));
                      ("code", c)])]).
Proof.
  cbv zeta.
  apply (upstream_failure_keeps_code toString
           {| message := "Request failed with status code 503";
              status := None;
              code := Some (JStr "ERR_BAD_RESPONSE");
              response := Some (Response.mk 503 (JStr "Service Unavailable"));
              request := true |}
           "RACES_ERROR").
  left. discriminate.
Defined.

(* ===================================================================== *)
(** ** Tools over the caching client *)
(* ===================================================================== *)

Lemma handler_missing (stringify : Json -> string) (api : Api.t)
      (t : Tool) (request : Json) (w : World) :
  request <> JNull -> argPresent t request = false ->
  exists e, handler stringify api t request w
            = (Returned (errorResult stringify (defaultCode t) e), w).
Proof.
  intros Hn Ha. unfold argPresent in Ha.
  destruct t; simpl in Ha; try discriminate;
    unfold handler, getF1RaceDetails, getF1DriverDetails,
      getF1ConstructorDetails, getF1RaceResults, getF1QualifyingResults,
      tryCatch, bind, liftC;
    rewrite (readParams_ok request Hn), Ha; eexists; reflexivity.
Qed.

Lemma handler_null_request (stringify : Json -> string) (api : Api.t)
      (t : Tool) (w : World) :
  requestOf t JNull = requestOf t (JObj []) /\
  (requiredArg t <> None \/ seasonText (requestOf t JNull) <> None ->
   handler stringify api t JNull w
   = (Returned (errorResult stringify (defaultCode t) (typeErrorNull "params")),
      w)).
Proof.
  split; [destruct t; reflexivity|].
  destruct t; simpl; intros [H|H]; try congruence; reflexivity.
Qed.

Lemma handler_returned (stringify : Json -> string) (api : Api.t) (t : Tool)
      (request : Json) (w w' : World) (d : Json) :
  request <> JNull -> argPresent t request = true ->
  apiCall api (requestOf t request) w = (Returned d, w') ->
  mrData d = Returned None ->
  handler stringify api t request w
  = (Returned (okResult stringify d (emptySummary t request)), w').
Proof.
  intros Hn Ha Hc Hm.
  destruct t; unfold argPresent in Ha; simpl in Ha, Hc;
    unfold handler, getF1Seasons, getCurrentF1Season, getF1Races,
      getF1RaceDetails, getCurrentF1Race, getNextF1Race, getF1Drivers,
      getF1DriverDetails, getF1Constructors, getF1ConstructorDetails,
      getF1RaceResults, getF1QualifyingResults, getF1DriverStandings,
      getF1ConstructorStandings, tryCatch, bind, liftC;
    rewrite ?(readParams_ok request Hn), ?Ha; unfold negb; cbv beta iota;
    unfold seasonOf in Hc; rewrite Hc, Hm; reflexivity.
Qed.

Lemma assoc_objectOf_absent (k : string) (env : Envelope) :
  forallb (fun p => negb (String.eqb k (fst p))) env = true ->
  assoc k (objectOf env) = None.
Proof.
  induction env as [|[k' [x|]] env IH]; simpl; [reflexivity| |].
  - intros H. apply andb_prop in H as [Hk H].
    apply negb_true_iff in Hk. rewrite Hk. now apply IH.
  - intros H. apply andb_prop in H as [_ H]. now apply IH.
Qed.

(** No envelope of the caching client has an [MRData] property. *)
Lemma envelope_no_MRData (up : HttpRequest -> Z -> Reply) (fy : Z -> string)
      (r : EndpointRequest) (w w' : World) (env : Envelope) :
  invoke up fy r w = (Returned env, w') ->
  assoc "MRData" (objectOf env) = None.
Proof.
  intros H. apply assoc_objectOf_absent. revert H.
  destruct r; unfold invoke, getSeasons, getCurrentSeason, getRaces, getRace,
    getCurrentRace, getNextRace, getDrivers, getDriver, getConstructors,
    getConstructor, getRaceResults, getQualifyingResults, getDriverStandings,
    getConstructorStandings, bind, liftC, ret;
    destruct (makeRequest up _ w) as [[data|e] w1]; try discriminate;
    destruct (mrData data); try discriminate;
    intros [= <- _]; reflexivity.
Qed.

Lemma caching_apiCall (up : HttpRequest -> Z -> Reply) (fy : Z -> string)
      (r : EndpointRequest) :
  apiCall (cachingApi up fy) r = asObject (invoke up fy r).
Proof. destruct r; reflexivity. Qed.

Lemma caching_call_returned (up : HttpRequest -> Z -> Reply)
      (fy : Z -> string) (r : EndpointRequest) (w w' : World) (d : Json) :
  apiCall (cachingApi up fy) r w = (Returned d, w') ->
  exists env, invoke up fy r w = (Returned env, w') /\
              d = JObj (objectOf env) /\ mrData d = Returned None.
Proof.
  rewrite caching_apiCall. unfold asObject, bind, ret.
  destruct (invoke up fy r w) as [[env|e] w1] eqn:Hi; [|discriminate].
  intros [= <- <-]. exists env. split; [reflexivity|]. split; [reflexivity|].
  simpl. now rewrite (envelope_no_MRData up fy r w w1 env Hi).
Qed.

(** With the caching client a tool never sees the provider's [MRData]:
    the client hands it an envelope, so whenever a tool succeeds, its
    summary is the one of empty data (0 races, 0 drivers, "Unknown",
    "Driver not found", ...) whatever the provider sent, and the [data]
    of its payload is the envelope. *)
Theorem caching_summary_is_blind (stringify : Json -> string)
        (up : HttpRequest -> Z -> Reply) (fy : Z -> string) (t : Tool)
        (request : Json) (w w' : World) (res : ToolResult) :
  handler stringify (cachingApi up fy) t request w = (Returned res, w') ->
  isError res = false ->
  exists env,
    invoke up fy (requestOf t request) w = (Returned env, w') /\
    text res
    = stringify (JObj [("success", JBool true);
                       ("data", JObj (objectOf env));
                       ("summary", JStr (emptySummary t request))]).
Proof.
  intros Hh Hok.
  assert (Hcall : forall rq, rq <> JNull -> argPresent t rq = true ->
            handler stringify (cachingApi up fy) t rq w = (Returned res, w') ->
            exists env,
              invoke up fy (requestOf t rq) w = (Returned env, w') /\
              text res
              = stringify (JObj [("success", JBool true);
                                 ("data", JObj (objectOf env));
                                 ("summary", JStr (emptySummary t rq))])).
  { intros rq Hn Ha Hrq.
    destruct (apiCall (cachingApi up fy) (requestOf t rq) w) as [[d|e] w1]
      eqn:Hc.
    - destruct (caching_call_returned up fy _ w w1 d Hc) as (env & Hi & Hd & Hm).
      rewrite (handler_returned stringify _ t rq w w1 d Hn Ha Hc Hm) in Hrq.
      injection Hrq as <- <-. exists env. split; [exact Hi|].
      now rewrite Hd.
    - rewrite (handler_thrown stringify _ t rq w w1 e Hn Ha Hc) in Hrq.
      injection Hrq as <- _. discriminate. }
  assert (Hnull : request = JNull \/ request <> JNull)
    by (destruct request; [left; reflexivity | right; discriminate ..]).
  destruct Hnull as [-> | Hn].
  - destruct (handler_null_request stringify (cachingApi up fy) t w)
      as [_ Hnull].
    destruct t;
      try (rewrite Hnull in Hh by (right; discriminate);
           injection Hh as <- _; discriminate);
      destruct (Hcall (JObj []) ltac:(discriminate) eq_refl Hh)
        as (env & Hi & Ht); exists env; (split; [exact Hi | exact Ht]).
  - destruct (argPresent t request) eqn:Ha; [now apply Hcall|].
    destruct (handler_missing stringify (cachingApi up fy) t _ w Hn Ha)
      as (e & He).
    rewrite He in Hh. injection Hh as <- _. discriminate.
Qed.

(** The races of 2024: the provider sends one race, the tool counts none. *)
Lemma caching_summary_is_blind_witness :
  let request := JObj [("params", JObj [("season", JStr "2024")])] in
  let up := answering (Response.mk 200 body2024) in
  exists res w',
    handler showSummary (cachingApi up year2026) ToolRaces request coldWorld
    = (Returned res, w') /\
    isError res = false /\
    text res = "Retrieved 0 races for 2024 season".
Proof.
  cbv zeta.
  assert (Hh : handler showSummary
                 (cachingApi (answering (Response.mk 200 body2024)) year2026)
                 ToolRaces (JObj [("params", JObj [("season", JStr "2024")])])
                 coldWorld
               = (Returned {| text := "Retrieved 0 races for 2024 season";
                              isError := false |},
                  {| cache := {[ "/2024.json" :=
                                   NodeCache.mkEntry 1801120 body2024 ]};
                     clock := 1120;
                     calls := [plainGet "/2024.json"] |}))
    by (vm_compute; reflexivity).
  destruct (caching_summary_is_blind _ _ _ _ _ _ _ _ Hh eq_refl)
    as (env & _ & Ht).
  eexists _, _. split; [exact Hh|]. split; [reflexivity|].
  rewrite Ht. reflexivity.
Defined.

(* ===================================================================== *)
(** ** Dispatch *)
(* ===================================================================== *)

Lemma tryCatch_handler (stringify : Json -> string) (api : Api.t) (t : Tool)
      (request : Json) (h : JsError -> M ToolResult) (w : World) :
  tryCatch (handler stringify api t request) h w
  = handler stringify api t request w.
Proof.
  unfold tryCatch.
  destruct (handler_returns stringify api t request w) as (res & Hr).
  destruct (handler stringify api t request w) as [c w']. simpl in Hr.
  now subst c.
Qed.

(** The tool call handler answers a name that no tool bears with an
    "Unknown tool" error result, without running any handler; for the
    name of a tool it answers exactly what the tool's handler answers:
    handlers never throw, so the "Error executing tool" result is never
    produced. *)
Theorem callTool_dispatch (stringify : Json -> string) (api : Api.t)
        (request params : Json) (w : World) :
  request <> JNull ->
  member request "params" = Some params -> params <> JNull ->
  match findTool (member params "name") with
  | Some t =>
      member params "name" = Some (JStr (toolName t)) /\
      callTool stringify api request w = handler stringify api t request w
  | None =>
      callTool stringify api request w
      = (Returned {| text := "Unknown tool: " +:+ template (member params "name");
                     isError := true |},
         w)
  end.
Proof.
  intros Hn Hp Hpn. unfold callTool, bind, liftC.
  replace (match request with
           | JNull => Thrown (typeErrorNull "params")
           | _ => match member request "params" with
                  | None => Thrown (newError
                      "Cannot read properties of undefined (reading 'name')")
                  | Some JNull => Thrown (typeErrorNull "name")
                  | Some params0 => Returned (member params0 "name")
                  end
           end) with (Returned (A := option Json) (member params "name")).
  2: { destruct request; try congruence; rewrite Hp;
       destruct params; congruence. }
  destruct (findTool (member params "name")) as [t|] eqn:Hf.
  - split; [now apply findTool_Some|]. apply tryCatch_handler.
  - reflexivity.
Qed.

(** A call of [get_f1_seasons], and a call of a tool that does not exist. *)
Lemma callTool_dispatch_witness :
  let up := answering (Response.mk 200 body2024) in
  let known := JObj [("params", JObj [("name", JStr "get_f1_seasons")])] in
  let unknown := JObj [("params", JObj [("name", JStr "get_f1_laps")])] in
  callTool showSummary (proxyApi up) known coldWorld
  = handler showSummary (proxyApi up) ToolSeasons known coldWorld /\
  callTool showSummary (proxyApi up) unknown coldWorld
  = (Returned {| text := "Unknown tool: get_f1_laps"; isError := true |},
     coldWorld).
Proof.
  cbv zeta. split.
  - exact (proj2 (callTool_dispatch showSummary
                    (proxyApi (answering (Response.mk 200 body2024)))
                    (JObj [("params", JObj [("name", JStr "get_f1_seasons")])])
                    (JObj [("name", JStr "get_f1_seasons")]) coldWorld
                    ltac:(discriminate) eq_refl ltac:(discriminate))).
  - exact (callTool_dispatch showSummary
             (proxyApi (answering (Response.mk 200 body2024)))
             (JObj [("params", JObj [("name", JStr "get_f1_laps")])])
             (JObj [("name", JStr "get_f1_laps")]) coldWorld
             ltac:(discriminate) eq_refl ltac:(discriminate)).
Defined.

(* ===================================================================== *)
(** ** The route [POST /tools/invoke] *)
(* ===================================================================== *)

(** The request the route builds puts the caller's parameters under
    [params.arguments], where no handler looks. *)
Lemma handler_ignores_arguments (stringify : Json -> string) (api : Api.t)
      (t : Tool) (name p p' : Json) :
  handler stringify api t
          (JObj [("params", JObj [("name", name); ("arguments", p)])])
  = handler stringify api t
            (JObj [("params", JObj [("name", name); ("arguments", p')])]).
Proof. destruct t; reflexivity. Qed.

Lemma toolsInvoke_known (stringify : Json -> string) (api : Api.t)
      (iso : Z -> string) (reqBody : Json) (t : Tool) (w : World) :
  reqBody <> JNull ->
  member reqBody "tool" = Some (JStr (toolName t)) ->
  let parameters := orDefault (JObj []) (member reqBody "parameters") in
  let request := JObj [("params", JObj [("name", JStr (toolName t));
                                        ("arguments", parameters)])] in
  exists res,
    fst (handler stringify api t request w) = Returned res /\
    toolsInvoke stringify api iso reqBody w
    = (Returned
         {| statusCode := 200;
            body := JObj [("success", JBool true);
                          ("tool", JStr (toolName t));
                          ("parameters", parameters);
                          ("result", contentOf res);
                          ("timestamp",
                           JStr (iso (clock (snd (handler stringify api t
                                                          request w)))))] |},
       snd (handler stringify api t request w)).
Proof.
  intros Hn Ht parameters request.
  destruct (handler_returns stringify api t request w) as (res & Hr).
  exists res. split; [exact Hr|].
  unfold toolsInvoke, tryCatch, bind, liftC.
  replace (match reqBody with
           | JNull => Thrown typeErrorDestructure
           | _ => Returned (member reqBody "tool",
                            orDefault (JObj []) (member reqBody "parameters"))
           end)
    with (Returned (A := option Json * Json)
                   (Some (JStr (toolName t)), parameters))
    by (destruct reqBody; try congruence; now rewrite Ht).
  cbv beta iota. cbn [fst snd].
  replace (truthy (JStr (toolName t))) with true by (now destruct t).
  rewrite findTool_name. fold request.
  destruct (handler stringify api t request w) as [c w1]. simpl in Hr.
  subst c. reflexivity.
Qed.

(** The parameters a caller posts never reach a tool.  Two request bodies
    that name the same tool get the same status, the same result (or
    error) and leave the same world, whatever parameters they carry: a
    season is always taken to be "current". *)
Theorem toolsInvoke_ignores_parameters (stringify : Json -> string)
        (api : Api.t) (iso : Z -> string) (body1 body2 : Json) (w : World) :
  body1 <> JNull -> body2 <> JNull ->
  member body1 "tool" = member body2 "tool" ->
  exists resp1 resp2 w',
    toolsInvoke stringify api iso body1 w = (Returned resp1, w') /\
    toolsInvoke stringify api iso body2 w = (Returned resp2, w') /\
    statusCode resp1 = statusCode resp2 /\
    member (body resp1) "result" = member (body resp2) "result" /\
    member (body resp1) "error" = member (body resp2) "error".
Proof.
  intros H1 H2 Heq.
  destruct (member body2 "tool") as [name|] eqn:Hname.
  - destruct (truthy name) eqn:Htr.
    + destruct (findTool (Some name)) as [t|] eqn:Hf.
      * apply findTool_Some in Hf as [= ->].
        destruct (toolsInvoke_known stringify api iso body1 t w H1 Heq)
          as (r1 & Hr1 & ->).
        destruct (toolsInvoke_known stringify api iso body2 t w H2 Hname)
          as (r2 & Hr2 & ->).
        cbv zeta in *.
        rewrite (handler_ignores_arguments stringify api t _ _
                   (orDefault (JObj []) (member body2 "parameters")))
          in Hr1 |- *.
        rewrite Hr1 in Hr2. injection Hr2 as <-.
        eexists _, _, _. repeat split.
      * unfold toolsInvoke, tryCatch, bind, liftC.
        eexists _, _, w.
        split; [|split].
        -- destruct body1; try congruence; rewrite Heq; cbv beta iota;
             cbn [fst snd]; rewrite Htr, Hf; reflexivity.
        -- destruct body2; try congruence; rewrite Hname; cbv beta iota;
             cbn [fst snd]; rewrite Htr, Hf; reflexivity.
        -- repeat split.
    + unfold toolsInvoke, tryCatch, bind, liftC.
      eexists _, _, w.
      split; [|split].
      * destruct body1; try congruence; rewrite Heq; cbv beta iota;
          cbn [fst snd]; rewrite Htr; reflexivity.
      * destruct body2; try congruence; rewrite Hname; cbv beta iota;
          cbn [fst snd]; rewrite Htr; reflexivity.
      * repeat split.
  - unfold toolsInvoke, tryCatch, bind, liftC.
    eexists _, _, w.
    split; [|split].
    + destruct body1; try congruence; rewrite Heq; reflexivity.
    + destruct body2; try congruence; rewrite Hname; reflexivity.
    + repeat split.
Qed.

(** The race details of round 5 of 2024, posted with and without the
    parameters: the same answer. *)
Lemma toolsInvoke_ignores_parameters_witness :
  exists resp1 resp2 w',
    toolsInvoke showSummary (cachingApi unreachable year2026) isoEpoch
                raceDetailsBody coldWorld = (Returned resp1, w') /\
    toolsInvoke showSummary (cachingApi unreachable year2026) isoEpoch
                (JObj [("tool", JStr "get_f1_race_details")]) coldWorld
    = (Returned resp2, w') /\
    statusCode resp1 = statusCode resp2 /\
    member (body resp1) "result" = member (body resp2) "result" /\
    member (body resp1) "error" = member (body resp2) "error".
Proof.
  exact (toolsInvoke_ignores_parameters showSummary
           (cachingApi unreachable year2026) isoEpoch raceDetailsBody
           (JObj [("tool", JStr "get_f1_race_details")]) coldWorld
           ltac:(discriminate) ltac:(discriminate) eq_refl).
Defined.

(** Through the route, a tool that insists on an argument can never be
    given one: whatever the posted parameters, it answers with its "...
    is required" error result, the client is not called, and the HTTP
    response is a 200 with [success: true] wrapped around that error. *)
Theorem toolsInvoke_required_argument_lost (stringify : Json -> string)
        (api : Api.t) (iso : Z -> string) (reqBody : Json) (t : Tool)
        (key msg : string) (w : World) :
  reqBody <> JNull ->
  member reqBody "tool" = Some (JStr (toolName t)) ->
  requiredArg t = Some (key, msg) ->
  toolsInvoke stringify api iso reqBody w
  = (Returned
       {| statusCode := 200;
          body :=
            JObj [("success", JBool true);
                  ("tool", JStr (toolName t));
                  ("parameters",
                   orDefault (JObj []) (member reqBody "parameters"));
                  ("result",
                   JArr [JObj [("type", JStr "text");
                               ("text",
                                JStr (stringify
                                        (JObj [("success", JBool false);
                                               ("error",
                                                JObj [("message", JStr msg);
                                                      ("code",
                                                       JStr (defaultCode t))])])))]]);
                  ("timestamp", JStr (iso (clock w)))] |},
     w).
Proof.
  intros Hn Ht Hr.
  destruct (toolsInvoke_known stringify api iso reqBody t w Hn Ht)
    as (res & Hres & ->).
  cbv zeta in *.
  assert (Hm : handler stringify api t
                 (JObj [("params",
                         JObj [("name", JStr (toolName t));
                               ("arguments",
                                orDefault (JObj [])
                                          (member reqBody "parameters"))])]) w
               = (Returned
                    {| text := stringify
                                 (JObj [("success", JBool false);
                                        ("error",
                                         JObj [("message", JStr msg);
                                               ("code", JStr (defaultCode t))])]);
                       isError := true |}, w)).
  { apply (handler_missing_exact stringify api t _ key msg w Hr);
      [discriminate|].
    destruct t; simpl in Hr; try discriminate; injection Hr as <- <-;
      reflexivity. }
  rewrite Hm in Hres |- *. simpl in Hres. injection Hres as <-.
  reflexivity.
Qed.

(** The race details of round 5 of 2024 through the route. *)
Lemma toolsInvoke_required_argument_lost_witness :
  toolsInvoke showSummary (cachingApi unreachable year2026) isoEpoch
              raceDetailsBody coldWorld
  = (Returned
       {| statusCode := 200;
          body :=
            JObj [("success", JBool true);
                  ("tool", JStr "get_f1_race_details");
                  ("parameters",
                   JObj [("season", JStr "2024"); ("round", JNum 5)]);
                  ("result",
                   JArr [JObj [("type", JStr "text");
                               ("text",
                                JStr (showSummary
                                        (JObj [("success", JBool false);
                                               ("error",
                                                JObj [("message",
                                                       JStr "Round number is required");
                                                      ("code",
                                                       JStr "RACE_DETAILS_ERROR")])])))]]);
                  ("timestamp", JStr (isoEpoch 1000))] |},
     coldWorld).
Proof.
  exact (toolsInvoke_required_argument_lost showSummary
           (cachingApi unreachable year2026) isoEpoch raceDetailsBody
           ToolRaceDetails "round" "Round number is required" coldWorld
           ltac:(discriminate) eq_refl eq_refl).
Defined.

(** The route turns away a body without a tool name (or with a falsy
    one) with a 400, and a name that no tool bears with a 404 that lists
    the fourteen tool names; in both cases nothing else happens. *)
Theorem toolsInvoke_rejections (stringify : Json -> string) (api : Api.t)
        (iso : Z -> string) (reqBody : Json) (w : World) :
  reqBody <> JNull ->
  (truthyOpt (member reqBody "tool") = false ->
   toolsInvoke stringify api iso reqBody w
   = (Returned {| statusCode := 400;
                  body := JObj [("success", JBool false);
                                ("error", JStr "Tool name is required")] |},
      w)) /\
  (truthyOpt (member reqBody "tool") = true ->
   findTool (member reqBody "tool") = None ->
   toolsInvoke stringify api iso reqBody w
   = (Returned
        {| statusCode := 404;
           body :=
             JObj [("success", JBool false);
                   ("error",
                    JStr ("Unknown tool: " +:+ template (member reqBody "tool")));
                   ("availableTools",
                    JArr (map (fun t => JStr (toolName t)) allTools))] |},
      w)).
Proof.
  intros Hn. unfold toolsInvoke, tryCatch, bind, liftC.
  split.
  - intros Hf. destruct reqBody; try congruence; cbv beta iota; cbn [fst snd];
      destruct (member _ "tool") as [name|]; try reflexivity;
      simpl in Hf; rewrite Hf; reflexivity.
  - intros Ht Hf. destruct reqBody; try congruence; cbv beta iota;
      cbn [fst snd];
      (destruct (member _ "tool") as [name|] eqn:Hname; [|discriminate]);
      simpl in Ht; rewrite Ht, Hf; reflexivity.
Qed.

(** A body with no tool name, and one that asks for lap times. *)
Lemma toolsInvoke_rejections_witness :
  toolsInvoke showSummary (proxyApi unreachable) isoEpoch (JObj []) coldWorld
  = (Returned {| statusCode := 400;
                 body := JObj [("success", JBool false);
                               ("error", JStr "Tool name is required")] |},
     coldWorld) /\
  statusCode <$> (match fst (toolsInvoke showSummary (proxyApi unreachable)
                                         isoEpoch
                                         (JObj [("tool", JStr "get_f1_lap_times")])
                                         coldWorld) with
                  | Returned resp => Some resp
                  | Thrown _ => None
                  end) = Some 404.
Proof.
  split.
  - exact (proj1 (toolsInvoke_rejections showSummary (proxyApi unreachable)
                    isoEpoch (JObj []) coldWorld ltac:(discriminate)) eq_refl).
  - rewrite (proj2 (toolsInvoke_rejections showSummary (proxyApi unreachable)
                      isoEpoch (JObj [("tool", JStr "get_f1_lap_times")])
                      coldWorld ltac:(discriminate)) eq_refl eq_refl).
    reflexivity.
Defined.

(* ===================================================================== *)
(** ** Start-up *)
(* ===================================================================== *)

Lemma healthCheck_returns (up : HttpRequest -> Z -> Reply) (w : World) :
  exists b, healthCheck up w = (Returned b, snd (healthCheck up w)).
Proof.
  destruct (probe_status_200 up formatError
              {| url := "/seasons.json"; params := [("limit", JNum 1)] |} w)
    as (b & Hb & _).
  exists b. unfold healthCheck, client_get. now rewrite Hb.
Qed.

Lemma proxy_healthCheck_returns (up : HttpRequest -> Z -> Reply) (w : World) :
  exists b, ProxyClient.healthCheck up w
            = (Returned b, snd (ProxyClient.healthCheck up w)).
Proof.
  destruct (probe_status_200 up ProxyClient.formatError (plainGet "/health") w)
    as (b & Hb & _).
  exists b. unfold ProxyClient.healthCheck, ProxyClient.client_get.
  now rewrite Hb.
Qed.

(** [start()] never throws.  When the probe fails outside production the
    process exits with code 1 before the transport is touched; when the
    probe succeeds, or in production whatever the probe says, the outcome
    is that of bringing up the transport: started, or exit code 1 when
    that throws. *)
Theorem start_gate (up : HttpRequest -> Z -> Reply) (nodeEnv : option string)
        (connect : M unit) (w : World) :
  let w1 := snd (healthCheck up w) in
  (fst (healthCheck up w) = Returned false -> isProduction nodeEnv = false ->
   start up nodeEnv connect w = (Returned (Exited 1), w1)) /\
  (fst (healthCheck up w) = Returned true \/ isProduction nodeEnv = true ->
   start up nodeEnv connect w
   = (match fst (connect w1) with
      | Returned _ => Returned Started
      | Thrown _ => Returned (Exited 1)
      end, snd (connect w1))).
Proof.
  cbv zeta. destruct (healthCheck_returns up w) as (b & Hb).
  unfold start, tryCatch, bind.
  destruct (healthCheck up w) as [c w1]. simpl in Hb |- *.
  injection Hb as ->. split.
  - intros [= ->] Hp. rewrite Hp. reflexivity.
  - intros H.
    assert (Hgo : (if b then ret tt
                   else if isProduction nodeEnv then ret tt
                        else throw (newError
                          "Jolpica F1 API is not available and required in development mode"))
                  = ret tt).
    { destruct b; [reflexivity|]. destruct H as [H|H]; [discriminate|].
      now rewrite H. }
    rewrite Hgo. unfold ret.
    destruct (connect w1) as [[[]|e] w2]; reflexivity.
Qed.

(** The provider is down: the development server exits, the production
    server starts. *)
Lemma start_gate_witness :
  fst (start unreachable (Some "development") (ret tt) coldWorld)
  = Returned (Exited 1) /\
  fst (start unreachable (Some "production") (ret tt) coldWorld)
  = Returned Started.
Proof.
  split.
  - rewrite (proj1 (start_gate unreachable (Some "development") (ret tt)
                      coldWorld) eq_refl eq_refl).
    reflexivity.
  - rewrite (proj2 (start_gate unreachable (Some "production") (ret tt)
                      coldWorld) (or_intror eq_refl)).
    reflexivity.
Defined.

(** The server of the proxy client does not look at the answer of its
    probe: it sends the probe, then brings up the transport, and starts
    whenever that succeeds, also when the proxy is down. *)
Theorem startStdio_ignores_probe (up : HttpRequest -> Z -> Reply)
        (connect : M unit) (w : World) :
  let w1 := snd (ProxyClient.healthCheck up w) in
  calls w1 = calls w ++ [plainGet "/health"] /\
  startStdio up connect w
  = (match fst (connect w1) with
     | Returned _ => Returned Started
     | Thrown _ => Returned (Exited 1)
     end, snd (connect w1)).
Proof.
  cbv zeta. split.
  - destruct (probe_status_200 up ProxyClient.formatError (plainGet "/health") w)
      as (b & Hb & _).
    unfold ProxyClient.healthCheck, ProxyClient.client_get. now rewrite Hb.
  - destruct (proxy_healthCheck_returns up w) as (b & Hb).
    unfold startStdio, tryCatch, bind.
    destruct (ProxyClient.healthCheck up w) as [c w1]. simpl in Hb |- *.
    injection Hb as ->. unfold ret.
    destruct (connect w1) as [[[]|e] w2]; reflexivity.
Qed.

(* ===================================================================== *)
(** ** The CORS middleware *)
(* ===================================================================== *)

Lemma existsb_eqb_In (o : string) (l : list string) :
  existsb (String.eqb o) l = true <-> In o l.
Proof.
  rewrite existsb_exists. split.
  - intros (x & Hx & He). apply String.eqb_eq in He. now subst.
  - intros H. exists o. split; [exact H | apply String.eqb_refl].
Qed.

(** With [CORS_ORIGIN] unset, the middleware echoes the origin of a
    request in [Access-Control-Allow-Origin] exactly when the origin is
    one of the five listed strings; the ["*"] of the list is compared
    like the others and is no wildcard, so any other origin, and a
    request without an origin, gets no such header.  The credentials
    header is always sent, and an [OPTIONS] request is always ended with
    status 200. *)
Theorem cors_default_is_exact_match (origin : option string) (method : string) :
  let answer := corsMiddleware None origin method in
  (header "Access-Control-Allow-Origin" (fst answer)
   = match origin with
     | Some o => if existsb (String.eqb o) defaultOrigins then Some o else None
     | None => None
     end) /\
  (forall o, origin = Some o -> ~ In o defaultOrigins ->
             header "Access-Control-Allow-Origin" (fst answer) = None) /\
  header "Access-Control-Allow-Credentials" (fst answer) = Some "true" /\
  (method = "OPTIONS" -> snd answer = EndWith 200) /\
  (method <> "OPTIONS" -> snd answer = CallNext).
Proof.
  cbv zeta.
  assert (H1 : header "Access-Control-Allow-Origin"
                 (fst (corsMiddleware None origin method))
               = match origin with
                 | Some o => if existsb (String.eqb o) defaultOrigins
                             then Some o else None
                 | None => None
                 end).
  { unfold corsMiddleware. cbn [fst].
    destruct origin as [o|]; [|reflexivity].
    change (originAllowed None (Some o))
      with (existsb (String.eqb o) defaultOrigins).
    destruct (existsb (String.eqb o) defaultOrigins) eqn:He; [|reflexivity].
    destruct o as [|c o]; [discriminate He | reflexivity]. }
  split; [exact H1|]. split.
  - intros o -> Hn. rewrite H1.
    destruct (existsb (String.eqb o) defaultOrigins) eqn:He; [|reflexivity].
    apply existsb_eqb_In in He. contradiction.
  - split.
    + unfold corsMiddleware. cbn [fst].
      destruct (originAllowed None origin); reflexivity.
    + unfold corsMiddleware. cbn [snd]. split.
      * intros ->. reflexivity.
      * intros Hm. apply String.eqb_neq in Hm. now rewrite Hm.
Qed.

(** A page served from another host. *)
Lemma cors_default_is_exact_match_witness :
  header "Access-Control-Allow-Origin"
         (fst (corsMiddleware None (Some "https://example.org") "GET")) = None /\
  snd (corsMiddleware None (Some "https://example.org") "OPTIONS")
  = EndWith 200.
Proof.
  split.
  - apply (proj1 (proj2 (cors_default_is_exact_match
                           (Some "https://example.org") "GET"))
             "https://example.org" eq_refl).
    simpl. intros [H|[H|[H|[H|[H|[]]]]]]; discriminate.
  - exact (proj1 (proj2 (proj2 (proj2 (cors_default_is_exact_match
                                         (Some "https://example.org")
                                         "OPTIONS")))) eq_refl).
Defined.

(** With [CORS_ORIGIN] set to ["*"] every answer carries
    [Access-Control-Allow-Origin], echoing the origin of the request or
    ["*"] when it has none; with [CORS_ORIGIN] set to any other value the
    header is sent, echoing the origin, exactly for the requests whose
    origin is that value. *)
Theorem cors_configured_origin (c : ascii) (rest : string)
        (origin : option string) (method : string) :
  let configured := String c rest in
  let answer := corsMiddleware (Some configured) origin method in
  (configured = "*" ->
   header "Access-Control-Allow-Origin" (fst answer)
   = Some match origin with
          | Some (String a o) => String a o
          | _ => "*"
          end) /\
  (configured <> "*" ->
   header "Access-Control-Allow-Origin" (fst answer)
   = match origin with
     | Some o => if String.eqb o configured then Some o else None
     | None => None
     end).
Proof.
  cbv zeta. unfold corsMiddleware. cbn [fst]. split.
  - intros Hc.
    replace (originAllowed (Some (String c rest)) origin) with true;
      [reflexivity|].
    unfold originAllowed. now rewrite Hc.
  - intros Hc. apply String.eqb_neq in Hc.
    unfold originAllowed, allowedOrigins. rewrite Hc. cbn [orb].
    destruct origin as [o|]; [|reflexivity].
    cbn [existsb]. rewrite orb_false_r.
    destruct (String.eqb o (String c rest)) eqn:He; [|reflexivity].
    apply String.eqb_eq in He. subst o. reflexivity.
Qed.

(** The service configured for one front end. *)
Lemma cors_configured_origin_witness :
  header "Access-Control-Allow-Origin"
         (fst (corsMiddleware (Some "https://f1.example") (Some "https://f1.example")
                              "GET"))
  = Some "https://f1.example" /\
  header "Access-Control-Allow-Origin"
         (fst (corsMiddleware (Some "https://f1.example")
                              (Some "http://localhost:3000") "GET"))
  = None.
Proof.
  split.
  - rewrite (proj2 (cors_configured_origin "h" "ttps://f1.example"
                      (Some "https://f1.example") "GET")) by discriminate.
    reflexivity.
  - rewrite (proj2 (cors_configured_origin "h" "ttps://f1.example"
                      (Some "http://localhost:3000") "GET")) by discriminate.
    reflexivity.
Defined.

(** When the client hands a tool a [null] (the proxy client does, for a
    response whose body is [null]), the tool does not throw: it answers
    with an error result that carries the [TypeError] message and its
    default code. *)
Theorem null_data_reported (stringify : Json -> string) (api : Api.t)
        (t : Tool) (request : Json) (w w' : World) :
  request <> JNull -> argPresent t request = true ->
  apiCall api (requestOf t request) w = (Returned JNull, w') ->
  handler stringify api t request w
  = (Returned
       {| text := stringify
                    (JObj [("success", JBool false);
                           ("error",
                            JObj [("message",
                                   JStr "Cannot read properties of null (reading 'MRData')");
                                  ("code", JStr (defaultCode t))])]);
          isError := true |},
     w').
Proof.
  intros Hn Ha Hc.
  destruct t; unfold argPresent in Ha; simpl in Ha, Hc;
    unfold handler, getF1Seasons, getCurrentF1Season, getF1Races,
      getF1RaceDetails, getCurrentF1Race, getNextF1Race, getF1Drivers,
      getF1DriverDetails, getF1Constructors, getF1ConstructorDetails,
      getF1RaceResults, getF1QualifyingResults, getF1DriverStandings,
      getF1ConstructorStandings, tryCatch, bind, liftC;
    rewrite ?(readParams_ok request Hn), ?Ha; unfold negb; cbv beta iota;
    unfold seasonOf in Hc; rewrite Hc; reflexivity.
Qed.

(** The proxy answers the seasons with a bare [null]. *)
Lemma null_data_reported_witness :
  handler showSummary (proxyApi (answering (Response.mk 200 JNull)))
          ToolSeasons (JObj []) coldWorld
  = (Returned
       {| text := showSummary
                    (JObj [("success", JBool false);
                           ("error",
                            JObj [("message",
                                   JStr "Cannot read properties of null (reading 'MRData')");
                                  ("code", JStr "SEASONS_ERROR")])]);
          isError := true |},
     {| cache := ∅; clock := 1120; calls := [plainGet "/api/seasons"] |}).
Proof.
  apply (null_data_reported showSummary
           (proxyApi (answering (Response.mk 200 JNull)))
           ToolSeasons (JObj []) coldWorld
           {| cache := ∅; clock := 1120; calls := [plainGet "/api/seasons"] |});
    [discriminate | reflexivity | reflexivity].
Defined.
